(** * The ETNIP-1 priority (dual-signature) transaction of web3-eth-accounts

    A shallow embedding of [PriorityETNIP1Transaction]
    (packages/web3-eth-accounts/src/tx, transaction type 64) together with
    the helpers it calls, and the properties of its construction,
    serialisation, hashing, key recovery and signing. *)

From Stdlib Require Import ZArith List Bool Lia String Ascii.
From Stdlib Require Import Strings.Byte.
Import ListNotations.
Local Open Scope Z_scope.

(** ** Errors

    The code throws plain [Error]s that differ only by their message; every
    throw site is mapped to the error kind that the design document gives
    it.  The last kinds are throw sites of helpers for which the document
    names no kind. *)

Inductive TxError : Type :=
| WrongTransactionType
| WrongFieldCount
| InvalidFieldEncoding
| InvalidFieldShape
| IntegerOverflow
| FeeOrderingViolation
| InvalidSignatureParity
| HighSSignature
| InvalidKeyLength
| InvalidSignature
| NotSigned
| UnsupportedUpgrade
| InvalidFieldValue      (* a negative bigint given to toUint8Array *)
| InvalidAddressLength   (* address or storage key of the wrong size *)
| ChainIdMismatch        (* chainId differs from the one of Common *)
| SignerFailure.         (* secp256k1.sign threw *)

Inductive result (A : Type) : Type :=
| Ok (a : A)
| Err (e : TxError).
Arguments Ok {A} a.
Arguments Err {A} e.

Definition bind {A B : Type} (m : result A) (k : A -> result B) : result B :=
  match m with
  | Ok a => k a
  | Err e => Err e
  end.

Notation "x <- m ;; k" := (bind m (fun x => k))
  (at level 61, m at next level, right associativity).
Notation "m ;;; k" := (bind m (fun _ => k))
  (at level 61, right associativity).

(** [throw_if c e] is [if (c) throw e]. *)
Definition throw_if (c : bool) (e : TxError) : result unit :=
  if c then Err e else Ok tt.

(** ** Bytes and big integers *)

Module Bytes.

Definition bytes := list byte.

Definition byte_of_Z (z : Z) : byte :=
  match Byte.of_N (Z.to_N (z mod 256)) with
  | Some b => b
  | None => x00
  end.

Definition Z_of_byte (b : byte) : Z := Z.of_N (Byte.to_N b).

(** Modelled from the spec: [uint8ArrayToBigInt] of common/utils.ts, the
    unsigned big-endian value of a byte string, 0 for the empty one. *)
Definition uint8ArrayToBigInt (buf : bytes) : Z :=
  fold_left (fun acc b => acc * 256 + Z_of_byte b) buf 0.

(** The bytes of [n] in base 256, most significant first, in front of
    [acc]; [fuel] bounds the number of digits. *)
Fixpoint unpadded_be (fuel : nat) (n : Z) (acc : bytes) : bytes :=
  match fuel with
  | O => acc
  | S f =>
      if n <=? 0 then acc
      else unpadded_be f (n / 256) (byte_of_Z (n mod 256) :: acc)
  end.

(** Modelled from the spec: [bigIntToUnpaddedUint8Array] of
    common/utils.ts: an integer serializes as its minimal-length big-endian
    byte string, the empty byte string for zero. *)
Definition bigIntToUnpaddedUint8Array (n : Z) : bytes :=
  unpadded_be (S (Z.to_nat (Z.log2 n))) n [].

(** Hexadecimal literals, as [hexToBytes] reads them. *)
Definition hex_digit (c : ascii) : Z :=
  let n := Z.of_nat (nat_of_ascii c) in
  if (48 <=? n) && (n <=? 57) then n - 48
  else if (97 <=? n) && (n <=? 102) then n - 87
  else if (65 <=? n) && (n <=? 70) then n - 55
  else 0.

Fixpoint hexToBytes (s : string) : bytes :=
  match s with
  | String hi (String lo rest) =>
      byte_of_Z (16 * hex_digit hi + hex_digit lo) :: hexToBytes rest
  | _ => []
  end.

End Bytes.
Import Bytes.

(** ** The binary codec *)

Module RLP.

(** A value of the codec: a byte string or a list of values. *)
#[warnings="-register-all"]
Inductive Item : Type :=
| Str (b : bytes)
| Lst (l : list Item).

(** Big-endian bytes of a length (the hex digits of [numberToHex]). *)
Definition length_bytes (len : Z) : bytes := bigIntToUnpaddedUint8Array len.

Definition encodeLength (len offset : Z) : bytes :=
  if len <? 56 then [byte_of_Z (len + offset)]
  else
    let hexLength := length_bytes len in
    byte_of_Z (offset + 55 + Z.of_nat (List.length hexLength)) :: hexLength.

(** Modelled from the spec: [RLP.encode] of the external codec library, by
    the standard short/long length-prefix rules (a single byte below 0x80
    is its own encoding; a string gets offset 0x80, a list offset 0xc0). *)
Fixpoint encode (input : Item) : bytes :=
  match input with
  | Lst l =>
      let output :=
        (fix encode_all (xs : list Item) : bytes :=
           match xs with
           | [] => []
           | x :: rest => encode x ++ encode_all rest
           end) l in
      encodeLength (Z.of_nat (List.length output)) 192 ++ output
  | Str inputBuf =>
      match inputBuf with
      | [b] =>
          if Z_of_byte b <? 128 then inputBuf
          else encodeLength 1 128 ++ inputBuf
      | _ => encodeLength (Z.of_nat (List.length inputBuf)) 128 ++ inputBuf
      end
  end.

End RLP.

(** ** The capability registry *)

Module Common.

(** The forks of [Hardfork], in activation order. *)
Inductive Hardfork : Type :=
| Chainstart | Homestead | Dao | TangerineWhistle | SpuriousDragon
| Byzantium | Constantinople | Petersburg | Istanbul | MuirGlacier
| Berlin | London | ArrowGlacier | Merge | Shanghai.

Definition rank (h : Hardfork) : Z :=
  match h with
  | Chainstart => 0 | Homestead => 1 | Dao => 2 | TangerineWhistle => 3
  | SpuriousDragon => 4 | Byzantium => 5 | Constantinople => 6
  | Petersburg => 7 | Istanbul => 8 | MuirGlacier => 9 | Berlin => 10
  | London => 11 | ArrowGlacier => 12 | Merge => 13 | Shanghai => 14
  end.

(** Modelled from the spec: the registry [Common] (common/common.ts is not
    part of the sources at hand): a chain identifier, a fork and a set of
    explicitly activated upgrades. *)
Record t : Type := mk {
  chainId : Z;
  hardfork : Hardfork;
  eips : list Z
}.

Definition gteHardfork (c : t) (h : Hardfork) : bool :=
  rank h <=? rank (hardfork c).

(** The fork that declares an upgrade, for the upgrades used here. *)
Definition declared_at (eip : Z) : option Hardfork :=
  if eip =? 155 then Some SpuriousDragon
  else if (eip =? 2718) || (eip =? 2930) then Some Berlin
  else if eip =? 1559 then Some London
  else None.

(** Modelled from the spec: an upgrade is active when it is in the
    explicit set or the fork is at or after its declared activation. *)
Definition isActivatedEIP (c : t) (eip : Z) : bool :=
  existsb (Z.eqb eip) (eips c)
  || match declared_at eip with
     | Some h => gteHardfork c h
     | None => false
     end.

End Common.

(** ** Constants *)

Definition TRANSACTION_TYPE : Z := 64.
Definition TRANSACTION_TYPE_UINT8ARRAY : bytes := [byte_of_Z TRANSACTION_TYPE].

(** Modelled from the spec: [MAX_INTEGER] of tx/constants.ts, the bound
    2^256 - 1 of the numeric fields. *)
Definition MAX_INTEGER : Z := 2 ^ 256 - 1.

(** Modelled from the spec: [SECP256K1_ORDER_DIV_2] of tx/constants.ts,
    half the order of the secp256k1 group, rounded down. *)
Definition SECP256K1_ORDER : Z :=
  0xFFFFFFFFFFFFFFFFFFFFFFFFFFFFFFFEBAAEDCE6AF48A03BBFD25E8CD0364141.
Definition SECP256K1_ORDER_DIV_2 : Z := SECP256K1_ORDER / 2.

(** [Capability.EIP155ReplayProtection]. *)
Definition EIP155ReplayProtection : Z := 155.

(** ** Inputs *)

(** A value accepted for a field of the transaction data: absent, the empty
    string, a bigint, a byte array, or a (decoded) JavaScript array. *)
Inductive BigIntLike : Type :=
| Undefined
| EmptyString
| BigInt (n : Z)
| Uint8Array (b : bytes)
| JsArray (l : list RLP.Item).

(** The access list in its byte form: pairs of an address and storage keys. *)
Definition AccessListUint8Array : Type := list (bytes * list bytes).

Record TxOptions : Type := mkTxOptions {
  opt_common : option Common.t;
  opt_freeze : option bool
}.

Record PriorityETNIP1TxData : Type := mkTxData {
  td_chainId : BigIntLike;
  td_nonce : BigIntLike;
  td_maxPriorityFeePerGas : BigIntLike;
  td_maxFeePerGas : BigIntLike;
  td_gasLimit : BigIntLike;
  td_to : BigIntLike;
  td_value : BigIntLike;
  td_data : BigIntLike;
  td_accessList : option AccessListUint8Array;
  td_v : BigIntLike;
  td_r : BigIntLike;
  td_s : BigIntLike;
  td_pV : BigIntLike;
  td_pR : BigIntLike;
  td_pS : BigIntLike
}.

(** What the elliptic-curve signer returns: the recovery id and the compact
    64-byte signature. *)
Record RawSignature : Type := mkRawSignature {
  recovery : Z;
  compactRawBytes : bytes
}.

(** The external functions: the digest, key recovery and signing primitives
    of the cryptography library ([None] when they throw), the conversion
    [Uint8Array.from] of a JavaScript array, and the identifier of
    [DEFAULT_CHAIN]. *)
Class Externals : Type := {
  keccak256 : bytes -> bytes;
  ecrecover : bytes -> Z -> bytes -> bytes -> option bytes;
  secp256k1_sign : bytes -> bytes -> option RawSignature;
  uint8ArrayFrom : list RLP.Item -> bytes;
  DEFAULT_CHAIN_ID : Z
}.

(** ** The transaction instance *)

(** The fields of an instance ([this]); [frozen] records [Object.freeze]
    and [cache_hash] is the slot [this.cache.hash]. *)
Record Tx : Type := mkTx {
  _type : Z;
  nonce : Z;
  gasLimit : Z;
  to : option bytes;
  value : Z;
  data : bytes;
  v : option Z;
  r : option Z;
  s : option Z;
  common : Common.t;
  chainId : Z;
  accessList : AccessListUint8Array;
  maxPriorityFeePerGas : Z;
  maxFeePerGas : Z;
  pV : option Z;
  pR : option Z;
  pS : option Z;
  txOptions : TxOptions;
  activeCapabilities : list Z;
  cache_hash : option bytes;
  frozen : bool
}.

(** Assignments [this.f = x]. *)
Definition set_common (x : Common.t) (t : Tx) : Tx :=
  mkTx (_type t) (nonce t) (gasLimit t) (to t) (value t) (data t) (v t) (r t)
    (s t) x (chainId t) (accessList t) (maxPriorityFeePerGas t)
    (maxFeePerGas t) (pV t) (pR t) (pS t) (txOptions t)
    (activeCapabilities t) (cache_hash t) (frozen t).

Definition set_chainId (x : Z) (t : Tx) : Tx :=
  mkTx (_type t) (nonce t) (gasLimit t) (to t) (value t) (data t) (v t) (r t)
    (s t) (common t) x (accessList t) (maxPriorityFeePerGas t)
    (maxFeePerGas t) (pV t) (pR t) (pS t) (txOptions t)
    (activeCapabilities t) (cache_hash t) (frozen t).

Definition set_accessList (x : AccessListUint8Array) (t : Tx) : Tx :=
  mkTx (_type t) (nonce t) (gasLimit t) (to t) (value t) (data t) (v t) (r t)
    (s t) (common t) (chainId t) x (maxPriorityFeePerGas t)
    (maxFeePerGas t) (pV t) (pR t) (pS t) (txOptions t)
    (activeCapabilities t) (cache_hash t) (frozen t).

Definition set_maxPriorityFeePerGas (x : Z) (t : Tx) : Tx :=
  mkTx (_type t) (nonce t) (gasLimit t) (to t) (value t) (data t) (v t) (r t)
    (s t) (common t) (chainId t) (accessList t) x
    (maxFeePerGas t) (pV t) (pR t) (pS t) (txOptions t)
    (activeCapabilities t) (cache_hash t) (frozen t).

Definition set_maxFeePerGas (x : Z) (t : Tx) : Tx :=
  mkTx (_type t) (nonce t) (gasLimit t) (to t) (value t) (data t) (v t) (r t)
    (s t) (common t) (chainId t) (accessList t) (maxPriorityFeePerGas t)
    x (pV t) (pR t) (pS t) (txOptions t)
    (activeCapabilities t) (cache_hash t) (frozen t).

Definition set_pV (x : option Z) (t : Tx) : Tx :=
  mkTx (_type t) (nonce t) (gasLimit t) (to t) (value t) (data t) (v t) (r t)
    (s t) (common t) (chainId t) (accessList t) (maxPriorityFeePerGas t)
    (maxFeePerGas t) x (pR t) (pS t) (txOptions t)
    (activeCapabilities t) (cache_hash t) (frozen t).

Definition set_pR (x : option Z) (t : Tx) : Tx :=
  mkTx (_type t) (nonce t) (gasLimit t) (to t) (value t) (data t) (v t) (r t)
    (s t) (common t) (chainId t) (accessList t) (maxPriorityFeePerGas t)
    (maxFeePerGas t) (pV t) x (pS t) (txOptions t)
    (activeCapabilities t) (cache_hash t) (frozen t).

Definition set_pS (x : option Z) (t : Tx) : Tx :=
  mkTx (_type t) (nonce t) (gasLimit t) (to t) (value t) (data t) (v t) (r t)
    (s t) (common t) (chainId t) (accessList t) (maxPriorityFeePerGas t)
    (maxFeePerGas t) (pV t) (pR t) x (txOptions t)
    (activeCapabilities t) (cache_hash t) (frozen t).

Definition set_activeCapabilities (x : list Z) (t : Tx) : Tx :=
  mkTx (_type t) (nonce t) (gasLimit t) (to t) (value t) (data t) (v t) (r t)
    (s t) (common t) (chainId t) (accessList t) (maxPriorityFeePerGas t)
    (maxFeePerGas t) (pV t) (pR t) (pS t) (txOptions t)
    x (cache_hash t) (frozen t).

Definition set_cache_hash (x : option bytes) (t : Tx) : Tx :=
  mkTx (_type t) (nonce t) (gasLimit t) (to t) (value t) (data t) (v t) (r t)
    (s t) (common t) (chainId t) (accessList t) (maxPriorityFeePerGas t)
    (maxFeePerGas t) (pV t) (pR t) (pS t) (txOptions t)
    (activeCapabilities t) x (frozen t).

(** [Object.freeze(this)]. *)
Definition freeze_object (t : Tx) : Tx :=
  mkTx (_type t) (nonce t) (gasLimit t) (to t) (value t) (data t) (v t) (r t)
    (s t) (common t) (chainId t) (accessList t) (maxPriorityFeePerGas t)
    (maxFeePerGas t) (pV t) (pR t) (pS t) (txOptions t)
    (activeCapabilities t) (cache_hash t) true.

Section PriorityETNIP1Transaction.

Context {E : Externals}.

(** *** Helpers of the base class and of the utility modules *)

(** Modelled from the spec: [toUint8Array] of common/utils.ts, which is not
    part of the sources at hand.  An absent value is the empty array, a
    bigint is written with an even number of hex digits (so that 0 is the
    single byte 0, as the expected [v: '0x0'] of the toJSON test needs), a
    negative bigint and a string that is no 0x-prefixed hex are refused. *)
Definition toUint8Array (x : BigIntLike) : result bytes :=
  match x with
  | Undefined => Ok []
  | EmptyString => Err InvalidFieldValue
  | BigInt n =>
      if n <? 0 then Err InvalidFieldValue
      else if n =? 0 then Ok [x00]
      else Ok (bigIntToUnpaddedUint8Array n)
  | Uint8Array b => Ok b
  | JsArray l => Ok (uint8ArrayFrom l)
  end.

(** [toUint8Array(x === '' ? '0x' : x)]. *)
Definition toUint8Array_or0x (x : BigIntLike) : result bytes :=
  match x with
  | EmptyString => Ok []
  | _ => toUint8Array x
  end.

(** [b.length > 0 ? uint8ArrayToBigInt(b) : undefined]. *)
Definition bigIntIfNonEmpty (b : bytes) : option Z :=
  if 0 <? Z.of_nat (List.length b) then Some (uint8ArrayToBigInt b) else None.

(** Modelled from the spec: [validateBound256(fields...)], the method
    [_validateCannotExceedMaxInteger] of the base class: it fails with
    IntegerOverflow if any value is at least 2^256; an absent value passes. *)
Definition _validateCannotExceedMaxInteger (values : list (option Z))
  : result unit :=
  throw_if
    (existsb (fun x => match x with
                       | Some n => MAX_INTEGER <? n
                       | None => false
                       end) values)
    IntegerOverflow.

Definition isArray (x : BigIntLike) : bool :=
  match x with
  | JsArray _ => true
  | _ => false
  end.

(** Modelled from the spec: [validateNotArray(fields...)] of the base class:
    it fails with InvalidFieldShape if a scalar field is a list. *)
Definition _validateNotArray (values : list BigIntLike) : result unit :=
  throw_if (existsb isArray values) InvalidFieldShape.

(** Modelled from the spec: [validateNoLeadingZero(fields...)], the function
    [validateNoLeadingZeroes] of web3-validator: a present byte form whose
    first byte is zero fails with InvalidFieldEncoding. *)
Definition hasLeadingZero (x : BigIntLike) : bool :=
  match x with
  | Uint8Array (b :: _) => Z_of_byte b =? 0
  | _ => false
  end.

Definition validateNoLeadingZeroes (values : list BigIntLike) : result unit :=
  throw_if (existsb hasLeadingZero values) InvalidFieldEncoding.

(** Modelled from the spec: the class [Address], whose buffer is the
    20-byte recipient. *)
Definition newAddress (buf : bytes) : result bytes :=
  throw_if (negb (Z.of_nat (List.length buf) =? 20)) InvalidAddressLength ;;;
  Ok buf.

(** Modelled from the spec: [verifyAccessList] of tx/utils.ts: addresses
    have 20 bytes and storage keys 32. *)
Definition verifyAccessList (accessList : AccessListUint8Array)
  : result unit :=
  throw_if
    (existsb (fun item =>
                negb (Z.of_nat (List.length (fst item)) =? 20)
                || existsb (fun slot =>
                              negb (Z.of_nat (List.length slot) =? 32))
                     (snd item))
       accessList)
    InvalidAddressLength.

Definition DEFAULT_HARDFORK : Common.Hardfork := Common.London.

(** Modelled from the spec: [_getCommon] of the base class.  A transaction
    refers to the registry it is given; a chain identifier in the data must
    agree with it, and without a registry one is made for the identifier
    (or for the default chain) at the default fork of the class. *)
Definition _getCommon (common : option Common.t) (chainId : BigIntLike)
  : result Common.t :=
  match chainId with
  | Undefined =>
      Ok (match common with
          | Some c => c
          | None => Common.mk DEFAULT_CHAIN_ID DEFAULT_HARDFORK []
          end)
  | _ =>
      b <- toUint8Array chainId ;;
      let chainIdBigInt := uint8ArrayToBigInt b in
      match common with
      | Some c =>
          throw_if (negb (Common.chainId c =? chainIdBigInt)) ChainIdMismatch ;;;
          Ok c
      | None => Ok (Common.mk chainIdBigInt DEFAULT_HARDFORK [])
      end
  end.

(** Modelled from the spec: the constructor of [BaseTransaction]
    (tx/baseTransaction.ts is not part of the sources at hand).  It reads
    the shared fields from their byte forms, keeps an empty [to], [v], [r]
    or [s] as absent, and bounds the numeric fields by 2^256 - 1.  The
    fields of the subclass are not assigned yet: the optional ones read as
    [undefined] ([None]). *)
Definition BaseTransaction_constructor (txData : PriorityETNIP1TxData)
  (opts : TxOptions) : result Tx :=
  toB <- toUint8Array_or0x (td_to txData) ;;
  vB <- toUint8Array_or0x (td_v txData) ;;
  rB <- toUint8Array_or0x (td_r txData) ;;
  sB <- toUint8Array_or0x (td_s txData) ;;
  nonceB <- toUint8Array_or0x (td_nonce txData) ;;
  gasLimitB <- toUint8Array_or0x (td_gasLimit txData) ;;
  to' <- (if 0 <? Z.of_nat (List.length toB)
          then a <- newAddress toB ;; Ok (Some a)
          else Ok None) ;;
  valueB <- toUint8Array_or0x (td_value txData) ;;
  dataB <- toUint8Array_or0x (td_data txData) ;;
  let this :=
    mkTx TRANSACTION_TYPE
      (uint8ArrayToBigInt nonceB) (uint8ArrayToBigInt gasLimitB) to'
      (uint8ArrayToBigInt valueB) dataB
      (bigIntIfNonEmpty vB) (bigIntIfNonEmpty rB) (bigIntIfNonEmpty sB)
      (Common.mk 0 Common.Chainstart []) 0 [] 0 0 None None None
      opts [] None false in
  _validateCannotExceedMaxInteger [Some (value this); r this; s this] ;;;
  _validateCannotExceedMaxInteger [Some (gasLimit this)] ;;;
  _validateCannotExceedMaxInteger [Some (nonce this)] ;;;
  Ok this.

(** *** The constructor *)

Definition _validateYParity (this : Tx) : result unit :=
  throw_if
    (match v this with
     | Some v' => negb (v' =? 0) && negb (v' =? 1)
     | None => false
     end) InvalidSignatureParity ;;;
  throw_if
    (match pV this with
     | Some pV' => negb (pV' =? 0) && negb (pV' =? 1)
     | None => false
     end) InvalidSignatureParity.

Definition _validateHighS (this : Tx) : result unit :=
  throw_if
    (Common.gteHardfork (common this) Common.Homestead
     && match s this with
        | Some s' => SECP256K1_ORDER_DIV_2 <? s'
        | None => false
        end) HighSSignature ;;;
  throw_if
    (Common.gteHardfork (common this) Common.Homestead
     && match pS this with
        | Some pS' => SECP256K1_ORDER_DIV_2 <? pS'
        | None => false
        end) HighSSignature.

(** The scalar fields of the transaction data. *)
Definition scalar_fields (txData : PriorityETNIP1TxData) : list BigIntLike :=
  [td_chainId txData; td_nonce txData; td_maxPriorityFeePerGas txData;
   td_maxFeePerGas txData; td_gasLimit txData; td_to txData;
   td_value txData; td_data txData; td_v txData; td_r txData; td_s txData;
   td_pV txData; td_pR txData; td_pS txData].

(** The first part of the constructor, up to [_validateNotArray(txData)]:
    the fields are read and assigned one after the other.  The access list
    is taken in its byte form, which [getAccessListData] gives back as it
    is.  The bound check of [pR] and [pS] reads [this.pR] and [this.pS],
    which are assigned only after it. *)
Definition constructor_fields (txData : PriorityETNIP1TxData)
  (opts : TxOptions) : result Tx :=
  this <- BaseTransaction_constructor txData opts ;;
  c <- _getCommon (opt_common opts) (td_chainId txData) ;;
  let this := set_common c this in
  let this := set_chainId (Common.chainId (common this)) this in
  throw_if (negb (Common.isActivatedEIP (common this) 1559))
    UnsupportedUpgrade ;;;
  let this :=
    set_activeCapabilities (activeCapabilities this ++ [1559; 2718; 2930])
      this in
  let this :=
    set_accessList (match td_accessList txData with
                    | Some al => al
                    | None => []
                    end) this in
  verifyAccessList (accessList this) ;;;
  maxFeeB <- toUint8Array_or0x (td_maxFeePerGas txData) ;;
  let this := set_maxFeePerGas (uint8ArrayToBigInt maxFeeB) this in
  maxPrioB <- toUint8Array_or0x (td_maxPriorityFeePerGas txData) ;;
  let this := set_maxPriorityFeePerGas (uint8ArrayToBigInt maxPrioB) this in
  _validateCannotExceedMaxInteger
    [Some (maxFeePerGas this); Some (maxPriorityFeePerGas this);
     pR this; pS this] ;;;
  pvB <- toUint8Array_or0x (td_pV txData) ;;
  prB <- toUint8Array_or0x (td_pR txData) ;;
  psB <- toUint8Array_or0x (td_pS txData) ;;
  let this := set_pV (bigIntIfNonEmpty pvB) this in
  let this := set_pR (bigIntIfNonEmpty prB) this in
  let this := set_pS (bigIntIfNonEmpty psB) this in
  _validateNotArray (scalar_fields txData) ;;;
  Ok this.

(** The second part: the checks on the assigned fields, then the freeze. *)
Definition constructor_checks (opts : TxOptions) (this : Tx) : result Tx :=
  throw_if (MAX_INTEGER <? gasLimit this * maxFeePerGas this)
    IntegerOverflow ;;;
  throw_if (maxFeePerGas this <? maxPriorityFeePerGas this)
    FeeOrderingViolation ;;;
  _validateYParity this ;;;
  _validateHighS this ;;;
  let freeze := match opt_freeze opts with
                | Some b => b
                | None => true
                end in
  Ok (if freeze then freeze_object this else this).

(** [new PriorityETNIP1Transaction(txData, opts)]. *)
Definition constructor (txData : PriorityETNIP1TxData) (opts : TxOptions)
  : result Tx :=
  this <- constructor_fields txData opts ;;
  constructor_checks opts this.

Definition fromTxData (txData : PriorityETNIP1TxData) (opts : TxOptions)
  : result Tx :=
  constructor txData opts.

(** *** Construction from a values array *)

(** A slot of the destructured array as a field value. *)
Definition slot (x : option RLP.Item) : BigIntLike :=
  match x with
  | None => Undefined
  | Some (RLP.Str b) => Uint8Array b
  | Some (RLP.Lst l) => JsArray l
  end.

(** [x !== undefined ? uint8ArrayToBigInt(x) : undefined].  No shape is
    checked here: the empty list converts like the empty byte string, to 0;
    the conversion refuses a list with entries, which in a decoded array
    are byte strings or lists and not numbers. *)
Definition slotToBigInt (x : option RLP.Item) : result BigIntLike :=
  match x with
  | None => Ok Undefined
  | Some (RLP.Str b) => Ok (BigInt (uint8ArrayToBigInt b))
  | Some (RLP.Lst []) => Ok (BigInt 0)
  | Some (RLP.Lst (_ :: _)) => Err InvalidFieldShape
  end.

Definition itemBytes (x : RLP.Item) : option bytes :=
  match x with
  | RLP.Str b => Some b
  | RLP.Lst _ => None
  end.

Fixpoint allBytes (xs : list RLP.Item) : option (list bytes) :=
  match xs with
  | [] => Some []
  | x :: rest =>
      match itemBytes x, allBytes rest with
      | Some b, Some bs => Some (b :: bs)
      | _, _ => None
      end
  end.

Definition accessListItem (x : RLP.Item) : option (bytes * list bytes) :=
  match x with
  | RLP.Lst [RLP.Str address; RLP.Lst storageSlots] =>
      match allBytes storageSlots with
      | Some slots => Some (address, slots)
      | None => None
      end
  | _ => None
  end.

Fixpoint accessListItems (xs : list RLP.Item)
  : option AccessListUint8Array :=
  match xs with
  | [] => Some []
  | x :: rest =>
      match accessListItem x, accessListItems rest with
      | Some i, Some is' => Some (i :: is')
      | _, _ => None
      end
  end.

(** The slot of the access list, [accessList ?? []], read as a list of
    pairs of an address and its storage keys.  Another shape is refused
    here; the code itself applies no check at this place and fails later,
    in the helpers of the access list, except for the empty byte string,
    which it keeps as the access list of the instance: such an instance,
    whose raw form has a byte string in this slot, is not among the values
    of [Tx]. *)
Definition slotAccessList (x : option RLP.Item)
  : result AccessListUint8Array :=
  match x with
  | None => Ok []
  | Some (RLP.Lst l) =>
      match accessListItems l with
      | Some al => Ok al
      | None => Err InvalidFieldShape
      end
  | Some (RLP.Str _) => Err InvalidFieldShape
  end.

(** The part of [fromValuesArray] after the check of the length. *)
Definition fromValuesArray_fields (values : list RLP.Item)
  (opts : TxOptions) : result Tx :=
  let chainId := nth_error values 0 in
  let nonce := nth_error values 1 in
  let maxPriorityFeePerGas := nth_error values 2 in
  let maxFeePerGas := nth_error values 3 in
  let gasLimit := nth_error values 4 in
  let to := nth_error values 5 in
  let value := nth_error values 6 in
  let data := nth_error values 7 in
  let accessList := nth_error values 8 in
  let v := nth_error values 9 in
  let r := nth_error values 10 in
  let s := nth_error values 11 in
  let pV := nth_error values 12 in
  let pR := nth_error values 13 in
  let pS := nth_error values 14 in
  _validateNotArray [slot chainId; slot v] ;;;
  validateNoLeadingZeroes
    [slot nonce; slot maxPriorityFeePerGas; slot maxFeePerGas;
     slot gasLimit; slot value; slot v; slot r; slot s; slot pV; slot pR;
     slot pS] ;;;
  chainId' <- slotToBigInt chainId ;;
  v' <- slotToBigInt v ;;
  pV' <- slotToBigInt pV ;;
  al <- slotAccessList accessList ;;
  constructor
    (mkTxData chainId' (slot nonce) (slot maxPriorityFeePerGas)
       (slot maxFeePerGas) (slot gasLimit) (slot to) (slot value)
       (slot data) (Some al) v' (slot r) (slot s) pV' (slot pR) (slot pS))
    opts.

Definition fromValuesArray (values : list RLP.Item) (opts : TxOptions)
  : result Tx :=
  throw_if (negb (Z.of_nat (List.length values) =? 9)
            && negb (Z.of_nat (List.length values) =? 15))
    WrongFieldCount ;;;
  fromValuesArray_fields values opts.

(** *** Methods *)

Definition getUpfrontCost (this : Tx) (baseFee' : option Z) : Z :=
  let baseFee := match baseFee' with
                 | Some b => b
                 | None => 0
                 end in
  let prio := maxPriorityFeePerGas this in
  let maxBase := maxFeePerGas this - baseFee in
  let inclusionFeePerGas := if prio <? maxBase then prio else maxBase in
  let gasPrice := inclusionFeePerGas + baseFee in
  gasLimit this * gasPrice + value this.

(** [x !== undefined ? bigIntToUnpaddedUint8Array(x) : Uint8Array.from([])]. *)
Definition unpaddedOrEmpty (x : option Z) : bytes :=
  match x with
  | Some n => bigIntToUnpaddedUint8Array n
  | None => []
  end.

Definition accessListRaw (al : AccessListUint8Array) : RLP.Item :=
  RLP.Lst
    (map (fun item =>
            RLP.Lst [RLP.Str (fst item); RLP.Lst (map RLP.Str (snd item))])
       al).

Definition raw (this : Tx) : list RLP.Item :=
  [RLP.Str (bigIntToUnpaddedUint8Array (chainId this));
   RLP.Str (bigIntToUnpaddedUint8Array (nonce this));
   RLP.Str (bigIntToUnpaddedUint8Array (maxPriorityFeePerGas this));
   RLP.Str (bigIntToUnpaddedUint8Array (maxFeePerGas this));
   RLP.Str (bigIntToUnpaddedUint8Array (gasLimit this));
   RLP.Str (match to this with
            | Some buf => buf
            | None => []
            end);
   RLP.Str (bigIntToUnpaddedUint8Array (value this));
   RLP.Str (data this);
   accessListRaw (accessList this);
   RLP.Str (unpaddedOrEmpty (v this));
   RLP.Str (unpaddedOrEmpty (r this));
   RLP.Str (unpaddedOrEmpty (s this));
   RLP.Str (unpaddedOrEmpty (pV this));
   RLP.Str (unpaddedOrEmpty (pR this));
   RLP.Str (unpaddedOrEmpty (pS this))].

Definition serialize (this : Tx) : bytes :=
  let base := raw this in
  TRANSACTION_TYPE_UINT8ARRAY ++ RLP.encode (RLP.Lst base).

Definition getMessageToSign (this : Tx) (hashMessage : bool) : bytes :=
  let base := firstn 9 (raw this) in
  let message := TRANSACTION_TYPE_UINT8ARRAY ++ RLP.encode (RLP.Lst base) in
  if hashMessage then keccak256 message else message.

Definition isDefined {A : Type} (x : option A) : bool :=
  match x with
  | Some _ => true
  | None => false
  end.

Definition isSigned (this : Tx) : bool :=
  if negb (isDefined (v this)) || negb (isDefined (r this))
     || negb (isDefined (s this)) || negb (isDefined (pV this))
     || negb (isDefined (pR this)) || negb (isDefined (pS this))
  then false
  else true.

(** [hash()] returns the digest and the instance, whose cache slot is
    written when the instance is frozen and the slot is empty. *)
Definition hash (this : Tx) : result (bytes * Tx) :=
  throw_if (negb (isSigned this)) NotSigned ;;;
  if frozen this then
    let this := match cache_hash this with
                | None => set_cache_hash (Some (keccak256 (serialize this))) this
                | Some _ => this
                end in
    match cache_hash this with
    | Some h => Ok (h, this)
    | None => Ok (keccak256 (serialize this), this)
    end
  else Ok (keccak256 (serialize this), this).

Definition getMessageToVerifySignature (this : Tx) : bytes :=
  getMessageToSign this true.

Definition orZero (x : option Z) : Z :=
  match x with
  | Some n => n
  | None => 0
  end.

(** [try { return ecrecover(...) } catch { throw 'Invalid Signature' }]. *)
Definition getSenderPublicKey (this : Tx) : result bytes :=
  throw_if (negb (isSigned this)) NotSigned ;;;
  let msgHash := getMessageToVerifySignature this in
  _validateHighS this ;;;
  match ecrecover msgHash (orZero (v this) + 27)
          (bigIntToUnpaddedUint8Array (orZero (r this)))
          (bigIntToUnpaddedUint8Array (orZero (s this))) with
  | Some key => Ok key
  | None => Err InvalidSignature
  end.

Definition getSenderAndPriorityPublicKey (this : Tx)
  : result (bytes * bytes) :=
  throw_if (negb (isSigned this)) NotSigned ;;;
  let msgHash := getMessageToVerifySignature this in
  _validateHighS this ;;;
  match ecrecover msgHash (orZero (v this) + 27)
          (bigIntToUnpaddedUint8Array (orZero (r this)))
          (bigIntToUnpaddedUint8Array (orZero (s this))) with
  | Some key =>
      match ecrecover msgHash (orZero (pV this) + 27)
              (bigIntToUnpaddedUint8Array (orZero (pR this)))
              (bigIntToUnpaddedUint8Array (orZero (pS this))) with
      | Some priorityKey => Ok (key, priorityKey)
      | None => Err InvalidSignature
      end
  | None => Err InvalidSignature
  end.

(** *** Signing *)

Record ECDSASignature : Type := mkECDSASignature {
  sig_v : Z;
  sig_r : bytes;
  sig_s : bytes
}.

(** [__ecsign(msgHash, privateKey)], called without a chain identifier. *)
Definition __ecsign (msgHash privateKey : bytes) : result ECDSASignature :=
  match secp256k1_sign msgHash privateKey with
  | None => Err SignerFailure
  | Some signature =>
      let signatureBytes := compactRawBytes signature in
      let r := firstn 32 signatureBytes in
      let s := firstn 32 (skipn 32 signatureBytes) in
      let v := recovery signature + 27 in
      Ok (mkECDSASignature v r s)
  end.

(** The recipient of an instance as a field value (the [Address] object
    gives back its buffer). *)
Definition addressInput (a : option bytes) : BigIntLike :=
  match a with
  | Some buf => Uint8Array buf
  | None => Undefined
  end.

Definition _processSignatures (this : Tx) (v : Z) (r s : bytes) (pV : Z)
  (pR pS : bytes) : result Tx :=
  let opts := mkTxOptions (Some (common this)) (opt_freeze (txOptions this)) in
  fromTxData
    (mkTxData (BigInt (chainId this)) (BigInt (nonce this))
       (BigInt (maxPriorityFeePerGas this)) (BigInt (maxFeePerGas this))
       (BigInt (gasLimit this)) (addressInput (to this))
       (BigInt (value this)) (Uint8Array (data this))
       (Some (accessList this))
       (BigInt (v - 27)) (BigInt (uint8ArrayToBigInt r))
       (BigInt (uint8ArrayToBigInt s))
       (BigInt (pV - 27)) (BigInt (uint8ArrayToBigInt pR))
       (BigInt (uint8ArrayToBigInt pS)))
    opts.

Definition supports (this : Tx) (capability : Z) : bool :=
  existsb (Z.eqb capability) (activeCapabilities this).

(** [activeCapabilities.indexOf(c)] followed by [splice(index, 1)]: the
    first occurrence is removed. *)
Fixpoint removeFirst (c : Z) (l : list Z) : list Z :=
  match l with
  | [] => []
  | x :: rest => if x =? c then rest else x :: removeFirst c rest
  end.

(** [sign(privateKey, priorityPrivateKey)] returns the source instance as
    the call leaves it, and the signed instance or the error. *)
Definition sign (this : Tx) (privateKey : bytes)
  (priorityPrivateKey : option bytes) : Tx * result Tx :=
  match priorityPrivateKey with
  | None => (this, Err InvalidKeyLength)
  | Some priorityPrivateKey =>
      if negb (Z.of_nat (List.length privateKey) =? 32)
         || negb (Z.of_nat (List.length priorityPrivateKey) =? 32)
      then (this, Err InvalidKeyLength)
      else
        let hackApplied :=
          (_type this =? 0)
          && Common.gteHardfork (common this) Common.SpuriousDragon
          && negb (supports this EIP155ReplayProtection) in
        let this :=
          if hackApplied
          then set_activeCapabilities
                 (activeCapabilities this ++ [EIP155ReplayProtection]) this
          else this in
        let msgHash := getMessageToSign this true in
        match
          (sig <- __ecsign msgHash privateKey ;;
           pSignature <- __ecsign msgHash priorityPrivateKey ;;
           _processSignatures this (sig_v sig) (sig_r sig) (sig_s sig)
             (sig_v pSignature) (sig_r pSignature) (sig_s pSignature))
        with
        | Err e => (this, Err e)
        | Ok tx =>
            let this :=
              if hackApplied
              then set_activeCapabilities
                     (removeFirst EIP155ReplayProtection
                        (activeCapabilities this)) this
              else this in
            (this, Ok tx)
        end
  end.

End PriorityETNIP1Transaction.

(** ** Auxiliary notions for the properties *)

(** The computation [m] fails with the error [e]. *)
Definition raises {A : Type} (m : result A) (e : TxError) : Prop :=
  m = Err e.


(** [opts?.freeze ?? true]. *)
Definition freezeOption (opts : TxOptions) : bool :=
  match opt_freeze opts with
  | Some b => b
  | None => true
  end.

(** The accessList of the transaction data, [accessList ?? []]. *)
Definition accessListOrEmpty (txData : PriorityETNIP1TxData)
  : AccessListUint8Array :=
  match td_accessList txData with
  | Some al => al
  | None => []
  end.

(** What the constructor establishes about the fields of an instance. *)
Record well_formed (this : Tx) : Prop := mk_well_formed {
  wf_type : _type this = TRANSACTION_TYPE;
  wf_nonce : 0 <= nonce this <= MAX_INTEGER;
  wf_gasLimit : 0 <= gasLimit this <= MAX_INTEGER;
  wf_value : 0 <= value this <= MAX_INTEGER;
  wf_to : match to this with
          | Some buf => List.length buf = 20%nat
          | None => True
          end;
  wf_r : match r this with
         | Some n => 0 <= n <= MAX_INTEGER
         | None => True
         end;
  wf_s : match s this with
         | Some n => 0 <= n <= MAX_INTEGER
         | None => True
         end;
  wf_chainId : chainId this = Common.chainId (common this);
  wf_eip1559 : Common.isActivatedEIP (common this) 1559 = true;
  wf_accessList : verifyAccessList (accessList this) = Ok tt;
  wf_maxFeePerGas : 0 <= maxFeePerGas this <= MAX_INTEGER;
  wf_maxPriorityFeePerGas : 0 <= maxPriorityFeePerGas this <= MAX_INTEGER;
  wf_gas_cost : gasLimit this * maxFeePerGas this <= MAX_INTEGER;
  wf_fee_order : maxPriorityFeePerGas this <= maxFeePerGas this;
  wf_yParity : _validateYParity this = Ok tt;
  wf_lowS : _validateHighS this = Ok tt;
  wf_frozen : frozen this = freezeOption (txOptions this)
}.

Section Instances.

Context {E : Externals}.

(** The cache slot, when filled, holds the digest of the wire bytes. *)
Definition cache_consistent (this : Tx) : Prop :=
  match cache_hash this with
  | Some h => h = keccak256 (serialize this)
  | None => True
  end.

(** The instances of the class: those that a factory or [sign] returns, in
    the states that calls of [hash] and [sign] leave them in. *)
Inductive reachable : Tx -> Prop :=
| reach_fromTxData (txData : PriorityETNIP1TxData) (opts : TxOptions)
    (this : Tx) :
    fromTxData txData opts = Ok this -> reachable this
| reach_fromValuesArray (values : list RLP.Item) (opts : TxOptions)
    (this : Tx) :
    fromValuesArray values opts = Ok this -> reachable this
| reach_hash (this this' : Tx) (h : bytes) :
    reachable this -> hash this = Ok (h, this') -> reachable this'
| reach_sign_source (this : Tx) (privateKey : bytes)
    (priorityPrivateKey : option bytes) :
    reachable this ->
    reachable (fst (sign this privateKey priorityPrivateKey))
| reach_sign_result (this tx : Tx) (privateKey : bytes)
    (priorityPrivateKey : option bytes) :
    reachable this ->
    snd (sign this privateKey priorityPrivateKey) = Ok tx ->
    reachable tx.

End Instances.

(** ** Concrete inputs *)

(** A stand-in for the external primitives, to run the definitions on
    concrete inputs: the digest keeps the first 32 bytes, the signer gives
    recovery id 0 with the key as both halves of the signature, and key
    recovery gives back the [r] component. *)
Definition toy_externals : Externals := {|
  keccak256 := fun message => firstn 32 message;
  ecrecover := fun _ _ r _ => Some r;
  secp256k1_sign := fun _ privateKey =>
                      Some (mkRawSignature 0 (privateKey ++ privateKey));
  uint8ArrayFrom := fun _ => [];
  DEFAULT_CHAIN_ID := 1
|}.

(** The registry of the unit tests: chain 4 at the london fork. *)
Definition common_london : Common.t := Common.mk 4 Common.London [].

Definition opts_london : TxOptions := mkTxOptions (Some common_london) None.

Definition opts_london_unfrozen : TxOptions :=
  mkTxOptions (Some common_london) (Some false).

(** Transaction data with only the fee fields, the gas limit and the value
    given. *)
Definition feeData (maxFeePerGas maxPriorityFeePerGas gasLimit value : Z)
  : PriorityETNIP1TxData :=
  mkTxData Undefined Undefined (BigInt maxPriorityFeePerGas)
    (BigInt maxFeePerGas) (BigInt gasLimit) Undefined (BigInt value)
    Undefined None Undefined Undefined Undefined Undefined Undefined
    Undefined.

(** Default transaction data with the given secondary signature. *)
Definition prioritySignatureData (pV pR pS : BigIntLike)
  : PriorityETNIP1TxData :=
  mkTxData Undefined Undefined Undefined Undefined Undefined Undefined
    Undefined Undefined None Undefined Undefined Undefined pV pR pS.

Definition validAddress : bytes :=
  hexToBytes "0101010101010101010101010101010101010101".

Definition validSlot : bytes :=
  hexToBytes
    "0101010101010101010101010101010101010101010101010101010101010101".

(** The unsigned transaction of the getMessageToSign test. *)
Definition messageTestData : PriorityETNIP1TxData :=
  mkTxData (BigInt 4) Undefined Undefined Undefined Undefined
    (Uint8Array validAddress) Undefined (Uint8Array (hexToBytes "010200"))
    (Some [(validAddress, [validSlot])]) Undefined Undefined Undefined
    Undefined Undefined Undefined.

Definition expectedSerialization : bytes :=
  hexToBytes
    "40f85904808080809401010101010101010101010101010101010101018083010200f838f7940101010101010101010101010101010101010101e1a00101010101010101010101010101010101010101010101010101010101010101".

(** The first nine raw fields, the unsigned prefix, from the fields of the
    instance. *)
Definition unsignedPrefix (this : Tx) : list RLP.Item :=
  [RLP.Str (bigIntToUnpaddedUint8Array (chainId this));
   RLP.Str (bigIntToUnpaddedUint8Array (nonce this));
   RLP.Str (bigIntToUnpaddedUint8Array (maxPriorityFeePerGas this));
   RLP.Str (bigIntToUnpaddedUint8Array (maxFeePerGas this));
   RLP.Str (bigIntToUnpaddedUint8Array (gasLimit this));
   RLP.Str (match to this with
            | Some buf => buf
            | None => []
            end);
   RLP.Str (bigIntToUnpaddedUint8Array (value this));
   RLP.Str (data this);
   accessListRaw (accessList this)].

(** The instance with the fields of [this] and the two signature triples
    given: what signing is to return.  Its options carry the registry of
    the source; its cache is empty. *)
Definition withSignatures (this : Tx) (v r s pV pR pS : Z) : Tx :=
  mkTx (_type this) (nonce this) (gasLimit this) (to this) (value this)
    (data this) (Some v) (Some r) (Some s) (common this) (chainId this)
    (accessList this) (maxPriorityFeePerGas this) (maxFeePerGas this)
    (Some pV) (Some pR) (Some pS)
    (mkTxOptions (Some (common this)) (opt_freeze (txOptions this)))
    (activeCapabilities this) None (frozen this).

(** The two halves of a compact signature as numbers. *)
Definition signatureR (sig : RawSignature) : Z :=
  uint8ArrayToBigInt (firstn 32 (compactRawBytes sig)).

Definition signatureS (sig : RawSignature) : Z :=
  uint8ArrayToBigInt (firstn 32 (skipn 32 (compactRawBytes sig))).

(** The data of the fee validation test: the product of gasLimit and
    maxFeePerGas at the bound 2^256 - 1, and above it. *)
Definition boundaryData : PriorityETNIP1TxData :=
  feeData (2 ^ 256 - 1) 100 1 6.

Definition overflowData : PriorityETNIP1TxData :=
  feeData (2 ^ 256 - 1) 100 100 6.

(** maxFeePerGas below maxPriorityFeePerGas, as in the test. *)
Definition feeOrderData : PriorityETNIP1TxData := feeData 1 2 100 6.

(** maxFeePerGas below maxPriorityFeePerGas with gasLimit * maxFeePerGas
    equal to 2^256. *)
Definition feeOrderOverflowData : PriorityETNIP1TxData :=
  feeData (2 ^ 255) (2 ^ 255 + 1) 2 0.

(** Data with the two signature triples given. *)
Definition signedData : PriorityETNIP1TxData :=
  mkTxData Undefined Undefined (BigInt 8) (BigInt 10) (BigInt 100)
    Undefined (BigInt 6) Undefined None (BigInt 0) (BigInt 5) (BigInt 7)
    (BigInt 1) (BigInt 11) (BigInt 13).

(** A 32-byte key. *)
Definition sampleKey : bytes := validSlot.

(** A values array of 15 slots whose six signature slots are empty, as an
    unsigned transaction serializes. *)
Definition unsignedValues : list RLP.Item :=
  [RLP.Str [x04]; RLP.Str []; RLP.Str []; RLP.Str []; RLP.Str [];
   RLP.Str []; RLP.Str []; RLP.Str []; RLP.Lst [];
   RLP.Str []; RLP.Str []; RLP.Str []; RLP.Str []; RLP.Str []; RLP.Str []].

(** ** Further methods of the class *)

Section FurtherMethods.

Context {E : Externals}.

(** [_processSignature(v, r, s)]: the instance with the primary signature
    only; the secondary signature is left out of the data. *)
Definition _processSignature (this : Tx) (v : Z) (r s : bytes) : result Tx :=
  let opts := mkTxOptions (Some (common this)) (opt_freeze (txOptions this)) in
  fromTxData
    (mkTxData (BigInt (chainId this)) (BigInt (nonce this))
       (BigInt (maxPriorityFeePerGas this)) (BigInt (maxFeePerGas this))
       (BigInt (gasLimit this)) (addressInput (to this))
       (BigInt (value this)) (Uint8Array (data this))
       (Some (accessList this))
       (BigInt (v - 27)) (BigInt (uint8ArrayToBigInt r))
       (BigInt (uint8ArrayToBigInt s))
       Undefined Undefined Undefined)
    opts.

(** [uint8ArrayEquals] of web3-utils: same length and same bytes. *)
Fixpoint uint8ArrayEquals (a b : bytes) : bool :=
  match a, b with
  | [], [] => true
  | x :: a', y :: b' => Byte.eqb x y && uint8ArrayEquals a' b'
  | _, _ => false
  end.

(** [fromSerializedTx(serialized, opts)], over the decoder of the codec
    library ([RLP.decode], which fails on malformed input).  A decoded
    value that is no list is refused. *)
Definition fromSerializedTx (RLP_decode : bytes -> result RLP.Item)
  (serialized : bytes) (opts : TxOptions) : result Tx :=
  throw_if
    (negb (uint8ArrayEquals (firstn 1 serialized)
             TRANSACTION_TYPE_UINT8ARRAY))
    WrongTransactionType ;;;
  values <- RLP_decode (skipn 1 serialized) ;;
  match values with
  | RLP.Lst l => fromValuesArray l opts
  | RLP.Str _ => Err InvalidFieldShape
  end.

End FurtherMethods.

(** The instance whose primary signature is the secondary one of [this]. *)
Definition priorityAsPrimary (this : Tx) : Tx :=
  mkTx (_type this) (nonce this) (gasLimit this) (to this) (value this)
    (data this) (pV this) (pR this) (pS this) (common this) (chainId this)
    (accessList this) (maxPriorityFeePerGas this) (maxFeePerGas this)
    (pV this) (pR this) (pS this) (txOptions this)
    (activeCapabilities this) (cache_hash this) (frozen this).

(** A parity that the constructor refuses: present and neither 0 nor 1. *)
Definition badParity (x : option Z) : Prop :=
  exists n, x = Some n /\ n <> 0 /\ n <> 1.

(** A signature component above half the curve order. *)
Definition highS (x : option Z) : Prop :=
  exists n, x = Some n /\ SECP256K1_ORDER_DIV_2 < n.

(** ** Further concrete inputs *)

(** A registry at the berlin fork, where EIP-1559 is not active. *)
Definition opts_berlin : TxOptions :=
  mkTxOptions (Some (Common.mk 4 Common.Berlin [])) None.

(** Signed data with the parity v = 2. *)
Definition badParityData : PriorityETNIP1TxData :=
  mkTxData Undefined Undefined (BigInt 8) (BigInt 10) (BigInt 100)
    Undefined (BigInt 6) Undefined None (BigInt 2) (BigInt 5) (BigInt 7)
    (BigInt 1) (BigInt 11) (BigInt 13).

(** Signed data whose pS is above half the curve order. *)
Definition highSData : PriorityETNIP1TxData :=
  mkTxData Undefined Undefined (BigInt 8) (BigInt 10) (BigInt 100)
    Undefined (BigInt 6) Undefined None (BigInt 0) (BigInt 5) (BigInt 7)
    (BigInt 1) (BigInt 11) (BigInt (SECP256K1_ORDER_DIV_2 + 1)).

(** A values array of 9 slots whose nonce is the single byte 0. *)
Definition leadingZeroValues : list RLP.Item :=
  [RLP.Str [x04]; RLP.Str [x00]; RLP.Str []; RLP.Str []; RLP.Str [];
   RLP.Str []; RLP.Str []; RLP.Str []; RLP.Lst []].

(** The public key of a key under the stand-in primitives. *)
Definition toy_public_key (k : bytes) : bytes :=
  bigIntToUnpaddedUint8Array (uint8ArrayToBigInt (firstn 32 (k ++ k))).

(** The wire bytes of the instance made from [signedData] on chain 4: the
    type byte, the list prefix, the nine unsigned fields, and the six
    signature fields 0 (the empty string), 5, 7, 1, 11 and 13. *)
Definition expectedSignedSerialization : bytes :=
  hexToBytes "40cf0480080a64800680c0800507010b0d".
(** * Properties *)

(** ** The error monad *)

Lemma bind_Ok_inv {A B : Type} (m : result A) (k : A -> result B) (b : B) :
  bind m k = Ok b -> exists a, m = Ok a /\ k a = Ok b.
Proof. destruct m as [a|e]; simpl; [eauto | discriminate]. Qed.

Lemma bind_Err_inv {A B : Type} (m : result A) (k : A -> result B)
  (e : TxError) :
  bind m k = Err e -> m = Err e \/ exists a, m = Ok a /\ k a = Err e.
Proof.
  destruct m as [a|e']; simpl; intros H.
  - right. eauto.
  - left. injection H as ->. reflexivity.
Qed.

Lemma throw_if_Ok_inv (c : bool) (e : TxError) (u : unit) :
  throw_if c e = Ok u -> c = false.
Proof. destruct c; simpl; [discriminate | reflexivity]. Qed.

Lemma throw_if_Err_inv (c : bool) (e e' : TxError) :
  throw_if c e = Err e' -> c = true /\ e = e'.
Proof. destruct c; simpl; [intros [= ->]; auto | discriminate]. Qed.

(** ** Bytes and big integers *)

Lemma Z_of_byte_range (b : byte) : 0 <= Z_of_byte b < 256.
Proof.
  unfold Z_of_byte. pose proof (Byte.to_N_bounded b). lia.
Qed.

Lemma Z_of_byte_of_Z (z : Z) : Z_of_byte (byte_of_Z z) = z mod 256.
Proof.
  unfold Z_of_byte, byte_of_Z.
  pose proof (Z.mod_pos_bound z 256 ltac:(lia)) as Hm.
  destruct (Byte.of_N (Z.to_N (z mod 256))) as [b|] eqn:Hb.
  - apply Byte.to_of_N in Hb. rewrite Hb. lia.
  - apply Byte.of_N_None_iff in Hb. lia.
Qed.

Lemma fold_be_acc (l : bytes) (acc : Z) :
  fold_left (fun a b => a * 256 + Z_of_byte b) l acc
  = acc * 256 ^ Z.of_nat (List.length l) + uint8ArrayToBigInt l.
Proof.
  unfold uint8ArrayToBigInt. revert acc.
  induction l as [|b l IH]; intros acc.
  - simpl. lia.
  - cbn [fold_left List.length].
    rewrite IH. rewrite (IH (0 * 256 + Z_of_byte b)).
    rewrite Nat2Z.inj_succ, Z.pow_succ_r by lia. lia.
Qed.

Lemma uint8ArrayToBigInt_cons (b : byte) (l : bytes) :
  uint8ArrayToBigInt (b :: l)
  = Z_of_byte b * 256 ^ Z.of_nat (List.length l) + uint8ArrayToBigInt l.
Proof.
  unfold uint8ArrayToBigInt at 1. cbn [fold_left].
  rewrite fold_be_acc. lia.
Qed.

Lemma uint8ArrayToBigInt_range (l : bytes) :
  0 <= uint8ArrayToBigInt l < 256 ^ Z.of_nat (List.length l).
Proof.
  induction l as [|b l IH].
  - cbn. lia.
  - rewrite uint8ArrayToBigInt_cons.
    cbn [List.length]. rewrite Nat2Z.inj_succ, Z.pow_succ_r by lia.
    pose proof (Z_of_byte_range b). nia.
Qed.

Lemma unpadded_be_value (fuel : nat) :
  forall (n : Z) (acc : bytes),
    0 <= n < 2 ^ Z.of_nat fuel ->
    uint8ArrayToBigInt (unpadded_be fuel n acc)
    = n * 256 ^ Z.of_nat (List.length acc) + uint8ArrayToBigInt acc.
Proof.
  induction fuel as [|f IH]; intros n acc Hn.
  - cbn in Hn. cbn [unpadded_be]. assert (n = 0) by lia. subst. lia.
  - cbn [unpadded_be]. destruct (n <=? 0) eqn:Hz.
    + apply Z.leb_le in Hz. assert (n = 0) by lia. subst. lia.
    + apply Z.leb_gt in Hz.
      rewrite Nat2Z.inj_succ, Z.pow_succ_r in Hn by lia.
      rewrite IH.
      * rewrite uint8ArrayToBigInt_cons, Z_of_byte_of_Z, Z.mod_mod by lia.
        cbn [List.length]. rewrite Nat2Z.inj_succ, Z.pow_succ_r by lia.
        pose proof (Z.div_mod n 256 ltac:(lia)) as Hdm.
        generalize dependent (n / 256). generalize dependent (n mod 256).
        intros m q. intros. subst n. ring.
      * split; [apply Z.div_pos; lia|].
        apply Z.div_lt_upper_bound; lia.
Qed.

Lemma unpadded_be_length (fuel : nat) :
  forall (n : Z) (acc : bytes),
    (List.length acc <= List.length (unpadded_be fuel n acc))%nat.
Proof.
  induction fuel as [|f IH]; intros n acc; cbn [unpadded_be].
  - lia.
  - destruct (n <=? 0); [lia|].
    specialize (IH (n / 256) (byte_of_Z (n mod 256) :: acc)).
    cbn [List.length] in IH. lia.
Qed.

(** Reading back the minimal bytes of a natural number gives the number. *)
Lemma uint8ArrayToBigInt_unpadded (n : Z) :
  0 <= n -> uint8ArrayToBigInt (bigIntToUnpaddedUint8Array n) = n.
Proof.
  intros Hn. unfold bigIntToUnpaddedUint8Array.
  rewrite unpadded_be_value.
  - cbn. lia.
  - split; [lia|].
    destruct (Z.eq_dec n 0) as [->|Hne].
    + cbn. lia.
    + rewrite Nat2Z.inj_succ, Z2Nat.id by apply Z.log2_nonneg.
      apply Z.log2_spec. lia.
Qed.

Lemma unpadded_nonempty (n : Z) :
  0 < n -> (0 < List.length (bigIntToUnpaddedUint8Array n))%nat.
Proof.
  intros Hn. unfold bigIntToUnpaddedUint8Array. cbn [unpadded_be].
  destruct (n <=? 0) eqn:Hz; [apply Z.leb_le in Hz; lia|].
  pose proof (unpadded_be_length (Z.to_nat (Z.log2 n)) (n / 256)
                [byte_of_Z (n mod 256)]) as H.
  cbn [List.length] in H. lia.
Qed.

(** ** Which errors a computation can raise *)

Lemma not_raises_Ok {A : Type} (a : A) (e : TxError) : ~ raises (Ok a) e.
Proof. unfold raises. discriminate. Qed.

Lemma not_raises_Err {A : Type} (e e' : TxError) :
  e' <> e -> ~ raises (@Err A e') e.
Proof. unfold raises. intros Hne [= H]. contradiction. Qed.

Lemma not_raises_throw_if (c : bool) (e e' : TxError) :
  e' <> e -> ~ raises (throw_if c e') e.
Proof.
  unfold raises. intros Hne H.
  apply throw_if_Err_inv in H. destruct H as [_ H]. contradiction.
Qed.

Lemma not_raises_bind {A B : Type} (m : result A) (k : A -> result B)
  (e : TxError) :
  ~ raises m e -> (forall a, ~ raises (k a) e) -> ~ raises (bind m k) e.
Proof.
  unfold raises. intros Hm Hk H.
  apply bind_Err_inv in H. destruct H as [H | [a [_ H]]].
  - exact (Hm H).
  - exact (Hk a H).
Qed.

Ltac no_raise_step :=
  cbv zeta;
  match goal with
  | |- ~ raises (Ok _) _ => apply not_raises_Ok
  | |- ~ raises (Err _) _ => apply not_raises_Err; discriminate
  | |- ~ raises (throw_if _ _) _ => apply not_raises_throw_if; discriminate
  | |- ~ raises (bind _ _) _ => apply not_raises_bind; [| intros ?]
  | |- ~ raises (match ?x with _ => _ end) _ => destruct x
  | |- ~ raises (if ?x then _ else _) _ => destruct x
  end.

Ltac no_raise := repeat no_raise_step.

Section ConstructionProperties.

Context {E : Externals}.

Lemma toUint8Array_no_count (x : BigIntLike) :
  ~ raises (toUint8Array x) WrongFieldCount.
Proof. unfold toUint8Array. no_raise. Qed.

Lemma toUint8Array_or0x_no_count (x : BigIntLike) :
  ~ raises (toUint8Array_or0x x) WrongFieldCount.
Proof.
  unfold toUint8Array_or0x.
  destruct x; try apply toUint8Array_no_count. no_raise.
Qed.

Lemma constructor_no_count (txData : PriorityETNIP1TxData)
  (opts : TxOptions) :
  ~ raises (constructor txData opts) WrongFieldCount.
Proof.
  unfold constructor, constructor_fields, constructor_checks,
    BaseTransaction_constructor, _getCommon, newAddress, verifyAccessList,
    _validateCannotExceedMaxInteger, _validateNotArray, _validateYParity,
    _validateHighS.
  repeat first [ apply toUint8Array_or0x_no_count
               | apply toUint8Array_no_count
               | no_raise_step ].
Qed.

Lemma fromValuesArray_fields_no_count (values : list RLP.Item)
  (opts : TxOptions) :
  ~ raises (fromValuesArray_fields values opts) WrongFieldCount.
Proof.
  unfold fromValuesArray_fields, _validateNotArray, validateNoLeadingZeroes,
    slotToBigInt, slotAccessList.
  repeat first [ apply constructor_no_count | no_raise_step ].
Qed.

(** C1.  [fromValuesArray] fails with WrongFieldCount unless the array has
    exactly 9 or exactly 15 values: for any other length that is its result,
    and for a length of 9 or 15 the check passes, the result is that of the
    validation of the fields that follows, and that part never fails with
    WrongFieldCount. *)
Theorem C1_fromValuesArray_field_count :
  forall (values : list RLP.Item) (opts : TxOptions),
    let n := Z.of_nat (List.length values) in
    fromValuesArray values opts
    = (if (n =? 9) || (n =? 15)
       then fromValuesArray_fields values opts
       else Err WrongFieldCount)
    /\ fromValuesArray_fields values opts <> Err WrongFieldCount.
Proof.
  intros values opts n. split.
  - unfold fromValuesArray. fold n.
    destruct (n =? 9), (n =? 15); reflexivity.
  - apply fromValuesArray_fields_no_count.
Qed.

(** *** What a successful construction leaves *)

Ltac ok_inv H :=
  repeat (apply bind_Ok_inv in H;
          let a := fresh "a" in
          let Ha := fresh "Ha" in
          destruct H as [a [Ha H]]; cbv beta zeta in H).

Lemma bound_check_inv (values : list (option Z)) (u : unit) :
  _validateCannotExceedMaxInteger values = Ok u ->
  forall n, In (Some n) values -> n <= MAX_INTEGER.
Proof.
  unfold _validateCannotExceedMaxInteger. intros H n Hin.
  apply throw_if_Ok_inv in H.
  destruct (Z.leb_spec n MAX_INTEGER) as [Hle|Hgt]; [exact Hle|].
  assert (Hex : existsb (fun x => match x with
                                  | Some n => MAX_INTEGER <? n
                                  | None => false
                                  end) values = true).
  { apply existsb_exists. exists (Some n). split; [exact Hin|].
    apply Z.ltb_lt. exact Hgt. }
  congruence.
Qed.

Lemma bigIntIfNonEmpty_range (b : bytes) :
  match bigIntIfNonEmpty b with
  | Some n => 0 <= n
  | None => True
  end.
Proof.
  unfold bigIntIfNonEmpty.
  destruct (0 <? Z.of_nat (List.length b)); [|exact I].
  apply uint8ArrayToBigInt_range.
Qed.

Lemma newAddress_inv (buf a : bytes) :
  newAddress buf = Ok a -> a = buf /\ List.length buf = 20%nat.
Proof.
  unfold newAddress. intros H.
  destruct (Z.of_nat (List.length buf) =? 20) eqn:Hlen; cbn in H;
    [|discriminate].
  injection H as <-. apply Z.eqb_eq in Hlen. split; [reflexivity | lia].
Qed.

Lemma BaseTransaction_constructor_inv (txData : PriorityETNIP1TxData)
  (opts : TxOptions) (base : Tx) :
  BaseTransaction_constructor txData opts = Ok base ->
  exists toB vB rB sB nonceB gasLimitB valueB dataB,
    toUint8Array_or0x (td_to txData) = Ok toB /\
    toUint8Array_or0x (td_v txData) = Ok vB /\
    toUint8Array_or0x (td_r txData) = Ok rB /\
    toUint8Array_or0x (td_s txData) = Ok sB /\
    toUint8Array_or0x (td_nonce txData) = Ok nonceB /\
    toUint8Array_or0x (td_gasLimit txData) = Ok gasLimitB /\
    toUint8Array_or0x (td_value txData) = Ok valueB /\
    toUint8Array_or0x (td_data txData) = Ok dataB /\
    (toB = [] \/ List.length toB = 20%nat) /\
    uint8ArrayToBigInt nonceB <= MAX_INTEGER /\
    uint8ArrayToBigInt gasLimitB <= MAX_INTEGER /\
    uint8ArrayToBigInt valueB <= MAX_INTEGER /\
    (forall n, bigIntIfNonEmpty rB = Some n -> n <= MAX_INTEGER) /\
    (forall n, bigIntIfNonEmpty sB = Some n -> n <= MAX_INTEGER) /\
    base =
      mkTx TRANSACTION_TYPE (uint8ArrayToBigInt nonceB)
        (uint8ArrayToBigInt gasLimitB)
        (match toB with [] => None | _ => Some toB end)
        (uint8ArrayToBigInt valueB) dataB (bigIntIfNonEmpty vB)
        (bigIntIfNonEmpty rB) (bigIntIfNonEmpty sB)
        (Common.mk 0 Common.Chainstart []) 0 [] 0 0 None None None opts []
        None false.
Proof.
  unfold BaseTransaction_constructor. intros H.
  ok_inv H. injection H as <-.
  exists a, a0, a1, a2, a3, a4, a6, a7.
  pose proof (bound_check_inv _ _ Ha8) as B1.
  pose proof (bound_check_inv _ _ Ha9) as B2.
  pose proof (bound_check_inv _ _ Ha10) as B3.
  cbn [value r s gasLimit nonce] in B1, B2, B3.
  repeat (split; [eassumption|]).
  assert (Hto : (a = [] \/ List.length a = 20%nat) /\
                a5 = match a with [] => None | _ => Some a end).
  { destruct a as [|b0 a'].
    - cbn in Ha5. injection Ha5 as <-. auto.
    - cbn [List.length] in Ha5.
      destruct (0 <? Z.of_nat (S (List.length a'))) eqn:Hpos;
        [|apply Z.ltb_ge in Hpos; lia].
      destruct (newAddress (b0 :: a')) as [buf|e] eqn:Hnew;
        cbn in Ha5; [|discriminate].
      injection Ha5 as <-.
      apply newAddress_inv in Hnew. destruct Hnew as [-> Hlen].
      split; [right; exact Hlen | reflexivity]. }
  destruct Hto as [Hto ->].
  split; [exact Hto|].
  split; [apply B3; cbn; auto|].
  split; [apply B2; cbn; auto|].
  split; [apply B1; cbn; auto|].
  split; [intros n Hn; apply B1; rewrite <- Hn; cbn; auto|].
  split; [intros n Hn; apply B1; rewrite <- Hn; cbn; auto|].
  reflexivity.
Qed.

Lemma constructor_fields_inv (txData : PriorityETNIP1TxData)
  (opts : TxOptions) (this : Tx) :
  constructor_fields txData opts = Ok this ->
  exists base c maxFeeB maxPrioB pvB prB psB,
    BaseTransaction_constructor txData opts = Ok base /\
    _getCommon (opt_common opts) (td_chainId txData) = Ok c /\
    Common.isActivatedEIP c 1559 = true /\
    verifyAccessList (accessListOrEmpty txData) = Ok tt /\
    toUint8Array_or0x (td_maxFeePerGas txData) = Ok maxFeeB /\
    toUint8Array_or0x (td_maxPriorityFeePerGas txData) = Ok maxPrioB /\
    uint8ArrayToBigInt maxFeeB <= MAX_INTEGER /\
    uint8ArrayToBigInt maxPrioB <= MAX_INTEGER /\
    toUint8Array_or0x (td_pV txData) = Ok pvB /\
    toUint8Array_or0x (td_pR txData) = Ok prB /\
    toUint8Array_or0x (td_pS txData) = Ok psB /\
    this =
      mkTx (_type base) (nonce base) (gasLimit base) (to base) (value base)
        (data base) (v base) (r base) (s base) c (Common.chainId c)
        (accessListOrEmpty txData) (uint8ArrayToBigInt maxPrioB)
        (uint8ArrayToBigInt maxFeeB) (bigIntIfNonEmpty pvB)
        (bigIntIfNonEmpty prB) (bigIntIfNonEmpty psB) (txOptions base)
        (activeCapabilities base ++ [1559; 2718; 2930]) (cache_hash base)
        (frozen base).
Proof.
  unfold constructor_fields. intros H.
  ok_inv H. injection H as <-.
  exists a, a0, a3, a4, a6, a7, a8.
  apply throw_if_Ok_inv, negb_false_iff in Ha1.
  pose proof (bound_check_inv _ _ Ha5) as B.
  destruct a2.
  repeat (split; [first [eassumption | apply B; cbn; auto]|]).
  reflexivity.
Qed.

(** The checks of the second part, one by one. *)
Lemma constructor_checks_inv (opts : TxOptions) (this tx : Tx) :
  constructor_checks opts this = Ok tx ->
  gasLimit this * maxFeePerGas this <= MAX_INTEGER /\
  maxPriorityFeePerGas this <= maxFeePerGas this /\
  _validateYParity this = Ok tt /\
  _validateHighS this = Ok tt /\
  tx = (if freezeOption opts then freeze_object this else this).
Proof.
  unfold constructor_checks. intros H.
  ok_inv H. injection H as <-.
  apply throw_if_Ok_inv in Ha, Ha0.
  apply Z.ltb_ge in Ha, Ha0.
  destruct a1, a2. auto.
Qed.

Lemma constructor_checks_Ok (opts : TxOptions) (this : Tx) :
  gasLimit this * maxFeePerGas this <= MAX_INTEGER ->
  maxPriorityFeePerGas this <= maxFeePerGas this ->
  _validateYParity this = Ok tt ->
  _validateHighS this = Ok tt ->
  constructor_checks opts this
  = Ok (if freezeOption opts then freeze_object this else this).
Proof.
  intros H1 H2 H3 H4. unfold constructor_checks.
  apply Z.ltb_ge in H1, H2. rewrite H1, H2, H3, H4. reflexivity.
Qed.

Lemma constructor_unfold (txData : PriorityETNIP1TxData) (opts : TxOptions)
  (this : Tx) :
  constructor_fields txData opts = Ok this ->
  constructor txData opts = constructor_checks opts this.
Proof. unfold constructor. intros ->. reflexivity. Qed.

(** *** The checks on the fees *)

(** C2.  When the fields of a construction are accepted and its other
    checks (fee order, parities, low S) pass, the construction fails with
    IntegerOverflow exactly when gasLimit * maxFeePerGas > 2^256 - 1, and
    it succeeds otherwise, in particular at the boundary
    gasLimit * maxFeePerGas = 2^256 - 1. *)
Theorem C2_gas_cost_overflow :
  forall (txData : PriorityETNIP1TxData) (opts : TxOptions) (this : Tx),
    constructor_fields txData opts = Ok this ->
    maxPriorityFeePerGas this <= maxFeePerGas this ->
    _validateYParity this = Ok tt ->
    _validateHighS this = Ok tt ->
    (constructor txData opts = Err IntegerOverflow
     <-> gasLimit this * maxFeePerGas this > 2 ^ 256 - 1)
    /\ (gasLimit this * maxFeePerGas this = 2 ^ 256 - 1 ->
        exists tx, constructor txData opts = Ok tx)
    /\ (gasLimit this * maxFeePerGas this <= 2 ^ 256 - 1 ->
        exists tx, constructor txData opts = Ok tx).
Proof.
  intros txData opts this Hfields Horder Hparity HlowS.
  rewrite (constructor_unfold _ _ _ Hfields).
  assert (Hok : gasLimit this * maxFeePerGas this <= 2 ^ 256 - 1 ->
                exists tx, constructor_checks opts this = Ok tx).
  { intros Hle. eexists. apply constructor_checks_Ok; assumption. }
  split; [|split].
  - split.
    + intros Herr.
      destruct (Z.leb_spec (gasLimit this * maxFeePerGas this) (2 ^ 256 - 1))
        as [Hle|Hgt]; [|lia].
      destruct (Hok Hle) as [tx Htx]. congruence.
    + intros Hgt. unfold constructor_checks.
      assert (Hlt : (MAX_INTEGER <? gasLimit this * maxFeePerGas this) = true)
        by (apply Z.ltb_lt; unfold MAX_INTEGER; lia).
      rewrite Hlt. reflexivity.
  - intros Heq. apply Hok. lia.
  - exact Hok.
Qed.

(** C3, as the code has it.  When the fields of a construction are accepted
    and maxFeePerGas < maxPriorityFeePerGas, the construction fails and
    gives no instance; the error is FeeOrderingViolation when
    gasLimit * maxFeePerGas does not exceed 2^256 - 1 (the check of that
    product comes first, and fails with IntegerOverflow).  When
    maxFeePerGas >= maxPriorityFeePerGas the construction does not fail
    with FeeOrderingViolation. *)
Theorem C3_fee_ordering :
  forall (txData : PriorityETNIP1TxData) (opts : TxOptions) (this : Tx),
    constructor_fields txData opts = Ok this ->
    (maxFeePerGas this < maxPriorityFeePerGas this ->
     (exists e, constructor txData opts = Err e)
     /\ (gasLimit this * maxFeePerGas this <= 2 ^ 256 - 1 ->
         constructor txData opts = Err FeeOrderingViolation)
     /\ (gasLimit this * maxFeePerGas this > 2 ^ 256 - 1 ->
         constructor txData opts = Err IntegerOverflow))
    /\ (maxPriorityFeePerGas this <= maxFeePerGas this ->
        constructor txData opts <> Err FeeOrderingViolation).
Proof.
  intros txData opts this Hfields.
  rewrite (constructor_unfold _ _ _ Hfields).
  unfold constructor_checks.
  split.
  - intros Hlt.
    assert (Hb : (maxFeePerGas this <? maxPriorityFeePerGas this) = true)
      by (apply Z.ltb_lt; exact Hlt).
    destruct (MAX_INTEGER <? gasLimit this * maxFeePerGas this) eqn:Hover.
    + apply Z.ltb_lt in Hover. unfold MAX_INTEGER in Hover.
      split; [eexists; reflexivity|].
      split; [intros; lia | reflexivity].
    + apply Z.ltb_ge in Hover. unfold MAX_INTEGER in Hover.
      rewrite Hb. split; [eexists; reflexivity|].
      split; [reflexivity | intros; lia].
  - intros Hle.
    assert (Hb : (maxFeePerGas this <? maxPriorityFeePerGas this) = false)
      by (apply Z.ltb_ge; exact Hle).
    rewrite Hb.
    change (~ raises
              (throw_if (MAX_INTEGER <? gasLimit this * maxFeePerGas this)
                 IntegerOverflow ;;;
               throw_if false FeeOrderingViolation ;;;
               _validateYParity this ;;;
               _validateHighS this ;;;
               (let freeze := match opt_freeze opts with
                              | Some b => b
                              | None => true
                              end in
                Ok (if freeze then freeze_object this else this)))
              FeeOrderingViolation).
    unfold _validateYParity, _validateHighS.
    apply not_raises_bind;
      [apply not_raises_throw_if; discriminate | intros ?].
    apply not_raises_bind; [cbn; apply not_raises_Ok | intros ?].
    no_raise.
Qed.

(** No instance has its maxFeePerGas below its maxPriorityFeePerGas. *)
Lemma constructor_fee_order (txData : PriorityETNIP1TxData)
  (opts : TxOptions) (tx : Tx) :
  constructor txData opts = Ok tx ->
  maxPriorityFeePerGas tx <= maxFeePerGas tx.
Proof.
  unfold constructor. intros H.
  apply bind_Ok_inv in H. destruct H as [this [_ H]].
  apply constructor_checks_inv in H.
  destruct H as [_ [Hle [_ [_ ->]]]].
  destruct (freezeOption opts); exact Hle.
Qed.

(** C4.  The code at the failing input: with pR = 2^256 and every other
    field left out, the construction succeeds and the instance stores
    2^256, above 2^256 - 1, as its pR; the bound check of the constructor
    reads the field before it is assigned.  With pS = 2^256 it is the low-S
    check that fails, with HighSSignature. *)
Theorem C4_priority_signature_bound_missed :
  (exists tx,
     fromTxData (prioritySignatureData Undefined (BigInt (2 ^ 256)) Undefined)
       opts_london = Ok tx
     /\ pR tx = Some (2 ^ 256)
     /\ MAX_INTEGER < 2 ^ 256)
  /\ fromTxData (prioritySignatureData Undefined Undefined (BigInt (2 ^ 256)))
       opts_london = Err HighSSignature.
Proof.
  split.
  - eexists. split; [vm_compute; reflexivity|].
    split; [vm_compute; reflexivity | reflexivity].
  - vm_compute. reflexivity.
Qed.

(** *** The upfront cost *)

(** C5.  [getUpfrontCost(baseFee)] is
    gasLimit * (baseFee + min(maxPriorityFeePerGas, maxFeePerGas - baseFee))
    + value over the integers, with baseFee 0 when it is left out; the
    transaction with maxFeePerGas 10, maxPriorityFeePerGas 8, gasLimit 100
    and value 6 is constructed, and costs 806 at base fee 0 and 1006 at
    base fee 4. *)
Theorem C5_upfront_cost :
  (forall (this : Tx) (baseFee : Z),
     getUpfrontCost this (Some baseFee)
     = gasLimit this
       * (baseFee
          + Z.min (maxPriorityFeePerGas this) (maxFeePerGas this - baseFee))
       + value this)
  /\ (forall this : Tx,
        getUpfrontCost this None = getUpfrontCost this (Some 0))
  /\ (exists tx,
        fromTxData (feeData 10 8 100 6) opts_london = Ok tx
        /\ getUpfrontCost tx None = 806
        /\ getUpfrontCost tx (Some 0) = 806
        /\ getUpfrontCost tx (Some 4) = 1006).
Proof.
  split; [|split].
  - intros this baseFee. unfold getUpfrontCost.
    destruct (Z.ltb_spec (maxPriorityFeePerGas this)
                (maxFeePerGas this - baseFee)) as [Hlt|Hge].
    + rewrite Z.min_l by lia. f_equal. f_equal. lia.
    + rewrite Z.min_r by lia. f_equal. f_equal. lia.
  - intros this. reflexivity.
  - eexists. split; [vm_compute; reflexivity|].
    repeat split; vm_compute; reflexivity.
Qed.

(** *** The message to sign *)

Lemma raw_unsignedPrefix (this : Tx) :
  firstn 9 (raw this) = unsignedPrefix this.
Proof. reflexivity. Qed.

(** C6.  [getMessageToSign(false)] is the byte 0x40 followed by the
    encoding of the list of the first nine raw fields (chainId, nonce,
    maxPriorityFeePerGas, maxFeePerGas, gasLimit, to, value, data,
    accessList); none of the six signature fields takes part: the message
    is the same whatever the two signature triples are; the transaction of
    the example is constructed and its message is the literal byte
    sequence. *)
Theorem C6_message_to_sign :
  (forall this : Tx,
     getMessageToSign this false
     = x40 :: RLP.encode (RLP.Lst (unsignedPrefix this)))
  /\ (forall (this : Tx) (v r s pV pR pS : Z),
        getMessageToSign (withSignatures this v r s pV pR pS) false
        = getMessageToSign this false)
  /\ (exists tx,
        fromTxData messageTestData opts_london = Ok tx
        /\ getMessageToSign tx false = expectedSerialization).
Proof.
  split; [|split].
  - intros this. unfold getMessageToSign.
    rewrite raw_unsignedPrefix. reflexivity.
  - intros this v r s pV pR pS. reflexivity.
  - eexists. split; [vm_compute; reflexivity|].
    vm_compute. reflexivity.
Qed.

(** *** The invariant of the instances *)

Lemma constructor_well_formed (txData : PriorityETNIP1TxData)
  (opts : TxOptions) (tx : Tx) :
  constructor txData opts = Ok tx ->
  well_formed tx /\ cache_hash tx = None /\ txOptions tx = opts
  /\ activeCapabilities tx = [1559; 2718; 2930].
Proof.
  unfold constructor. intros H.
  apply bind_Ok_inv in H. destruct H as [this [Hfields Hchecks]].
  apply constructor_checks_inv in Hchecks.
  destruct Hchecks as [Hcost [Horder [Hparity [HlowS ->]]]].
  apply constructor_fields_inv in Hfields.
  destruct Hfields as
    (base & c & maxFeeB & maxPrioB & pvB & prB & psB & Hbase & Hc & Heip
     & Hal & HmaxFee & HmaxPrio & BmaxFee & BmaxPrio & HpV & HpR & HpS
     & Hthis).
  apply BaseTransaction_constructor_inv in Hbase.
  destruct Hbase as
    (toB & vB & rB & sB & nonceB & gasLimitB & valueB & dataB & Hto & Hv
     & Hr & Hs & Hnonce & HgasLimit & Hvalue & Hdata & Htolen & Bnonce
     & BgasLimit & Bvalue & Br & Bs & Hbase).
  subst base. cbn [_type nonce gasLimit to value data v r s txOptions
                     activeCapabilities cache_hash frozen] in Hthis.
  subst this. unfold freeze_object.
  destruct (freezeOption opts) eqn:Hfreeze;
    (split; [|repeat split; reflexivity]);
    (constructor;
     cbn [_type nonce gasLimit to value data v r s common chainId
            accessList maxPriorityFeePerGas maxFeePerGas pV pR pS
            txOptions activeCapabilities cache_hash frozen] in *;
     try reflexivity; try assumption;
     try (split; [apply uint8ArrayToBigInt_range | assumption]);
     try (symmetry; exact Hfreeze)).
  all: try (destruct toB as [|b0 toB']; [exact I|];
            destruct Htolen as [Hnil|Hlen]; [discriminate | exact Hlen]).
  all: try (pose proof (bigIntIfNonEmpty_range rB) as Hr0;
            destruct (bigIntIfNonEmpty rB) as [n|]; [|exact I];
            split; [exact Hr0 | apply Br; reflexivity]).
  all: try (pose proof (bigIntIfNonEmpty_range sB) as Hs0;
            destruct (bigIntIfNonEmpty sB) as [n|]; [|exact I];
            split; [exact Hs0 | apply Bs; reflexivity]).
Qed.


Lemma fromValuesArray_inv (values : list RLP.Item) (opts : TxOptions)
  (tx : Tx) :
  fromValuesArray values opts = Ok tx ->
  exists txData,
    constructor txData opts = Ok tx
    /\ slotToBigInt (nth_error values 12) = Ok (td_pV txData)
    /\ td_pR txData = slot (nth_error values 13)
    /\ td_pS txData = slot (nth_error values 14).
Proof.
  unfold fromValuesArray. intros H.
  apply bind_Ok_inv in H. destruct H as [u [_ H]].
  unfold fromValuesArray_fields in H. cbv zeta in H.
  apply bind_Ok_inv in H. destruct H as [u1 [_ H]].
  apply bind_Ok_inv in H. destruct H as [u2 [_ H]].
  apply bind_Ok_inv in H. destruct H as [chainId' [_ H]].
  apply bind_Ok_inv in H. destruct H as [v' [_ H]].
  apply bind_Ok_inv in H. destruct H as [pV' [HpV H]].
  apply bind_Ok_inv in H. destruct H as [al [_ H]].
  eexists. split; [exact H|].
  cbn [td_pV td_pR td_pS]. auto.
Qed.

(** *** Signed instances and the hash *)

Lemma isSigned_true_iff (this : Tx) :
  isSigned this = true
  <-> exists v0 r0 s0 pV0 pR0 pS0,
        v this = Some v0 /\ r this = Some r0 /\ s this = Some s0
        /\ pV this = Some pV0 /\ pR this = Some pR0 /\ pS this = Some pS0.
Proof.
  unfold isSigned. split.
  - destruct (v this) as [v0|], (r this) as [r0|], (s this) as [s0|],
      (pV this) as [pV0|], (pR this) as [pR0|], (pS this) as [pS0|];
      cbn; intros H; try discriminate.
    exists v0, r0, s0, pV0, pR0, pS0. repeat split.
  - intros (v0 & r0 & s0 & pV0 & pR0 & pS0 & -> & -> & -> & -> & -> & ->).
    reflexivity.
Qed.

Lemma hash_not_signed (this : Tx) :
  isSigned this = false -> hash this = Err NotSigned.
Proof. unfold hash. intros ->. reflexivity. Qed.

Lemma hash_signed (this : Tx) :
  isSigned this = true ->
  cache_consistent this ->
  exists this',
    hash this = Ok (keccak256 (serialize this), this')
    /\ (this' = this
        \/ this' = set_cache_hash (Some (keccak256 (serialize this))) this).
Proof.
  unfold hash, cache_consistent. intros -> Hcache. cbn [negb throw_if bind].
  destruct (frozen this).
  - destruct (cache_hash this) as [h|] eqn:Hh.
    + rewrite Hh. subst h. eauto.
    + cbn [cache_hash set_cache_hash]. eauto.
  - eauto.
Qed.

Lemma hash_Ok_inv (this this' : Tx) (h : bytes) :
  hash this = Ok (h, this') ->
  this' = this
  \/ this' = set_cache_hash (Some (keccak256 (serialize this))) this.
Proof.
  unfold hash. intros H.
  apply bind_Ok_inv in H. destruct H as [u [_ H]].
  destruct (frozen this).
  - destruct (cache_hash this) as [h0|] eqn:Hh.
    + rewrite Hh in H. injection H as _ <-. auto.
    + cbn [cache_hash set_cache_hash] in H. injection H as _ <-. auto.
  - injection H as _ <-. auto.
Qed.

Lemma well_formed_set_cache_hash (x : option bytes) (this : Tx) :
  well_formed this -> well_formed (set_cache_hash x this).
Proof. intros []. constructor; assumption. Qed.

Lemma cache_consistent_set (this : Tx) :
  cache_consistent
    (set_cache_hash (Some (keccak256 (serialize this))) this).
Proof. unfold cache_consistent. reflexivity. Qed.

(** For an instance of type 64 the capabilities of the source are not
    touched by [sign], and the result is that of the two signatures given
    to the constructor. *)
Lemma sign_type_64 (this : Tx) (privateKey : bytes)
  (priorityPrivateKey : option bytes) :
  _type this = TRANSACTION_TYPE ->
  sign this privateKey priorityPrivateKey
  = (this,
     match priorityPrivateKey with
     | None => Err InvalidKeyLength
     | Some priorityPrivateKey =>
         if negb (Z.of_nat (List.length privateKey) =? 32)
            || negb (Z.of_nat (List.length priorityPrivateKey) =? 32)
         then Err InvalidKeyLength
         else
           let msgHash := getMessageToSign this true in
           sig <- __ecsign msgHash privateKey ;;
           pSignature <- __ecsign msgHash priorityPrivateKey ;;
           _processSignatures this (sig_v sig) (sig_r sig) (sig_s sig)
             (sig_v pSignature) (sig_r pSignature) (sig_s pSignature)
     end).
Proof.
  intros Htype. unfold sign. rewrite Htype.
  destruct priorityPrivateKey as [priorityPrivateKey|]; [|reflexivity].
  destruct (negb (Z.of_nat (List.length privateKey) =? 32)
            || negb (Z.of_nat (List.length priorityPrivateKey) =? 32));
    [reflexivity|].
  cbn [TRANSACTION_TYPE Z.eqb andb]. cbv zeta.
  match goal with
  | |- (match ?m with _ => _ end) = _ => destruct m; reflexivity
  end.
Qed.

Lemma sign_result_constructed (this tx : Tx) (privateKey : bytes)
  (priorityPrivateKey : option bytes) :
  snd (sign this privateKey priorityPrivateKey) = Ok tx ->
  exists txData opts, constructor txData opts = Ok tx.
Proof.
  unfold sign.
  destruct priorityPrivateKey as [priorityPrivateKey|]; [|discriminate].
  destruct (negb (Z.of_nat (List.length privateKey) =? 32)
            || negb (Z.of_nat (List.length priorityPrivateKey) =? 32));
    [discriminate|].
  cbv zeta.
  match goal with
  | |- snd (match ?m with _ => _ end) = _ -> _ =>
      destruct m as [tx'|e] eqn:Hm; [|discriminate]
  end.
  cbn [snd]. intros [= ->].
  apply bind_Ok_inv in Hm. destruct Hm as [sig [_ Hm]].
  apply bind_Ok_inv in Hm. destruct Hm as [pSignature [_ Hm]].
  unfold _processSignatures, fromTxData in Hm. eauto.
Qed.

(** Every instance is well formed and its cache slot is consistent. *)
Lemma reachable_invariant (this : Tx) :
  reachable this -> well_formed this /\ cache_consistent this.
Proof.
  induction 1 as [txData opts this H | values opts this H
                 | this this' h _ [IHwf IHcache] H
                 | this privateKey priorityPrivateKey _ [IHwf IHcache]
                 | this tx privateKey priorityPrivateKey _ _ H].
  - apply constructor_well_formed in H.
    destruct H as [Hwf [Hcache _]].
    split; [exact Hwf|]. unfold cache_consistent. rewrite Hcache. exact I.
  - apply fromValuesArray_inv in H. destruct H as [txData [H _]].
    apply constructor_well_formed in H.
    destruct H as [Hwf [Hcache _]].
    split; [exact Hwf|]. unfold cache_consistent. rewrite Hcache. exact I.
  - apply hash_Ok_inv in H. destruct H as [-> | ->].
    + auto.
    + split; [apply well_formed_set_cache_hash; exact IHwf|].
      apply cache_consistent_set.
  - rewrite sign_type_64 by (apply wf_type; exact IHwf). auto.
  - apply sign_result_constructed in H. destruct H as [txData [opts H]].
    apply constructor_well_formed in H.
    destruct H as [Hwf [Hcache _]].
    split; [exact Hwf|]. unfold cache_consistent. rewrite Hcache. exact I.
Qed.

(** C7.  For every instance: [isSigned()] is true iff the six components
    v, r, s, pV, pR and pS are all present; [hash()] fails with NotSigned
    exactly when the instance is not signed, and otherwise returns the
    digest of [serialize()] (the instance is left with the same wire
    bytes).  For a signed instance [serialize()] is the type byte 0x40
    followed by the encoding of the list of the nine unsigned fields and
    the minimal bytes of v, r, s, pV, pR and pS, in this order, and
    [hash()] is the digest of these bytes. *)
Theorem C7_hash_and_isSigned :
  forall this : Tx,
    reachable this ->
    (isSigned this = true
     <-> exists v0 r0 s0 pV0 pR0 pS0,
           v this = Some v0 /\ r this = Some r0 /\ s this = Some s0
           /\ pV this = Some pV0 /\ pR this = Some pR0
           /\ pS this = Some pS0)
    /\ (hash this = Err NotSigned <-> isSigned this = false)
    /\ (isSigned this = true ->
        exists this',
          hash this = Ok (keccak256 (serialize this), this')
          /\ serialize this' = serialize this)
    /\ (forall v0 r0 s0 pV0 pR0 pS0,
          v this = Some v0 -> r this = Some r0 -> s this = Some s0 ->
          pV this = Some pV0 -> pR this = Some pR0 -> pS this = Some pS0 ->
          let wire :=
            x40 :: RLP.encode
                     (RLP.Lst
                        (unsignedPrefix this
                         ++ [RLP.Str (bigIntToUnpaddedUint8Array v0);
                             RLP.Str (bigIntToUnpaddedUint8Array r0);
                             RLP.Str (bigIntToUnpaddedUint8Array s0);
                             RLP.Str (bigIntToUnpaddedUint8Array pV0);
                             RLP.Str (bigIntToUnpaddedUint8Array pR0);
                             RLP.Str (bigIntToUnpaddedUint8Array pS0)])) in
          serialize this = wire
          /\ exists this',
               hash this = Ok (keccak256 wire, this')
               /\ serialize this' = wire).
Proof.
  intros this Hreach.
  destruct (reachable_invariant this Hreach) as [_ Hcache].
  assert (Hhash :
            isSigned this = true ->
            exists this',
              hash this = Ok (keccak256 (serialize this), this')
              /\ serialize this' = serialize this).
  { intros Hsigned.
    destruct (hash_signed this Hsigned Hcache) as [this' [Hh Hthis']].
    exists this'. split; [exact Hh|].
    destruct Hthis' as [-> | ->]; reflexivity. }
  split; [apply isSigned_true_iff|].
  split; [|split].
  - split.
    + intros Herr. destruct (isSigned this) eqn:Hsigned; [|reflexivity].
      destruct (Hhash eq_refl) as [this' [Hh _]].
      congruence.
    + apply hash_not_signed.
  - exact Hhash.
  - intros v0 r0 s0 pV0 pR0 pS0 Hv Hr Hs HpV HpR HpS wire.
    assert (Hwire : serialize this = wire).
    { unfold wire, serialize, raw, unsignedPrefix.
      rewrite Hv, Hr, Hs, HpV, HpR, HpS. reflexivity. }
    split; [exact Hwire|].
    assert (Hsigned : isSigned this = true).
    { apply isSigned_true_iff.
      exists v0, r0, s0, pV0, pR0, pS0. repeat split; assumption. }
    destruct (Hhash Hsigned) as (this' & Hh & Hsame).
    exists this'. rewrite <- Hwire. split; assumption.
Qed.

(** *** Recovery of the two public keys *)

(** C8.  [getSenderAndPriorityPublicKey()] fails with NotSigned when the
    instance is not signed.  When the six components are present it first
    checks the low-S rule on s and on pS, failing with HighSSignature when
    the homestead fork is reached and one of them exceeds half the curve
    order; then it recovers one key from (v + 27, r, s) and one from
    (pV + 27, pR, pS), both over the digest of the unsigned message, and
    fails with InvalidSignature, returning no key, as soon as one of the
    two recoveries fails. *)
Theorem C8_sender_and_priority_public_key :
  forall this : Tx,
    (isSigned this = false ->
     getSenderAndPriorityPublicKey this = Err NotSigned)
    /\ (forall v0 r0 s0 pV0 pR0 pS0,
          v this = Some v0 -> r this = Some r0 -> s this = Some s0 ->
          pV this = Some pV0 -> pR this = Some pR0 -> pS this = Some pS0 ->
          let msgHash := keccak256 (getMessageToSign this false) in
          getSenderAndPriorityPublicKey this
          = if Common.gteHardfork (common this) Common.Homestead
               && ((SECP256K1_ORDER_DIV_2 <? s0)
                   || (SECP256K1_ORDER_DIV_2 <? pS0))
            then Err HighSSignature
            else
              match
                ecrecover msgHash (v0 + 27)
                  (bigIntToUnpaddedUint8Array r0)
                  (bigIntToUnpaddedUint8Array s0),
                ecrecover msgHash (pV0 + 27)
                  (bigIntToUnpaddedUint8Array pR0)
                  (bigIntToUnpaddedUint8Array pS0)
              with
              | Some key, Some priorityKey => Ok (key, priorityKey)
              | _, _ => Err InvalidSignature
              end).
Proof.
  intros this. split.
  - unfold getSenderAndPriorityPublicKey. intros ->. reflexivity.
  - intros v0 r0 s0 pV0 pR0 pS0 Hv Hr Hs HpV HpR HpS msgHash.
    unfold getSenderAndPriorityPublicKey, isSigned, _validateHighS,
      getMessageToVerifySignature.
    rewrite Hv, Hr, Hs, HpV, HpR, HpS.
    cbn [isDefined negb orb throw_if bind orZero].
    change (getMessageToSign this true) with msgHash.
    destruct (Common.gteHardfork (common this) Common.Homestead);
      cbn [andb].
    + destruct (SECP256K1_ORDER_DIV_2 <? s0); cbn [orb throw_if bind];
        [reflexivity|].
      destruct (SECP256K1_ORDER_DIV_2 <? pS0); cbn [throw_if bind];
        [reflexivity|].
      destruct (ecrecover msgHash (v0 + 27) (bigIntToUnpaddedUint8Array r0)
                  (bigIntToUnpaddedUint8Array s0));
        destruct (ecrecover msgHash (pV0 + 27)
                    (bigIntToUnpaddedUint8Array pR0)
                    (bigIntToUnpaddedUint8Array pS0)); reflexivity.
    + cbn [throw_if bind].
      destruct (ecrecover msgHash (v0 + 27) (bigIntToUnpaddedUint8Array r0)
                  (bigIntToUnpaddedUint8Array s0));
        destruct (ecrecover msgHash (pV0 + 27)
                    (bigIntToUnpaddedUint8Array pR0)
                    (bigIntToUnpaddedUint8Array pS0)); reflexivity.
Qed.

(** *** Empty secondary signature components *)

Lemma toUint8Array_or0x_empty (b : bytes) :
  toUint8Array_or0x (Uint8Array []) = Ok b -> bigIntIfNonEmpty b = None.
Proof. cbn. intros [= <-]. reflexivity. Qed.

Lemma isSigned_false_pV (this : Tx) : pV this = None -> isSigned this = false.
Proof.
  unfold isSigned. intros ->.
  destruct (v this), (r this), (s this); reflexivity.
Qed.

Lemma isSigned_false_pR (this : Tx) : pR this = None -> isSigned this = false.
Proof.
  unfold isSigned. intros ->.
  destruct (v this), (r this), (s this), (pV this); reflexivity.
Qed.

Lemma isSigned_false_pS (this : Tx) : pS this = None -> isSigned this = false.
Proof.
  unfold isSigned. intros ->.
  destruct (v this), (r this), (s this), (pV this), (pR this); reflexivity.
Qed.

Lemma constructor_priority_signature (txData : PriorityETNIP1TxData)
  (opts : TxOptions) (tx : Tx) :
  constructor txData opts = Ok tx ->
  exists pvB prB psB,
    toUint8Array_or0x (td_pV txData) = Ok pvB
    /\ toUint8Array_or0x (td_pR txData) = Ok prB
    /\ toUint8Array_or0x (td_pS txData) = Ok psB
    /\ pV tx = bigIntIfNonEmpty pvB
    /\ pR tx = bigIntIfNonEmpty prB
    /\ pS tx = bigIntIfNonEmpty psB.
Proof.
  unfold constructor. intros H.
  apply bind_Ok_inv in H. destruct H as [this [Hfields Hchecks]].
  apply constructor_checks_inv in Hchecks.
  destruct Hchecks as [_ [_ [_ [_ ->]]]].
  apply constructor_fields_inv in Hfields.
  destruct Hfields as
    (base & c & maxFeeB & maxPrioB & pvB & prB & psB & _ & _ & _ & _ & _
     & _ & _ & _ & HpV & HpR & HpS & ->).
  exists pvB, prB, psB.
  destruct (freezeOption opts); repeat split; assumption.
Qed.

Lemma toUint8Array_or0x_empty_form (x : BigIntLike) (b : bytes) :
  x = Uint8Array [] \/ x = EmptyString ->
  toUint8Array_or0x x = Ok b -> bigIntIfNonEmpty b = None.
Proof. intros [-> | ->]; cbn; intros [= <-]; reflexivity. Qed.

(** C10, as the code has it.  A secondary-signature component (pV, pR or
    pS) given to the constructor as an empty byte form, the empty byte
    array or the empty string, is stored as absent, and an instance with
    such a component is not signed.  In an instance made from a values
    array, an empty pR or pS slot is stored as absent and makes the
    instance not signed, while an empty pV slot is read as the number 0
    and stored as the parity 0. *)
Theorem C10_empty_priority_signature :
  (forall (txData : PriorityETNIP1TxData) (opts : TxOptions) (tx : Tx),
     constructor txData opts = Ok tx ->
     (td_pV txData = Uint8Array [] \/ td_pV txData = EmptyString ->
      pV tx = None /\ isSigned tx = false)
     /\ (td_pR txData = Uint8Array [] \/ td_pR txData = EmptyString ->
         pR tx = None /\ isSigned tx = false)
     /\ (td_pS txData = Uint8Array [] \/ td_pS txData = EmptyString ->
         pS tx = None /\ isSigned tx = false))
  /\ (forall (values : list RLP.Item) (opts : TxOptions) (tx : Tx),
        fromValuesArray values opts = Ok tx ->
        (nth_error values 12 = Some (RLP.Str []) -> pV tx = Some 0)
        /\ (nth_error values 13 = Some (RLP.Str []) ->
            pR tx = None /\ isSigned tx = false)
        /\ (nth_error values 14 = Some (RLP.Str []) ->
            pS tx = None /\ isSigned tx = false)).
Proof.
  split.
  - intros txData opts tx H.
    apply constructor_priority_signature in H.
    destruct H as (pvB & prB & psB & HpV & HpR & HpS & EpV & EpR & EpS).
    split; [|split]; intros Hempty.
    + assert (Hnone : pV tx = None)
        by (rewrite EpV; eapply toUint8Array_or0x_empty_form; eassumption).
      split; [exact Hnone | apply isSigned_false_pV; exact Hnone].
    + assert (Hnone : pR tx = None)
        by (rewrite EpR; eapply toUint8Array_or0x_empty_form; eassumption).
      split; [exact Hnone | apply isSigned_false_pR; exact Hnone].
    + assert (Hnone : pS tx = None)
        by (rewrite EpS; eapply toUint8Array_or0x_empty_form; eassumption).
      split; [exact Hnone | apply isSigned_false_pS; exact Hnone].
  - intros values opts tx H.
    apply fromValuesArray_inv in H.
    destruct H as (txData & H & HpV & HpR & HpS).
    apply constructor_priority_signature in H.
    destruct H as (pvB & prB & psB & BpV & BpR & BpS & EpV & EpR & EpS).
    split; [|split]; intros Hslot.
    + rewrite Hslot in HpV. cbn in HpV. injection HpV as HpV.
      rewrite <- HpV in BpV. cbn in BpV. injection BpV as <-.
      rewrite EpV. reflexivity.
    + rewrite Hslot in HpR. cbn [slot] in HpR.
      assert (Hnone : pR tx = None).
      { rewrite EpR. eapply toUint8Array_or0x_empty_form; [|exact BpR].
        left. exact HpR. }
      split; [exact Hnone | apply isSigned_false_pR; exact Hnone].
    + rewrite Hslot in HpS. cbn [slot] in HpS.
      assert (Hnone : pS tx = None).
      { rewrite EpS. eapply toUint8Array_or0x_empty_form; [|exact BpS].
        left. exact HpS. }
      split; [exact Hnone | apply isSigned_false_pS; exact Hnone].
Qed.

(** *** Signing *)

Lemma toUint8Array_or0x_BigInt_inv (n : Z) (b : bytes) :
  toUint8Array_or0x (BigInt n) = Ok b ->
  0 <= n /\ uint8ArrayToBigInt b = n /\ bigIntIfNonEmpty b = Some n.
Proof.
  cbn [toUint8Array_or0x toUint8Array].
  destruct (Z.ltb_spec n 0) as [Hneg|Hpos]; [discriminate|].
  destruct (Z.eqb_spec n 0) as [->|Hne]; intros [= <-].
  - split; [lia|]. split; reflexivity.
  - assert (Hval : uint8ArrayToBigInt (bigIntToUnpaddedUint8Array n) = n)
      by (apply uint8ArrayToBigInt_unpadded; exact Hpos).
    split; [exact Hpos|]. split; [exact Hval|].
    unfold bigIntIfNonEmpty.
    pose proof (unpadded_nonempty n ltac:(lia)) as Hlen.
    destruct (Z.ltb_spec 0
                (Z.of_nat (List.length (bigIntToUnpaddedUint8Array n))))
      as [_|Hle]; [|lia].
    rewrite Hval. reflexivity.
Qed.

Lemma toUint8Array_or0x_BigInt_Ok (n : Z) :
  0 <= n ->
  exists b,
    toUint8Array_or0x (BigInt n) = Ok b
    /\ uint8ArrayToBigInt b = n /\ bigIntIfNonEmpty b = Some n.
Proof.
  intros Hn.
  assert (H : exists b, toUint8Array_or0x (BigInt n) = Ok b).
  { cbn [toUint8Array_or0x toUint8Array].
    destruct (Z.ltb_spec n 0) as [Hneg|_]; [lia|].
    destruct (n =? 0); eauto. }
  destruct H as [b Hb]. exists b. split; [exact Hb|].
  apply toUint8Array_or0x_BigInt_inv in Hb. tauto.
Qed.

Lemma bound_check_Ok (values : list (option Z)) :
  (forall n, In (Some n) values -> n <= MAX_INTEGER) ->
  _validateCannotExceedMaxInteger values = Ok tt.
Proof.
  intros H. unfold _validateCannotExceedMaxInteger.
  replace (existsb _ values) with false; [reflexivity|].
  symmetry. apply not_true_is_false. intros Hex.
  apply existsb_exists in Hex. destruct Hex as [[n|] [Hin Hn]];
    [|discriminate].
  apply Z.ltb_lt in Hn. specialize (H n Hin). lia.
Qed.

(** The instance that the constructor assembles from the byte forms of the
    fields, before the freeze. *)
Lemma constructor_inv (txData : PriorityETNIP1TxData) (opts : TxOptions)
  (tx : Tx) :
  constructor txData opts = Ok tx ->
  exists toB vB rB sB nonceB gasLimitB valueB dataB c maxFeeB maxPrioB pvB
         prB psB,
    toUint8Array_or0x (td_to txData) = Ok toB /\
    toUint8Array_or0x (td_v txData) = Ok vB /\
    toUint8Array_or0x (td_r txData) = Ok rB /\
    toUint8Array_or0x (td_s txData) = Ok sB /\
    toUint8Array_or0x (td_nonce txData) = Ok nonceB /\
    toUint8Array_or0x (td_gasLimit txData) = Ok gasLimitB /\
    toUint8Array_or0x (td_value txData) = Ok valueB /\
    toUint8Array_or0x (td_data txData) = Ok dataB /\
    _getCommon (opt_common opts) (td_chainId txData) = Ok c /\
    toUint8Array_or0x (td_maxFeePerGas txData) = Ok maxFeeB /\
    toUint8Array_or0x (td_maxPriorityFeePerGas txData) = Ok maxPrioB /\
    toUint8Array_or0x (td_pV txData) = Ok pvB /\
    toUint8Array_or0x (td_pR txData) = Ok prB /\
    toUint8Array_or0x (td_pS txData) = Ok psB /\
    tx =
      mkTx TRANSACTION_TYPE (uint8ArrayToBigInt nonceB)
        (uint8ArrayToBigInt gasLimitB)
        (match toB with [] => None | _ => Some toB end)
        (uint8ArrayToBigInt valueB) dataB (bigIntIfNonEmpty vB)
        (bigIntIfNonEmpty rB) (bigIntIfNonEmpty sB) c (Common.chainId c)
        (accessListOrEmpty txData) (uint8ArrayToBigInt maxPrioB)
        (uint8ArrayToBigInt maxFeeB) (bigIntIfNonEmpty pvB)
        (bigIntIfNonEmpty prB) (bigIntIfNonEmpty psB) opts
        [1559; 2718; 2930] None (freezeOption opts).
Proof.
  unfold constructor. intros H.
  apply bind_Ok_inv in H. destruct H as [this [Hfields Hchecks]].
  apply constructor_checks_inv in Hchecks.
  destruct Hchecks as [_ [_ [_ [_ ->]]]].
  apply constructor_fields_inv in Hfields.
  destruct Hfields as
    (base & c & maxFeeB & maxPrioB & pvB & prB & psB & Hbase & Hc & _
     & _ & HmaxFee & HmaxPrio & _ & _ & HpV & HpR & HpS & ->).
  apply BaseTransaction_constructor_inv in Hbase.
  destruct Hbase as
    (toB & vB & rB & sB & nonceB & gasLimitB & valueB & dataB & Hto & Hv
     & Hr & Hs & Hnonce & HgasLimit & Hvalue & Hdata & _ & _ & _ & _ & _
     & _ & ->).
  exists toB, vB, rB, sB, nonceB, gasLimitB, valueB, dataB, c, maxFeeB,
    maxPrioB, pvB, prB, psB.
  repeat (split; [assumption|]).
  destruct (freezeOption opts); reflexivity.
Qed.

Lemma BaseTransaction_constructor_Ok (txData : PriorityETNIP1TxData)
  (opts : TxOptions) (toB vB rB sB nonceB gasLimitB valueB dataB : bytes) :
  toUint8Array_or0x (td_to txData) = Ok toB ->
  toUint8Array_or0x (td_v txData) = Ok vB ->
  toUint8Array_or0x (td_r txData) = Ok rB ->
  toUint8Array_or0x (td_s txData) = Ok sB ->
  toUint8Array_or0x (td_nonce txData) = Ok nonceB ->
  toUint8Array_or0x (td_gasLimit txData) = Ok gasLimitB ->
  toUint8Array_or0x (td_value txData) = Ok valueB ->
  toUint8Array_or0x (td_data txData) = Ok dataB ->
  (toB = [] \/ List.length toB = 20%nat) ->
  uint8ArrayToBigInt nonceB <= MAX_INTEGER ->
  uint8ArrayToBigInt gasLimitB <= MAX_INTEGER ->
  uint8ArrayToBigInt valueB <= MAX_INTEGER ->
  (forall n, bigIntIfNonEmpty rB = Some n -> n <= MAX_INTEGER) ->
  (forall n, bigIntIfNonEmpty sB = Some n -> n <= MAX_INTEGER) ->
  BaseTransaction_constructor txData opts
  = Ok (mkTx TRANSACTION_TYPE (uint8ArrayToBigInt nonceB)
          (uint8ArrayToBigInt gasLimitB)
          (match toB with [] => None | _ => Some toB end)
          (uint8ArrayToBigInt valueB) dataB (bigIntIfNonEmpty vB)
          (bigIntIfNonEmpty rB) (bigIntIfNonEmpty sB)
          (Common.mk 0 Common.Chainstart []) 0 [] 0 0 None None None opts []
          None false).
Proof.
  intros Hto Hv Hr Hs Hnonce HgasLimit Hvalue Hdata Htolen Bnonce BgasLimit
    Bvalue Br Bs.
  unfold BaseTransaction_constructor.
  rewrite Hto, Hv, Hr, Hs, Hnonce, HgasLimit, Hvalue, Hdata.
  cbn [bind].
  assert (Haddr :
            (if 0 <? Z.of_nat (List.length toB)
             then a <- newAddress toB ;; Ok (Some a)
             else Ok None)
            = Ok (match toB with [] => None | _ => Some toB end)).
  { destruct Htolen as [-> | Hlen]; [reflexivity|].
    destruct toB as [|b0 toB']; [discriminate|].
    rewrite Hlen. unfold newAddress. rewrite Hlen. reflexivity. }
  rewrite Haddr. cbn [bind value r s gasLimit nonce].
  rewrite !bound_check_Ok; [reflexivity | | |].
  - intros n [[= <-] | []]. exact Bnonce.
  - intros n [[= <-] | []]. exact BgasLimit.
  - intros n [[= <-] | [Hn | [Hn | []]]];
      [exact Bvalue | apply Br; exact Hn | apply Bs; exact Hn].
Qed.

Lemma constructor_Ok (txData : PriorityETNIP1TxData) (opts : TxOptions)
  (toB vB rB sB nonceB gasLimitB valueB dataB : bytes) (c : Common.t)
  (maxFeeB maxPrioB pvB prB psB : bytes) :
  toUint8Array_or0x (td_to txData) = Ok toB ->
  toUint8Array_or0x (td_v txData) = Ok vB ->
  toUint8Array_or0x (td_r txData) = Ok rB ->
  toUint8Array_or0x (td_s txData) = Ok sB ->
  toUint8Array_or0x (td_nonce txData) = Ok nonceB ->
  toUint8Array_or0x (td_gasLimit txData) = Ok gasLimitB ->
  toUint8Array_or0x (td_value txData) = Ok valueB ->
  toUint8Array_or0x (td_data txData) = Ok dataB ->
  _getCommon (opt_common opts) (td_chainId txData) = Ok c ->
  toUint8Array_or0x (td_maxFeePerGas txData) = Ok maxFeeB ->
  toUint8Array_or0x (td_maxPriorityFeePerGas txData) = Ok maxPrioB ->
  toUint8Array_or0x (td_pV txData) = Ok pvB ->
  toUint8Array_or0x (td_pR txData) = Ok prB ->
  toUint8Array_or0x (td_pS txData) = Ok psB ->
  (toB = [] \/ List.length toB = 20%nat) ->
  uint8ArrayToBigInt nonceB <= MAX_INTEGER ->
  uint8ArrayToBigInt gasLimitB <= MAX_INTEGER ->
  uint8ArrayToBigInt valueB <= MAX_INTEGER ->
  (forall n, bigIntIfNonEmpty rB = Some n -> n <= MAX_INTEGER) ->
  (forall n, bigIntIfNonEmpty sB = Some n -> n <= MAX_INTEGER) ->
  Common.isActivatedEIP c 1559 = true ->
  verifyAccessList (accessListOrEmpty txData) = Ok tt ->
  uint8ArrayToBigInt maxFeeB <= MAX_INTEGER ->
  uint8ArrayToBigInt maxPrioB <= MAX_INTEGER ->
  _validateNotArray (scalar_fields txData) = Ok tt ->
  forall this,
    this =
      mkTx TRANSACTION_TYPE (uint8ArrayToBigInt nonceB)
        (uint8ArrayToBigInt gasLimitB)
        (match toB with [] => None | _ => Some toB end)
        (uint8ArrayToBigInt valueB) dataB (bigIntIfNonEmpty vB)
        (bigIntIfNonEmpty rB) (bigIntIfNonEmpty sB) c (Common.chainId c)
        (accessListOrEmpty txData) (uint8ArrayToBigInt maxPrioB)
        (uint8ArrayToBigInt maxFeeB) (bigIntIfNonEmpty pvB)
        (bigIntIfNonEmpty prB) (bigIntIfNonEmpty psB) opts
        [1559; 2718; 2930] None false ->
    gasLimit this * maxFeePerGas this <= MAX_INTEGER ->
    maxPriorityFeePerGas this <= maxFeePerGas this ->
    _validateYParity this = Ok tt ->
    _validateHighS this = Ok tt ->
    constructor txData opts
    = Ok (if freezeOption opts then freeze_object this else this).
Proof.
  intros Hto Hv Hr Hs Hnonce HgasLimit Hvalue Hdata Hc HmaxFee HmaxPrio HpV
    HpR HpS Htolen Bnonce BgasLimit Bvalue Br Bs Heip Hal BmaxFee BmaxPrio
    Harr this Hthis Hcost Horder Hparity HlowS.
  assert (Hfields : constructor_fields txData opts = Ok this).
  { unfold constructor_fields.
    rewrite (BaseTransaction_constructor_Ok txData opts toB vB rB sB nonceB
               gasLimitB valueB dataB Hto Hv Hr Hs Hnonce HgasLimit Hvalue
               Hdata Htolen Bnonce BgasLimit Bvalue Br Bs).
    cbn [bind]. rewrite Hc. cbn [bind]. cbv zeta.
    cbn [common set_common set_chainId _type nonce gasLimit to value data
           v r s chainId accessList maxPriorityFeePerGas maxFeePerGas pV pR
           pS txOptions activeCapabilities cache_hash frozen].
    rewrite Heip. cbn [negb throw_if bind].
    cbn [set_activeCapabilities set_accessList accessList common _type
           nonce gasLimit to value data v r s chainId maxPriorityFeePerGas
           maxFeePerGas pV pR pS txOptions activeCapabilities cache_hash
           frozen app].
    fold (accessListOrEmpty txData). rewrite Hal. cbn [bind].
    rewrite HmaxFee. cbn [bind]. rewrite HmaxPrio. cbn [bind].
    cbn [set_maxFeePerGas set_maxPriorityFeePerGas accessList common _type
           nonce gasLimit to value data v r s chainId maxPriorityFeePerGas
           maxFeePerGas pV pR pS txOptions activeCapabilities cache_hash
           frozen].
    rewrite bound_check_Ok.
    - cbn [bind]. rewrite HpV, HpR, HpS. cbn [bind]. rewrite Harr.
      cbn [bind]. rewrite Hthis. reflexivity.
    - intros n [[= <-] | [[= <-] | [Hn | [Hn | []]]]];
        [exact BmaxFee | exact BmaxPrio | discriminate | discriminate]. }
  rewrite (constructor_unfold _ _ _ Hfields).
  apply constructor_checks_Ok; assumption.
Qed.

Lemma getCommon_given_inv (c0 c : Common.t) (n : Z) :
  _getCommon (Some c0) (BigInt n) = Ok c ->
  0 <= n /\ Common.chainId c0 = n /\ c = c0.
Proof.
  unfold _getCommon. intros H.
  apply bind_Ok_inv in H. destruct H as [b [Hb H]].
  assert (Hb' : toUint8Array_or0x (BigInt n) = Ok b) by exact Hb.
  apply toUint8Array_or0x_BigInt_inv in Hb'.
  destruct Hb' as [Hn [Hval _]].
  apply bind_Ok_inv in H. destruct H as [u [Hu H]].
  apply throw_if_Ok_inv, negb_false_iff, Z.eqb_eq in Hu.
  injection H as <-. rewrite Hval in Hu. auto.
Qed.

Lemma getCommon_given_Ok (c0 : Common.t) :
  0 <= Common.chainId c0 ->
  _getCommon (Some c0) (BigInt (Common.chainId c0)) = Ok c0.
Proof.
  intros Hn. unfold _getCommon.
  destruct (toUint8Array_or0x_BigInt_Ok _ Hn) as [b [Hb [Hval _]]].
  change (toUint8Array (BigInt (Common.chainId c0)) = Ok b) in Hb.
  rewrite Hb. cbn [bind]. rewrite Hval, Z.eqb_refl. reflexivity.
Qed.

Lemma reachable_capabilities (this : Tx) :
  reachable this -> activeCapabilities this = [1559; 2718; 2930].
Proof.
  induction 1 as [txData opts this H | values opts this H
                 | this this' h _ IH H
                 | this privateKey priorityPrivateKey Hr IH
                 | this tx privateKey priorityPrivateKey _ _ H].
  - apply constructor_well_formed in H. tauto.
  - apply fromValuesArray_inv in H. destruct H as [txData [H _]].
    apply constructor_well_formed in H. tauto.
  - apply hash_Ok_inv in H. destruct H as [-> | ->]; exact IH.
  - rewrite sign_type_64;
      [exact IH | apply wf_type, reachable_invariant; exact Hr].
  - apply sign_result_constructed in H. destruct H as [txData [opts H]].
    apply constructor_well_formed in H. tauto.
Qed.

(** The instance that [_processSignatures] returns. *)
Lemma processSignatures_inv (this tx : Tx) (v0 : Z) (rB sB : bytes)
  (pV0 : Z) (prB psB : bytes) :
  well_formed this ->
  activeCapabilities this = [1559; 2718; 2930] ->
  _processSignatures this v0 rB sB pV0 prB psB = Ok tx ->
  tx = withSignatures this (v0 - 27) (uint8ArrayToBigInt rB)
         (uint8ArrayToBigInt sB) (pV0 - 27) (uint8ArrayToBigInt prB)
         (uint8ArrayToBigInt psB).
Proof.
  intros Hwf Hcaps H.
  unfold _processSignatures, fromTxData in H.
  apply constructor_inv in H.
  cbn [td_to td_v td_r td_s td_nonce td_gasLimit td_value td_data
         td_chainId td_maxFeePerGas td_maxPriorityFeePerGas td_pV td_pR
         td_pS opt_common] in H.
  destruct H as
    (toB' & vB' & rB' & sB' & nonceB & gasLimitB & valueB & dataB & c
     & maxFeeB & maxPrioB & pvB' & prB' & psB' & Hto & Hv & Hr & Hs
     & Hnonce & HgasLimit & Hvalue & Hdata & Hc & HmaxFee & HmaxPrio & HpV
     & HpR & HpS & ->).
  apply toUint8Array_or0x_BigInt_inv in Hv, Hr, Hs, Hnonce, HgasLimit,
    Hvalue, HmaxFee, HmaxPrio, HpV, HpR, HpS.
  destruct Hv as (_ & _ & ->). destruct Hr as (_ & _ & ->).
  destruct Hs as (_ & _ & ->). destruct Hnonce as (_ & -> & _).
  destruct HgasLimit as (_ & -> & _). destruct Hvalue as (_ & -> & _).
  destruct HmaxFee as (_ & -> & _). destruct HmaxPrio as (_ & -> & _).
  destruct HpV as (_ & _ & ->). destruct HpR as (_ & _ & ->).
  destruct HpS as (_ & _ & ->).
  apply getCommon_given_inv in Hc. destruct Hc as (_ & Hchain & ->).
  cbn in Hdata. injection Hdata as <-.
  unfold withSignatures, accessListOrEmpty, freezeOption.
  cbn [td_accessList opt_freeze].
  rewrite (wf_type _ Hwf), (wf_frozen _ Hwf), Hcaps, (wf_chainId _ Hwf).
  unfold freezeOption.
  assert (Hto' : match toB' with [] => None | _ => Some toB' end = to this).
  { pose proof (wf_to _ Hwf) as Hlen. unfold addressInput in Hto.
    destruct (to this) as [buf|]; cbn in Hto; injection Hto as <-.
    - destruct buf; [discriminate | reflexivity].
    - reflexivity. }
  rewrite Hto'. reflexivity.
Qed.

Lemma half_order_bound : SECP256K1_ORDER_DIV_2 <= MAX_INTEGER.
Proof. vm_compute. discriminate. Qed.

Lemma validateYParity_Ok (this : Tx) (v0 pV0 : Z) :
  v this = Some v0 -> pV this = Some pV0 ->
  v0 = 0 \/ v0 = 1 -> pV0 = 0 \/ pV0 = 1 ->
  _validateYParity this = Ok tt.
Proof.
  intros Hv HpV Hv0 HpV0. unfold _validateYParity. rewrite Hv, HpV.
  destruct Hv0 as [-> | ->], HpV0 as [-> | ->]; reflexivity.
Qed.

Lemma validateHighS_Ok (this : Tx) (s0 pS0 : Z) :
  s this = Some s0 -> pS this = Some pS0 ->
  s0 <= SECP256K1_ORDER_DIV_2 -> pS0 <= SECP256K1_ORDER_DIV_2 ->
  _validateHighS this = Ok tt.
Proof.
  intros Hs HpS Hs0 HpS0. unfold _validateHighS. rewrite Hs, HpS.
  apply Z.ltb_ge in Hs0, HpS0. rewrite Hs0, HpS0.
  rewrite !andb_false_r. reflexivity.
Qed.

(** [_processSignatures] succeeds on the fields of a well-formed instance
    with two parities and two low-S signatures. *)
Lemma processSignatures_Ok (this : Tx) (v0 : Z) (rB sB : bytes) (pV0 : Z)
  (prB psB : bytes) :
  well_formed this ->
  0 <= chainId this ->
  v0 = 27 \/ v0 = 28 ->
  pV0 = 27 \/ pV0 = 28 ->
  uint8ArrayToBigInt rB <= MAX_INTEGER ->
  uint8ArrayToBigInt sB <= SECP256K1_ORDER_DIV_2 ->
  uint8ArrayToBigInt prB <= MAX_INTEGER ->
  uint8ArrayToBigInt psB <= SECP256K1_ORDER_DIV_2 ->
  exists tx, _processSignatures this v0 rB sB pV0 prB psB = Ok tx.
Proof.
  intros Hwf Hchain Hv0 HpV0 Br Bs Bpr Bps.
  pose proof half_order_bound as Hhalf.
  pose proof (uint8ArrayToBigInt_range rB) as [Rr _].
  pose proof (uint8ArrayToBigInt_range sB) as [Rs _].
  pose proof (uint8ArrayToBigInt_range prB) as [Rpr _].
  pose proof (uint8ArrayToBigInt_range psB) as [Rps _].
  destruct (toUint8Array_or0x_BigInt_Ok (nonce this))
    as (nonceB & Hnonce & Vnonce & _); [apply (wf_nonce _ Hwf)|].
  destruct (toUint8Array_or0x_BigInt_Ok (gasLimit this))
    as (gasLimitB & HgasLimit & VgasLimit & _); [apply (wf_gasLimit _ Hwf)|].
  destruct (toUint8Array_or0x_BigInt_Ok (value this))
    as (valueB & Hvalue & Vvalue & _); [apply (wf_value _ Hwf)|].
  destruct (toUint8Array_or0x_BigInt_Ok (maxFeePerGas this))
    as (maxFeeB & HmaxFee & VmaxFee & _); [apply (wf_maxFeePerGas _ Hwf)|].
  destruct (toUint8Array_or0x_BigInt_Ok (maxPriorityFeePerGas this))
    as (maxPrioB & HmaxPrio & VmaxPrio & _);
    [apply (wf_maxPriorityFeePerGas _ Hwf)|].
  destruct (toUint8Array_or0x_BigInt_Ok (v0 - 27))
    as (vB' & Hv & _ & Sv); [lia|].
  destruct (toUint8Array_or0x_BigInt_Ok (pV0 - 27))
    as (pvB' & HpV & _ & SpV); [lia|].
  destruct (toUint8Array_or0x_BigInt_Ok (uint8ArrayToBigInt rB))
    as (rB' & Hr & _ & Sr); [exact Rr|].
  destruct (toUint8Array_or0x_BigInt_Ok (uint8ArrayToBigInt sB))
    as (sB' & Hs & _ & Ss); [exact Rs|].
  destruct (toUint8Array_or0x_BigInt_Ok (uint8ArrayToBigInt prB))
    as (prB' & Hpr & _ & Spr); [exact Rpr|].
  destruct (toUint8Array_or0x_BigInt_Ok (uint8ArrayToBigInt psB))
    as (psB' & Hps & _ & Sps); [exact Rps|].
  set (toB := match to this with Some buf => buf | None => [] end).
  assert (Hto : toUint8Array_or0x (addressInput (to this)) = Ok toB)
    by (unfold toB; destruct (to this); reflexivity).
  assert (Htolen : toB = [] \/ List.length toB = 20%nat).
  { pose proof (wf_to _ Hwf) as Hlen. unfold toB.
    destruct (to this); auto. }
  eexists. unfold _processSignatures, fromTxData.
  eapply (constructor_Ok _ _ toB vB' rB' sB' nonceB gasLimitB valueB
            (data this) (common this) maxFeeB maxPrioB pvB' prB' psB');
    cbn [td_to td_v td_r td_s td_nonce td_gasLimit td_value td_data
           td_chainId td_maxFeePerGas td_maxPriorityFeePerGas td_pV td_pR
           td_pS opt_common];
    try eassumption; try reflexivity.
  - rewrite (wf_chainId _ Hwf). apply getCommon_given_Ok.
    rewrite <- (wf_chainId _ Hwf). exact Hchain.
  - rewrite Vnonce. apply (wf_nonce _ Hwf).
  - rewrite VgasLimit. apply (wf_gasLimit _ Hwf).
  - rewrite Vvalue. apply (wf_value _ Hwf).
  - rewrite Sr. intros n [= <-]. exact Br.
  - rewrite Ss. intros n [= <-]. lia.
  - apply (wf_eip1559 _ Hwf).
  - apply (wf_accessList _ Hwf).
  - rewrite VmaxFee. apply (wf_maxFeePerGas _ Hwf).
  - rewrite VmaxPrio. apply (wf_maxPriorityFeePerGas _ Hwf).
  - unfold _validateNotArray, scalar_fields, addressInput.
    cbn [td_to td_v td_r td_s td_nonce td_gasLimit td_value td_data
           td_chainId td_maxFeePerGas td_maxPriorityFeePerGas td_pV td_pR
           td_pS].
    destruct (to this); reflexivity.
  - cbn [gasLimit maxFeePerGas]. rewrite VgasLimit, VmaxFee.
    apply (wf_gas_cost _ Hwf).
  - cbn [maxPriorityFeePerGas maxFeePerGas]. rewrite VmaxPrio, VmaxFee.
    apply (wf_fee_order _ Hwf).
  - eapply validateYParity_Ok; cbn [v pV]; try eassumption; lia.
  - eapply validateHighS_Ok; cbn [s pS]; try eassumption.
Qed.

Lemma ecsign_inv (msgHash privateKey : bytes) (sig : ECDSASignature) :
  __ecsign msgHash privateKey = Ok sig ->
  exists signature,
    secp256k1_sign msgHash privateKey = Some signature
    /\ sig = mkECDSASignature (recovery signature + 27)
               (firstn 32 (compactRawBytes signature))
               (firstn 32 (skipn 32 (compactRawBytes signature))).
Proof.
  unfold __ecsign.
  destruct (secp256k1_sign msgHash privateKey) as [signature|];
    [|discriminate].
  intros [= <-]. eauto.
Qed.

Lemma firstn_32_bound (l : bytes) :
  uint8ArrayToBigInt (firstn 32 l) <= MAX_INTEGER.
Proof.
  pose proof (uint8ArrayToBigInt_range (firstn 32 l)) as [_ Hlt].
  pose proof (firstn_le_length 32 l) as Hlen.
  assert (Hpow : 256 ^ Z.of_nat (List.length (firstn 32 l)) <= 256 ^ 32)
    by (apply Z.pow_le_mono_r; lia).
  assert (H256 : 256 ^ 32 = MAX_INTEGER + 1) by reflexivity.
  lia.
Qed.

(** C9.  An instance made with freeze disabled is not frozen and one made
    with freezing enabled (the default) is frozen.  For every instance,
    [sign] leaves the source as it was; a signed instance it returns is a
    new value with the fields of the source and the two signature triples
    made by the signer over the digest of the unsigned message, it is
    signed, and it is frozen exactly when the source is; and [sign] does
    return such an instance when both keys have 32 bytes and the signer
    gives recovery ids 0 or 1 and low-S signatures. *)
Theorem C9_sign_returns_new_instance :
  (forall (txData : PriorityETNIP1TxData) (opts : TxOptions) (this : Tx),
     fromTxData txData opts = Ok this -> frozen this = freezeOption opts)
  /\ (forall (this : Tx) (privateKey : bytes)
             (priorityPrivateKey : option bytes),
        reachable this ->
        fst (sign this privateKey priorityPrivateKey) = this
        /\ (forall tx,
              snd (sign this privateKey priorityPrivateKey) = Ok tx ->
              exists priorityKey sig pSig,
                priorityPrivateKey = Some priorityKey
                /\ secp256k1_sign (getMessageToSign this true) privateKey
                   = Some sig
                /\ secp256k1_sign (getMessageToSign this true) priorityKey
                   = Some pSig
                /\ tx = withSignatures this (recovery sig) (signatureR sig)
                          (signatureS sig) (recovery pSig) (signatureR pSig)
                          (signatureS pSig)
                /\ frozen tx = frozen this
                /\ isSigned tx = true)
        /\ (forall priorityKey sig pSig,
              priorityPrivateKey = Some priorityKey ->
              List.length privateKey = 32%nat ->
              List.length priorityKey = 32%nat ->
              0 <= chainId this ->
              secp256k1_sign (getMessageToSign this true) privateKey
              = Some sig ->
              secp256k1_sign (getMessageToSign this true) priorityKey
              = Some pSig ->
              recovery sig = 0 \/ recovery sig = 1 ->
              recovery pSig = 0 \/ recovery pSig = 1 ->
              signatureS sig <= SECP256K1_ORDER_DIV_2 ->
              signatureS pSig <= SECP256K1_ORDER_DIV_2 ->
              exists tx,
                snd (sign this privateKey priorityPrivateKey) = Ok tx)).
Proof.
  split.
  - intros txData opts this H. unfold fromTxData in H.
    apply constructor_well_formed in H.
    destruct H as (Hwf & _ & Hopts & _).
    rewrite (wf_frozen _ Hwf), Hopts. reflexivity.
  - intros this privateKey priorityPrivateKey Hreach.
    destruct (reachable_invariant this Hreach) as [Hwf _].
    pose proof (reachable_capabilities this Hreach) as Hcaps.
    rewrite (sign_type_64 this privateKey priorityPrivateKey
               (wf_type _ Hwf)).
    cbn [fst snd].
    split; [reflexivity|]. split.
    + intros tx H.
      destruct priorityPrivateKey as [priorityKey|]; [|discriminate].
      destruct (negb (Z.of_nat (List.length privateKey) =? 32)
                || negb (Z.of_nat (List.length priorityKey) =? 32));
        [discriminate|].
      cbv zeta in H.
      apply bind_Ok_inv in H. destruct H as [sg [Hsg H]].
      apply bind_Ok_inv in H. destruct H as [psg [Hpsg H]].
      apply ecsign_inv in Hsg. destruct Hsg as (sig & Hsig & ->).
      apply ecsign_inv in Hpsg. destruct Hpsg as (pSig & HpSig & ->).
      cbn [sig_v sig_r sig_s] in H.
      eapply processSignatures_inv in H; [|exact Hwf|exact Hcaps].
      rewrite !Z.add_simpl_r in H.
      exists priorityKey, sig, pSig.
      repeat (split; [first [reflexivity | assumption]|]).
      subst tx. split; reflexivity.
    + intros priorityKey sig pSig -> Hlen HlenP Hchain Hsig HpSig Hrec HrecP
        HlowS HlowSP.
      rewrite Hlen, HlenP. cbn [Z.of_nat Pos.of_succ_nat Pos.succ Z.eqb
                                  Pos.eqb negb orb].
      cbv zeta. unfold __ecsign. rewrite Hsig, HpSig. cbn [bind].
      cbn [sig_v sig_r sig_s].
      apply processSignatures_Ok; try assumption;
        try apply firstn_32_bound; lia.
Qed.

End ConstructionProperties.

(** ** The properties at concrete inputs *)

Lemma C1_examples :
  fromValuesArray (E := toy_externals) [] opts_london = Err WrongFieldCount
  /\ fromValuesArray (E := toy_externals) (firstn 10 unsignedValues)
       opts_london = Err WrongFieldCount
  /\ (exists tx,
        fromValuesArray (E := toy_externals) (firstn 9 unsignedValues)
          opts_london = Ok tx)
  /\ (exists tx,
        fromValuesArray (E := toy_externals) unsignedValues opts_london
        = Ok tx).
Proof.
  split; [vm_compute; reflexivity|].
  split; [vm_compute; reflexivity|].
  split; eexists; vm_compute; reflexivity.
Qed.

Lemma C2_witness :
  (exists tx, constructor (E := toy_externals) boundaryData opts_london = Ok tx)
  /\ constructor (E := toy_externals) overflowData opts_london
     = Err IntegerOverflow.
Proof.
  split.
  - assert (Hf : exists this,
               constructor_fields (E := toy_externals) boundaryData
                 opts_london = Ok this
               /\ gasLimit this * maxFeePerGas this = 2 ^ 256 - 1
               /\ maxPriorityFeePerGas this <= maxFeePerGas this
               /\ _validateYParity this = Ok tt
               /\ _validateHighS this = Ok tt).
    { eexists. split; [vm_compute; reflexivity|].
      split; [vm_compute; reflexivity|].
      split; [vm_compute; discriminate|].
      split; vm_compute; reflexivity. }
    destruct Hf as (this & Hf & Heq & Horder & Hparity & HlowS).
    destruct (C2_gas_cost_overflow (E := toy_externals) boundaryData
                opts_london this Hf Horder Hparity HlowS) as (_ & Hboundary & _).
    exact (Hboundary Heq).
  - assert (Hf : exists this,
               constructor_fields (E := toy_externals) overflowData
                 opts_london = Ok this
               /\ gasLimit this * maxFeePerGas this > 2 ^ 256 - 1
               /\ maxPriorityFeePerGas this <= maxFeePerGas this
               /\ _validateYParity this = Ok tt
               /\ _validateHighS this = Ok tt).
    { eexists. split; [vm_compute; reflexivity|].
      split; [vm_compute; reflexivity|].
      split; [vm_compute; discriminate|].
      split; vm_compute; reflexivity. }
    destruct Hf as (this & Hf & Hgt & Horder & Hparity & HlowS).
    destruct (C2_gas_cost_overflow (E := toy_externals) overflowData
                opts_london this Hf Horder Hparity HlowS) as (Hiff & _).
    apply Hiff. exact Hgt.
Defined.

(** C3, as stated for every construction, does not hold: with
    maxFeePerGas = 2^255, maxPriorityFeePerGas = 2^255 + 1 and gasLimit = 2
    the fields are accepted and maxFeePerGas < maxPriorityFeePerGas, but
    the construction fails with IntegerOverflow, not with
    FeeOrderingViolation. *)
Lemma C3_counterexample :
  ~ (forall (E : Externals) (txData : PriorityETNIP1TxData)
            (opts : TxOptions) (this : Tx),
       constructor_fields txData opts = Ok this ->
       maxFeePerGas this < maxPriorityFeePerGas this ->
       constructor txData opts = Err FeeOrderingViolation).
Proof.
  intros H.
  assert (Hf : exists this,
             constructor_fields (E := toy_externals) feeOrderOverflowData
               opts_london = Ok this
             /\ maxFeePerGas this < maxPriorityFeePerGas this).
  { eexists. split; vm_compute; reflexivity. }
  destruct Hf as (this & Hf & Hlt).
  specialize (H toy_externals feeOrderOverflowData opts_london this Hf Hlt).
  vm_compute in H. discriminate H.
Qed.

Lemma C3_witness :
  constructor (E := toy_externals) feeOrderData opts_london
  = Err FeeOrderingViolation
  /\ constructor (E := toy_externals) feeOrderOverflowData opts_london
     = Err IntegerOverflow.
Proof.
  split.
  - assert (Hf : exists this,
               constructor_fields (E := toy_externals) feeOrderData
                 opts_london = Ok this
               /\ maxFeePerGas this < maxPriorityFeePerGas this
               /\ gasLimit this * maxFeePerGas this <= 2 ^ 256 - 1).
    { eexists. split; [vm_compute; reflexivity|].
      split; [vm_compute; reflexivity | vm_compute; discriminate]. }
    destruct Hf as (this & Hf & Hlt & Hle).
    destruct (C3_fee_ordering (E := toy_externals) feeOrderData opts_london this Hf) as (Hbelow & _).
    destruct (Hbelow Hlt) as (_ & Hkind & _).
    exact (Hkind Hle).
  - assert (Hf : exists this,
               constructor_fields (E := toy_externals) feeOrderOverflowData
                 opts_london = Ok this
               /\ maxFeePerGas this < maxPriorityFeePerGas this
               /\ gasLimit this * maxFeePerGas this > 2 ^ 256 - 1).
    { eexists. split; [vm_compute; reflexivity|].
      split; vm_compute; reflexivity. }
    destruct Hf as (this & Hf & Hlt & Hgt).
    destruct (C3_fee_ordering (E := toy_externals) feeOrderOverflowData
                opts_london this Hf) as (Hbelow & _).
    destruct (Hbelow Hlt) as (_ & _ & Hkind).
    exact (Hkind Hgt).
Defined.

Lemma C7_witness :
  exists tx,
    fromTxData (E := toy_externals) signedData opts_london = Ok tx
    /\ isSigned tx = true
    /\ serialize tx = expectedSignedSerialization
    /\ exists this',
         hash (E := toy_externals) tx
         = Ok (keccak256 (Externals := toy_externals)
                 expectedSignedSerialization, this')
         /\ serialize this' = expectedSignedSerialization.
Proof.
  assert (Hc : exists tx,
             fromTxData (E := toy_externals) signedData opts_london = Ok tx
             /\ (v tx = Some 0 /\ r tx = Some 5 /\ s tx = Some 7)
             /\ (pV tx = Some 1 /\ pR tx = Some 11 /\ pS tx = Some 13)
             /\ x40 :: RLP.encode
                         (RLP.Lst
                            (unsignedPrefix tx
                             ++ [RLP.Str (bigIntToUnpaddedUint8Array 0);
                                 RLP.Str (bigIntToUnpaddedUint8Array 5);
                                 RLP.Str (bigIntToUnpaddedUint8Array 7);
                                 RLP.Str (bigIntToUnpaddedUint8Array 1);
                                 RLP.Str (bigIntToUnpaddedUint8Array 11);
                                 RLP.Str (bigIntToUnpaddedUint8Array 13)]))
                = expectedSignedSerialization).
  { eexists. split; [vm_compute; reflexivity|].
    split; [repeat split; vm_compute; reflexivity|].
    split; [repeat split; vm_compute; reflexivity|].
    vm_compute. reflexivity. }
  destruct Hc as (tx & Hc & (Hv & Hr & Hs) & (HpV & HpR & HpS) & Hbytes).
  destruct (C7_hash_and_isSigned (E := toy_externals) tx
              (reach_fromTxData _ _ _ Hc))
    as (Hsigned & _ & _ & Hwire).
  destruct (Hwire 0 5 7 1 11 13 Hv Hr Hs HpV HpR HpS)
    as (Hser & this' & Hhash & Hsame).
  rewrite Hbytes in Hser, Hhash, Hsame.
  exists tx. split; [exact Hc|].
  split; [apply Hsigned; exists 0, 5, 7, 1, 11, 13; repeat split; assumption|].
  split; [exact Hser|].
  exists this'. split; assumption.
Defined.

Lemma C8_witness :
  exists tx,
    fromTxData (E := toy_externals) signedData opts_london = Ok tx
    /\ getSenderAndPriorityPublicKey (E := toy_externals) tx
       = Ok ([x05], [x0b]).
Proof.
  eexists. split; [vm_compute; reflexivity|].
  match goal with
  | |- getSenderAndPriorityPublicKey ?t = _ =>
      destruct (C8_sender_and_priority_public_key (E := toy_externals) t)
        as [_ H];
      rewrite (H 0 5 7 1 11 13 eq_refl eq_refl eq_refl eq_refl eq_refl
                 eq_refl)
  end.
  vm_compute. reflexivity.
Defined.

Lemma C9_witness :
  exists this tx,
    fromTxData (E := toy_externals) (feeData 10 8 100 6)
      opts_london_unfrozen = Ok this
    /\ frozen this = false
    /\ sign (E := toy_externals) this sampleKey (Some sampleKey)
       = (this, Ok tx)
    /\ frozen tx = false
    /\ isSigned tx = true.
Proof.
  assert (Hc : exists this,
             fromTxData (E := toy_externals) (feeData 10 8 100 6)
               opts_london_unfrozen = Ok this
             /\ 0 <= chainId this).
  { eexists. split; [vm_compute; reflexivity | vm_compute; discriminate]. }
  destruct Hc as (this & Hc & Hchain).
  destruct (C9_sign_returns_new_instance (E := toy_externals))
    as [Hfrozen Hsign].
  pose proof (Hfrozen _ _ _ Hc) as Hunfrozen.
  destruct (Hsign this sampleKey (Some sampleKey)
              (reach_fromTxData _ _ _ Hc)) as (Hsource & Hshape & Hsuccess).
  destruct (Hsuccess sampleKey
              (mkRawSignature 0 (sampleKey ++ sampleKey))
              (mkRawSignature 0 (sampleKey ++ sampleKey)))
    as [tx Htx]; try reflexivity; try exact Hchain;
    try (left; reflexivity); try (vm_compute; discriminate).
  destruct (Hshape tx Htx) as (k & sig & pSig & _ & _ & _ & _ & Hfz & Hsg).
  exists this, tx.
  split; [exact Hc|]. split; [exact Hunfrozen|].
  split; [|split; [rewrite Hfz; exact Hunfrozen | exact Hsg]].
  rewrite (surjective_pairing (sign this sampleKey (Some sampleKey))).
  rewrite Hsource, Htx. reflexivity.
Defined.

(** C10, as stated for every construction, does not hold: the instance
    made from a values array whose pV slot is the empty byte string stores
    the parity 0 for pV, not the absent value. *)
Lemma C10_counterexample :
  ~ (forall (E : Externals) (values : list RLP.Item) (opts : TxOptions)
            (tx : Tx),
       fromValuesArray values opts = Ok tx ->
       nth_error values 12 = Some (RLP.Str []) ->
       pV tx = None).
Proof.
  intros H.
  assert (Hc : exists tx,
             fromValuesArray (E := toy_externals) unsignedValues opts_london
             = Ok tx
             /\ pV tx = Some 0).
  { eexists. split; [vm_compute; reflexivity|]. vm_compute. reflexivity. }
  destruct Hc as (tx & Hc & HpV).
  specialize (H toy_externals unsignedValues opts_london tx Hc eq_refl).
  rewrite HpV in H. discriminate H.
Qed.

Lemma C10_witness :
  (exists tx,
     constructor (E := toy_externals)
       (prioritySignatureData (Uint8Array []) EmptyString (Uint8Array []))
       opts_london = Ok tx
     /\ pV tx = None /\ pR tx = None /\ pS tx = None
     /\ isSigned tx = false)
  /\ (exists tx,
        fromValuesArray (E := toy_externals) unsignedValues opts_london
        = Ok tx
        /\ pV tx = Some 0 /\ pR tx = None /\ pS tx = None
        /\ isSigned tx = false).
Proof.
  destruct (C10_empty_priority_signature (E := toy_externals))
    as [Hctor Hvalues].
  split.
  - assert (Hc : exists tx,
               constructor (E := toy_externals)
                 (prioritySignatureData (Uint8Array []) EmptyString
                    (Uint8Array [])) opts_london = Ok tx).
    { eexists. vm_compute. reflexivity. }
    destruct Hc as (tx & Hc). exists tx.
    destruct (Hctor _ _ _ Hc) as (HpV & HpR & HpS).
    split; [exact Hc|].
    split; [apply HpV; left; reflexivity|].
    split; [apply HpR; right; reflexivity|].
    split; [apply HpS; left; reflexivity|].
    apply HpR. right. reflexivity.
  - assert (Hc : exists tx,
               fromValuesArray (E := toy_externals) unsignedValues
                 opts_london = Ok tx).
    { eexists. vm_compute. reflexivity. }
    destruct Hc as (tx & Hc). exists tx. split; [exact Hc|].
    destruct (Hvalues _ _ _ Hc) as (HpV & HpR & HpS).
    split; [apply HpV; reflexivity|].
    split; [apply HpR; reflexivity|].
    split; [apply HpS; reflexivity|].
    apply HpR. reflexivity.
Defined.

(** A values array with empty signature slots gives an instance whose v
    and pV are 0 (the slots are read as numbers before the constructor
    sees them), and whose r, s, pR and pS are absent. *)
Lemma unsignedValues_parities :
  exists tx,
    fromValuesArray (E := toy_externals) unsignedValues opts_london = Ok tx
    /\ v tx = Some 0 /\ pV tx = Some 0
    /\ r tx = None /\ s tx = None /\ pR tx = None /\ pS tx = None.
Proof.
  eexists. split; [vm_compute; reflexivity|].
  repeat split; vm_compute; reflexivity.
Qed.

(** * Further properties of the class *)

Section FurtherProperties.

Context {E : Externals}.

Ltac constructor_no_raise :=
  unfold constructor, constructor_fields, constructor_checks,
    BaseTransaction_constructor, _getCommon, newAddress, verifyAccessList,
    _validateCannotExceedMaxInteger, _validateNotArray, _validateYParity,
    _validateHighS, toUint8Array_or0x, toUint8Array;
  repeat no_raise_step.

(** ** The errors of a construction *)

(** The constructor fails only with the errors of its own checks and of
    the conversions of the fields. *)
Lemma constructor_errors (txData : PriorityETNIP1TxData) (opts : TxOptions)
  (e : TxError) :
  constructor txData opts = Err e ->
  In e [InvalidFieldValue; InvalidAddressLength; IntegerOverflow;
        ChainIdMismatch; UnsupportedUpgrade; InvalidFieldShape;
        FeeOrderingViolation; InvalidSignatureParity; HighSSignature].
Proof.
  intros H.
  destruct e; try (cbn; tauto); exfalso; revert H;
    change (~ raises (constructor txData opts) WrongTransactionType)
    || change (~ raises (constructor txData opts) WrongFieldCount)
    || change (~ raises (constructor txData opts) InvalidFieldEncoding)
    || change (~ raises (constructor txData opts) InvalidKeyLength)
    || change (~ raises (constructor txData opts) InvalidSignature)
    || change (~ raises (constructor txData opts) NotSigned)
    || change (~ raises (constructor txData opts) SignerFailure);
    constructor_no_raise.
Qed.

(** ** The upfront cost *)

(** X12.  For every instance, the upfront cost never exceeds
    gasLimit * maxFeePerGas + value, it does not decrease when the base fee
    grows, and it is gasLimit * maxFeePerGas + value from the base fee
    maxFeePerGas - maxPriorityFeePerGas on. *)
Theorem upfront_cost_capped :
  forall (this : Tx) (baseFee : Z),
    reachable this ->
    getUpfrontCost this (Some baseFee)
    <= gasLimit this * maxFeePerGas this + value this
    /\ (forall baseFee',
          baseFee <= baseFee' ->
          getUpfrontCost this (Some baseFee)
          <= getUpfrontCost this (Some baseFee'))
    /\ (maxFeePerGas this - maxPriorityFeePerGas this <= baseFee ->
        getUpfrontCost this (Some baseFee)
        = gasLimit this * maxFeePerGas this + value this)
    /\ getUpfrontCost this (Some baseFee) <= 2 * MAX_INTEGER.
Proof.
  intros this baseFee Hreach.
  destruct (reachable_invariant this Hreach) as [Hwf _].
  pose proof (wf_gasLimit _ Hwf) as [Hgas _].
  pose proof (wf_gas_cost _ Hwf) as Hcost.
  pose proof (wf_value _ Hwf) as [_ Hvalue].
  assert (Hprice :
            forall b,
              getUpfrontCost this (Some b)
              = gasLimit this
                * Z.min (maxPriorityFeePerGas this + b) (maxFeePerGas this)
                + value this).
  { intros b. unfold getUpfrontCost.
    destruct (Z.ltb_spec (maxPriorityFeePerGas this)
                (maxFeePerGas this - b)).
    - rewrite Z.min_l by lia. reflexivity.
    - rewrite Z.min_r by lia. f_equal. f_equal. lia. }
  assert (Hcap : getUpfrontCost this (Some baseFee)
                 <= gasLimit this * maxFeePerGas this + value this).
  { rewrite Hprice. apply Z.add_le_mono_r, Z.mul_le_mono_nonneg_l; lia. }
  split; [exact Hcap|]. split; [|split].
  - intros baseFee' Hle. rewrite !Hprice.
    apply Z.add_le_mono_r, Z.mul_le_mono_nonneg_l; lia.
  - intros Hle. rewrite Hprice. rewrite Z.min_r by lia. reflexivity.
  - lia.
Qed.

(** ** The hash *)

(** X8.  For every instance, a second call of [hash()] on the instance that the
    first call leaves returns the same digest and changes nothing; an
    instance that is not frozen is left as it was, and a frozen one holds
    the digest in its cache afterwards. *)
Theorem hash_idempotent :
  forall (this this' : Tx) (h : bytes),
    reachable this ->
    hash this = Ok (h, this') ->
    h = keccak256 (serialize this)
    /\ hash this' = Ok (h, this')
    /\ (frozen this = false -> this' = this)
    /\ (frozen this = true -> cache_hash this' = Some h).
Proof.
  intros this this' h Hreach Hhash.
  destruct (reachable_invariant this Hreach) as [_ Hcache].
  unfold hash in Hhash |- *.
  apply bind_Ok_inv in Hhash. destruct Hhash as [u [Hsigned Hhash]].
  apply throw_if_Ok_inv, negb_false_iff in Hsigned.
  unfold cache_consistent in Hcache.
  destruct (frozen this) eqn:Hfrozen.
  - destruct (cache_hash this) as [h0|] eqn:Hslot.
    + rewrite Hslot in Hhash. injection Hhash as <- <-.
      rewrite Hsigned, Hfrozen, Hslot. cbn [negb throw_if bind].
      rewrite Hslot.
      split; [exact Hcache|]. split; [reflexivity|].
      split; [discriminate | reflexivity].
    + cbn [cache_hash set_cache_hash] in Hhash. injection Hhash as <- <-.
      split; [reflexivity|]. split.
      * change (isSigned (set_cache_hash _ this)) with (isSigned this).
        rewrite Hsigned. cbn [negb throw_if bind].
        cbn [frozen set_cache_hash cache_hash]. rewrite Hfrozen.
        reflexivity.
      * split; [discriminate | reflexivity].
  - injection Hhash as <- <-.
    rewrite Hsigned, Hfrozen. cbn [negb throw_if bind].
    split; [reflexivity|]. split; [reflexivity|].
    split; [reflexivity | discriminate].
Qed.

(** ** Signing: the keys *)

(** X5.  [sign] fails with InvalidKeyLength exactly when the secondary key is
    missing or one of the two keys does not have 32 bytes; the test comes
    before the signer is called, and nothing later fails with that
    error. *)
Theorem sign_invalid_key_length :
  forall (this : Tx) (privateKey : bytes) (priorityPrivateKey : option bytes),
    snd (sign this privateKey priorityPrivateKey) = Err InvalidKeyLength
    <-> (priorityPrivateKey = None
         \/ exists priorityKey,
              priorityPrivateKey = Some priorityKey
              /\ (List.length privateKey <> 32%nat
                  \/ List.length priorityKey <> 32%nat)).
Proof.
  intros this privateKey priorityPrivateKey. unfold sign.
  destruct priorityPrivateKey as [priorityKey|];
    [|cbn [snd]; split; auto].
  destruct (Z.eqb_spec (Z.of_nat (List.length privateKey)) 32) as [Hl|Hl];
    destruct (Z.eqb_spec (Z.of_nat (List.length priorityKey)) 32)
      as [Hp|Hp];
    cbn [negb orb snd];
    try (split; [intros _; right; exists priorityKey;
                 split; [reflexivity | lia]
                | reflexivity]).
  cbv zeta.
  match goal with
  | |- snd (match ?m with _ => _ end) = _ <-> _ =>
      destruct m as [tx|e] eqn:Hm
  end; cbn [snd].
  - split; [discriminate|].
    intros [Hnone | (k & [= <-] & [Hbad | Hbad])];
      [discriminate | lia | lia].
  - split.
    + intros [= ->]. exfalso. revert Hm.
      match goal with
      | |- ?m = Err InvalidKeyLength -> False =>
          change (~ raises m InvalidKeyLength)
      end.
      unfold __ecsign, _processSignatures, fromTxData.
      repeat first [ no_raise_step ]; constructor_no_raise.
    + intros [Hnone | (k & [= <-] & [Hbad | Hbad])];
        [discriminate | lia | lia].
Qed.

(** ** Recovery of the sender alone *)

(** X7.  When [getSenderAndPriorityPublicKey()] returns two keys, the first is
    what [getSenderPublicKey()] returns, and the second is what
    [getSenderPublicKey()] returns on the instance whose primary signature
    is the secondary one. *)
Theorem sender_keys_agree :
  forall (this : Tx) (key priorityKey : bytes),
    getSenderAndPriorityPublicKey this = Ok (key, priorityKey) ->
    getSenderPublicKey this = Ok key
    /\ getSenderPublicKey (priorityAsPrimary this) = Ok priorityKey.
Proof.
  intros this key priorityKey H.
  unfold getSenderAndPriorityPublicKey in H.
  apply bind_Ok_inv in H. destruct H as [u [Hsigned H]].
  apply bind_Ok_inv in H. destruct H as [u' [HlowS H]].
  destruct u'.
  apply throw_if_Ok_inv, negb_false_iff in Hsigned.
  destruct (ecrecover (getMessageToVerifySignature this) (orZero (v this) + 27)
              (bigIntToUnpaddedUint8Array (orZero (r this)))
              (bigIntToUnpaddedUint8Array (orZero (s this))))
    as [k|] eqn:Hk; [|discriminate].
  destruct (ecrecover (getMessageToVerifySignature this)
              (orZero (pV this) + 27)
              (bigIntToUnpaddedUint8Array (orZero (pR this)))
              (bigIntToUnpaddedUint8Array (orZero (pS this))))
    as [pk|] eqn:Hpk; [|discriminate].
  injection H as <- <-.
  split.
  - unfold getSenderPublicKey. rewrite Hsigned, HlowS, Hk. reflexivity.
  - apply isSigned_true_iff in Hsigned.
    destruct Hsigned as (v0 & r0 & s0 & pV0 & pR0 & pS0 & Hv & Hr & Hs & HpV
                         & HpR & HpS).
    unfold getSenderPublicKey, isSigned, _validateHighS,
      getMessageToVerifySignature.
    cbn [priorityAsPrimary v r s pV pR pS common].
    change (getMessageToSign (priorityAsPrimary this) true)
      with (getMessageToVerifySignature this).
    rewrite Hpk, HpV, HpR, HpS. cbn [isDefined negb orb throw_if bind].
    unfold _validateHighS in HlowS. rewrite Hs, HpS in HlowS.
    destruct (Common.gteHardfork (common this) Common.Homestead
              && (SECP256K1_ORDER_DIV_2 <? pS0)) eqn:Hhigh.
    + destruct (Common.gteHardfork (common this) Common.Homestead
                && (SECP256K1_ORDER_DIV_2 <? s0));
        cbn [throw_if bind] in HlowS; discriminate.
    + reflexivity.
Qed.

(** X6.  An instance made by [_processSignature], which carries the primary
    signature only, is not signed: [hash()] and both recoveries fail with
    NotSigned on it. *)
Theorem processSignature_not_signed :
  forall (this tx : Tx) (v0 : Z) (rB sB : bytes),
    _processSignature this v0 rB sB = Ok tx ->
    v tx = Some (v0 - 27)
    /\ r tx = Some (uint8ArrayToBigInt rB)
    /\ s tx = Some (uint8ArrayToBigInt sB)
    /\ pV tx = None /\ pR tx = None /\ pS tx = None
    /\ isSigned tx = false
    /\ hash tx = Err NotSigned
    /\ getSenderPublicKey tx = Err NotSigned
    /\ getSenderAndPriorityPublicKey tx = Err NotSigned.
Proof.
  intros this tx v0 rB sB H.
  unfold _processSignature, fromTxData in H.
  apply constructor_inv in H.
  cbn [td_to td_v td_r td_s td_nonce td_gasLimit td_value td_data
         td_chainId td_maxFeePerGas td_maxPriorityFeePerGas td_pV td_pR
         td_pS opt_common] in H.
  destruct H as
    (toB' & vB' & rB' & sB' & nonceB & gasLimitB & valueB & dataB & c
     & maxFeeB & maxPrioB & pvB' & prB' & psB' & _ & Hv & Hr & Hs
     & _ & _ & _ & _ & _ & _ & _ & HpV & HpR & HpS & ->).
  apply toUint8Array_or0x_BigInt_inv in Hv, Hr, Hs.
  destruct Hv as (_ & _ & Hv). destruct Hr as (_ & _ & Hr).
  destruct Hs as (_ & _ & Hs).
  cbn in HpV, HpR, HpS.
  injection HpV as <-. injection HpR as <-. injection HpS as <-.
  cbn [v r s pV pR pS].
  assert (Hunsigned : forall t, pV t = None -> isSigned t = false)
    by (intros t; apply isSigned_false_pV).
  repeat (split; [first [assumption | reflexivity]|]).
  split; [apply Hunsigned; reflexivity|].
  split; [apply hash_not_signed, Hunsigned; reflexivity|].
  split.
  - unfold getSenderPublicKey. rewrite Hunsigned by reflexivity. reflexivity.
  - unfold getSenderAndPriorityPublicKey.
    rewrite Hunsigned by reflexivity. reflexivity.
Qed.

(** ** The checks of the signatures at construction *)

Lemma validateYParity_cases (this : Tx) :
  (_validateYParity this = Ok tt
   /\ ~ badParity (v this) /\ ~ badParity (pV this))
  \/ (_validateYParity this = Err InvalidSignatureParity
      /\ (badParity (v this) \/ badParity (pV this))).
Proof.
  unfold _validateYParity, badParity.
  destruct (v this) as [v0|].
  - destruct (Z.eqb_spec v0 0) as [Hv0|Hv0];
      [|destruct (Z.eqb_spec v0 1) as [Hv1|Hv1]];
      cbn [negb andb throw_if bind].
    3: { right. split; [reflexivity|]. left. exists v0. auto. }
    all: destruct (pV this) as [p0|];
      [destruct (Z.eqb_spec p0 0) as [Hp0|Hp0];
       [|destruct (Z.eqb_spec p0 1) as [Hp1|Hp1]]|];
      cbn [negb andb throw_if];
      first
        [ right; split; [reflexivity|]; right; exists p0; auto
        | left; split; [reflexivity|];
          split; intros (n & [= <-] & H0 & H1); congruence
        | left; split; [reflexivity|];
          split; [intros (n & [= <-] & H0 & H1); congruence
                 | intros (n & Hn & _); discriminate] ].
  - cbn [throw_if bind].
    destruct (pV this) as [p0|];
      [destruct (Z.eqb_spec p0 0) as [Hp0|Hp0];
       [|destruct (Z.eqb_spec p0 1) as [Hp1|Hp1]]|];
      cbn [negb andb throw_if];
      first
        [ right; split; [reflexivity|]; right; exists p0; auto
        | left; split; [reflexivity|];
          split; [intros (n & Hn & _); discriminate
                 | intros (n & [= <-] & H0 & H1); congruence]
        | left; split; [reflexivity|];
          split; intros (n & Hn & _); discriminate ].
Qed.

Lemma validateHighS_cases (this : Tx) :
  (_validateHighS this = Ok tt
   /\ (Common.gteHardfork (common this) Common.Homestead = true ->
       ~ highS (s this) /\ ~ highS (pS this)))
  \/ (_validateHighS this = Err HighSSignature
      /\ Common.gteHardfork (common this) Common.Homestead = true
      /\ (highS (s this) \/ highS (pS this))).
Proof.
  unfold _validateHighS, highS.
  destruct (Common.gteHardfork (common this) Common.Homestead);
    cbn [andb throw_if bind].
  - destruct (s this) as [s0|].
    + destruct (Z.ltb_spec SECP256K1_ORDER_DIV_2 s0) as [Hs|Hs];
        cbn [throw_if bind].
      * right. split; [reflexivity|]. split; [reflexivity|].
        left. exists s0. auto.
      * destruct (pS this) as [p0|].
        -- destruct (Z.ltb_spec SECP256K1_ORDER_DIV_2 p0) as [Hp|Hp];
             cbn [throw_if].
           ++ right. split; [reflexivity|]. split; [reflexivity|].
              right. exists p0. auto.
           ++ left. split; [reflexivity|]. intros _.
              split; intros (n & [= <-] & Hn); lia.
        -- left. split; [reflexivity|]. intros _.
           split; [intros (n & [= <-] & Hn); lia
                  | intros (n & Hn & _); discriminate].
    + cbn [throw_if bind]. destruct (pS this) as [p0|].
      * destruct (Z.ltb_spec SECP256K1_ORDER_DIV_2 p0) as [Hp|Hp];
          cbn [throw_if].
        -- right. split; [reflexivity|]. split; [reflexivity|].
           right. exists p0. auto.
        -- left. split; [reflexivity|]. intros _.
           split; [intros (n & Hn & _); discriminate
                  | intros (n & [= <-] & Hn); lia].
      * left. split; [reflexivity|]. intros _.
        split; intros (n & Hn & _); discriminate.
  - left. split; [reflexivity|]. discriminate.
Qed.

Lemma constructor_fields_errors (txData : PriorityETNIP1TxData)
  (opts : TxOptions) (e : TxError) :
  constructor_fields txData opts = Err e ->
  In e [InvalidFieldValue; InvalidAddressLength; IntegerOverflow;
        ChainIdMismatch; UnsupportedUpgrade; InvalidFieldShape].
Proof.
  intros H.
  destruct e; try (cbn; tauto); exfalso; revert H;
    match goal with
    | |- ?m = Err ?e -> False => change (~ raises m e)
    end;
    constructor_no_raise.
Qed.

(** X10.  The construction fails with InvalidSignatureParity exactly when the
    fields are accepted, the two checks of the fees pass, and v or pV is
    present and neither 0 nor 1; it fails with HighSSignature exactly when,
    moreover, the parities are right, the registry has reached homestead,
    and s or pS exceeds half the curve order. *)
Theorem constructor_signature_checks :
  forall (txData : PriorityETNIP1TxData) (opts : TxOptions),
    (constructor txData opts = Err InvalidSignatureParity
     <-> exists this,
           constructor_fields txData opts = Ok this
           /\ gasLimit this * maxFeePerGas this <= MAX_INTEGER
           /\ maxPriorityFeePerGas this <= maxFeePerGas this
           /\ (badParity (v this) \/ badParity (pV this)))
    /\ (constructor txData opts = Err HighSSignature
        <-> exists this,
              constructor_fields txData opts = Ok this
              /\ gasLimit this * maxFeePerGas this <= MAX_INTEGER
              /\ maxPriorityFeePerGas this <= maxFeePerGas this
              /\ ~ badParity (v this) /\ ~ badParity (pV this)
              /\ Common.gteHardfork (common this) Common.Homestead = true
              /\ (highS (s this) \/ highS (pS this))).
Proof.
  intros txData opts.
  assert (Hshape :
            forall e,
              e = InvalidSignatureParity \/ e = HighSSignature ->
              constructor txData opts = Err e ->
              exists this,
                constructor_fields txData opts = Ok this
                /\ gasLimit this * maxFeePerGas this <= MAX_INTEGER
                /\ maxPriorityFeePerGas this <= maxFeePerGas this
                /\ (_validateYParity this ;;; _validateHighS this ;;; Ok tt)
                   = Err e).
  { intros e He H. unfold constructor in H.
    apply bind_Err_inv in H. destruct H as [H | (this & Hfields & H)].
    - apply constructor_fields_errors in H. cbn in H.
      destruct He as [-> | ->]; intuition discriminate.
    - exists this. split; [exact Hfields|].
      unfold constructor_checks in H.
      destruct (Z.ltb_spec MAX_INTEGER (gasLimit this * maxFeePerGas this))
        as [Hover|Hcost]; cbn [throw_if bind] in H;
        [destruct He as [-> | ->]; discriminate|].
      destruct (Z.ltb_spec (maxFeePerGas this) (maxPriorityFeePerGas this))
        as [Hlt|Horder]; cbn [throw_if bind] in H;
        [destruct He as [-> | ->]; discriminate|].
      split; [exact Hcost|]. split; [exact Horder|].
      destruct (_validateYParity this) as [u|e1]; cbn [bind] in H |- *;
        [|congruence].
      destruct (_validateHighS this) as [u'|e2]; cbn [bind] in H |- *;
        [discriminate | congruence]. }
  assert (Hback :
            forall this e,
              constructor_fields txData opts = Ok this ->
              gasLimit this * maxFeePerGas this <= MAX_INTEGER ->
              maxPriorityFeePerGas this <= maxFeePerGas this ->
              (_validateYParity this ;;; _validateHighS this ;;; Ok tt)
              = Err e ->
              constructor txData opts = Err e).
  { intros this e Hfields Hcost Horder H.
    rewrite (constructor_unfold _ _ _ Hfields). unfold constructor_checks.
    apply Z.ltb_ge in Hcost, Horder. rewrite Hcost, Horder.
    cbn [throw_if bind].
    destruct (_validateYParity this) as [u|e1]; cbn [bind] in H |- *;
      [|congruence].
    destruct (_validateHighS this) as [u'|e2]; cbn [bind] in H |- *;
      [discriminate | congruence]. }
  split; split.
  - intros H. destruct (Hshape _ (or_introl eq_refl) H)
      as (this & Hfields & Hcost & Horder & Hsig).
    exists this. repeat (split; [assumption|]).
    destruct (validateYParity_cases this) as [(Hp & _) | (_ & Hbad)];
      [|exact Hbad].
    rewrite Hp in Hsig. cbn [bind] in Hsig.
    destruct (validateHighS_cases this) as [(Hs & _) | (Hs & _)];
      rewrite Hs in Hsig; discriminate.
  - intros (this & Hfields & Hcost & Horder & Hbad).
    apply (Hback this _ Hfields Hcost Horder).
    destruct (validateYParity_cases this) as [(_ & Hv & HpV) | (Hp & _)];
      [tauto|].
    rewrite Hp. reflexivity.
  - intros H. destruct (Hshape _ (or_intror eq_refl) H)
      as (this & Hfields & Hcost & Horder & Hsig).
    exists this. repeat (split; [assumption|]).
    destruct (validateYParity_cases this) as [(Hp & Hv & HpV) | (Hp & _)];
      [|rewrite Hp in Hsig; discriminate].
    rewrite Hp in Hsig. cbn [bind] in Hsig.
    destruct (validateHighS_cases this) as [(Hs & _) | (Hs & Hh & Hhigh)];
      [rewrite Hs in Hsig; discriminate|].
    auto.
  - intros (this & Hfields & Hcost & Horder & Hv & HpV & Hh & Hhigh).
    apply (Hback this _ Hfields Hcost Horder).
    destruct (validateYParity_cases this) as [(Hp & _) | (_ & Hbad)];
      [|tauto].
    rewrite Hp. cbn [bind].
    destruct (validateHighS_cases this) as [(_ & Hlow) | (Hs & _)];
      [specialize (Hlow Hh); tauto|].
    rewrite Hs. reflexivity.
Qed.

(** X11.  The construction fails with UnsupportedUpgrade exactly when the shared
    fields are accepted, the registry is resolved, and EIP-1559 is not
    active on it; the access list and the fees are not looked at before. *)
Theorem constructor_unsupported_upgrade :
  forall (txData : PriorityETNIP1TxData) (opts : TxOptions),
    constructor txData opts = Err UnsupportedUpgrade
    <-> exists base c,
          BaseTransaction_constructor txData opts = Ok base
          /\ _getCommon (opt_common opts) (td_chainId txData) = Ok c
          /\ Common.isActivatedEIP c 1559 = false.
Proof.
  intros txData opts. unfold constructor, constructor_fields. split.
  - intros H.
    apply bind_Err_inv in H. destruct H as [H | (this & _ & H)].
    + apply bind_Err_inv in H. destruct H as [H | (base & Hbase & H)].
      * exfalso. revert H.
        change (~ raises (BaseTransaction_constructor txData opts)
                  UnsupportedUpgrade).
        constructor_no_raise.
      * apply bind_Err_inv in H. destruct H as [H | (c & Hc & H)].
        -- exfalso. revert H.
           change (~ raises (_getCommon (opt_common opts)
                               (td_chainId txData)) UnsupportedUpgrade).
           constructor_no_raise.
        -- cbv zeta in H.
           cbn [common set_common set_chainId] in H.
           exists base, c. split; [exact Hbase|]. split; [exact Hc|].
           destruct (Common.isActivatedEIP c 1559); [|reflexivity].
           exfalso. revert H. cbn [negb throw_if bind].
           match goal with
           | |- ?m = Err ?e -> False => change (~ raises m e)
           end.
           constructor_no_raise.
    + exfalso. revert H.
      change (~ raises (constructor_checks opts this) UnsupportedUpgrade).
      constructor_no_raise.
  - intros (base & c & Hbase & Hc & Hinactive).
    rewrite Hbase. cbn [bind]. rewrite Hc. cbn [bind]. cbv zeta.
    cbn [common set_common set_chainId]. rewrite Hinactive. reflexivity.
Qed.

(** ** The invariant of the class *)

Lemma reachable_signatures_checked (this : Tx) :
  reachable this ->
  ~ badParity (v this) /\ ~ badParity (pV this)
  /\ (Common.gteHardfork (common this) Common.Homestead = true ->
      ~ highS (s this) /\ ~ highS (pS this)).
Proof.
  intros Hreach.
  destruct (reachable_invariant this Hreach) as [Hwf _].
  destruct (validateYParity_cases this) as [(_ & Hv & HpV) | (Hp & _)];
    [|rewrite (wf_yParity _ Hwf) in Hp; discriminate].
  split; [exact Hv|]. split; [exact HpV|].
  destruct (validateHighS_cases this) as [(_ & Hlow) | (Hs & _)];
    [exact Hlow | rewrite (wf_lowS _ Hwf) in Hs; discriminate].
Qed.

(** X9.  Every instance keeps what the constructor has checked: its chainId is
    that of its registry, on which EIP-1559 is active; the capabilities
    1559, 2718 and 2930 are on; maxPriorityFeePerGas <= maxFeePerGas <=
    2^256 - 1 and gasLimit * maxFeePerGas <= 2^256 - 1; a parity that is
    present is 0 or 1; and from homestead on neither s nor pS exceeds half
    the curve order. *)
Theorem instance_invariant :
  forall this : Tx,
    reachable this ->
    chainId this = Common.chainId (common this)
    /\ Common.isActivatedEIP (common this) 1559 = true
    /\ supports this 1559 = true
    /\ supports this 2718 = true
    /\ supports this 2930 = true
    /\ maxPriorityFeePerGas this <= maxFeePerGas this <= MAX_INTEGER
    /\ gasLimit this * maxFeePerGas this <= MAX_INTEGER
    /\ ~ badParity (v this) /\ ~ badParity (pV this)
    /\ (Common.gteHardfork (common this) Common.Homestead = true ->
        ~ highS (s this) /\ ~ highS (pS this)).
Proof.
  intros this Hreach.
  destruct (reachable_invariant this Hreach) as [Hwf _].
  pose proof (reachable_capabilities this Hreach) as Hcaps.
  split; [apply (wf_chainId _ Hwf)|].
  split; [apply (wf_eip1559 _ Hwf)|].
  unfold supports. rewrite Hcaps.
  split; [reflexivity|]. split; [reflexivity|]. split; [reflexivity|].
  split; [split; [apply (wf_fee_order _ Hwf)
                 | apply (wf_maxFeePerGas _ Hwf)]|].
  split; [apply (wf_gas_cost _ Hwf)|].
  apply reachable_signatures_checked. exact Hreach.
Qed.

(** ** The raw values and back *)

Lemma unpadded_be_head (fuel : nat) :
  forall (n : Z) (acc : bytes),
    0 < n < 2 ^ Z.of_nat fuel ->
    exists b rest,
      unpadded_be fuel n acc = b :: rest /\ Z_of_byte b <> 0.
Proof.
  induction fuel as [|f IH]; intros n acc Hn.
  - cbn in Hn. lia.
  - cbn [unpadded_be].
    destruct (Z.leb_spec n 0) as [Hle|Hpos]; [lia|].
    rewrite Nat2Z.inj_succ, Z.pow_succ_r in Hn by lia.
    destruct (Z.eq_dec (n / 256) 0) as [Hq|Hq].
    + assert (Hsmall : n < 256).
      { destruct (Z.lt_ge_cases n 256) as [Hlt|Hge]; [exact Hlt|].
        assert (1 <= n / 256) by (apply Z.div_le_lower_bound; lia). lia. }
      rewrite Hq.
      exists (byte_of_Z (n mod 256)), acc. split.
      * destruct f; reflexivity.
      * rewrite Z_of_byte_of_Z, Z.mod_mod by lia.
        rewrite Z.mod_small by lia. lia.
    + apply IH. split.
      * assert (0 <= n / 256) by (apply Z.div_pos; lia). lia.
      * apply Z.div_lt_upper_bound; lia.
Qed.

(** The minimal bytes of a number have no leading zero. *)
Lemma hasLeadingZero_unpadded (n : Z) :
  hasLeadingZero (Uint8Array (bigIntToUnpaddedUint8Array n)) = false.
Proof.
  destruct (Z.leb_spec n 0) as [Hle|Hpos].
  - unfold bigIntToUnpaddedUint8Array. cbn [unpadded_be].
    apply Z.leb_le in Hle. rewrite Hle. reflexivity.
  - destruct (unpadded_be_head (S (Z.to_nat (Z.log2 n))) n [])
      as (b & rest & Hb & Hnz).
    + split; [exact Hpos|].
      rewrite Nat2Z.inj_succ, Z2Nat.id by apply Z.log2_nonneg.
      apply Z.log2_spec. exact Hpos.
    + unfold bigIntToUnpaddedUint8Array. rewrite Hb. cbn [hasLeadingZero].
      apply Z.eqb_neq. exact Hnz.
Qed.

Lemma hasLeadingZero_unpaddedOrEmpty (x : option Z) :
  hasLeadingZero (Uint8Array (unpaddedOrEmpty x)) = false.
Proof.
  destruct x as [n|]; [apply hasLeadingZero_unpadded | reflexivity].
Qed.

Lemma unpadded_zero : bigIntToUnpaddedUint8Array 0 = [].
Proof. reflexivity. Qed.

Lemma unpadded_roundtrip (n : Z) :
  0 <= n ->
  bigIntToUnpaddedUint8Array (uint8ArrayToBigInt (bigIntToUnpaddedUint8Array n))
  = bigIntToUnpaddedUint8Array n.
Proof. intros Hn. rewrite uint8ArrayToBigInt_unpadded by exact Hn. reflexivity. Qed.

(** A stored component read back from its raw bytes: a present, positive
    number is itself, and 0 or an absent component is absent. *)
Lemma bigIntIfNonEmpty_unpaddedOrEmpty (x : option Z) :
  (forall n, x = Some n -> 0 <= n) ->
  (bigIntIfNonEmpty (unpaddedOrEmpty x) = None
   \/ bigIntIfNonEmpty (unpaddedOrEmpty x) = x)
  /\ unpaddedOrEmpty (bigIntIfNonEmpty (unpaddedOrEmpty x))
     = unpaddedOrEmpty x.
Proof.
  intros Hx. destruct x as [n|]; [|split; [left|]; reflexivity].
  specialize (Hx n eq_refl). cbn [unpaddedOrEmpty].
  destruct (Z.eq_dec n 0) as [->|Hne].
  - split; [left|]; reflexivity.
  - assert (Hsome : bigIntIfNonEmpty (bigIntToUnpaddedUint8Array n) = Some n).
    { unfold bigIntIfNonEmpty.
      pose proof (unpadded_nonempty n ltac:(lia)) as Hlen.
      destruct (Z.ltb_spec 0
                  (Z.of_nat (List.length (bigIntToUnpaddedUint8Array n))))
        as [_|Hle]; [|lia].
      rewrite uint8ArrayToBigInt_unpadded by exact Hx. reflexivity. }
    rewrite Hsome. split; [right|]; reflexivity.
Qed.

Lemma uint8ArrayToBigInt_unpaddedOrEmpty (x : option Z) :
  (forall n, x = Some n -> 0 <= n) ->
  uint8ArrayToBigInt (unpaddedOrEmpty x) = orZero x.
Proof.
  intros Hx. destruct x as [n|]; [|reflexivity].
  apply uint8ArrayToBigInt_unpadded. apply Hx. reflexivity.
Qed.

Lemma allBytes_Str (l : list bytes) : allBytes (map RLP.Str l) = Some l.
Proof.
  induction l as [|b l IH]; [reflexivity|].
  cbn [map allBytes itemBytes]. rewrite IH. reflexivity.
Qed.

(** The raw form of an access list reads back as the access list. *)
Lemma slotAccessList_raw (al : AccessListUint8Array) :
  slotAccessList (Some (accessListRaw al)) = Ok al.
Proof.
  unfold slotAccessList, accessListRaw.
  assert (H : accessListItems
                (map (fun item =>
                        RLP.Lst [RLP.Str (fst item);
                                 RLP.Lst (map RLP.Str (snd item))]) al)
              = Some al).
  { induction al as [|[address slots] al IH]; [reflexivity|].
    cbn [map accessListItems accessListItem fst snd].
    rewrite allBytes_Str, IH. reflexivity. }
  rewrite H. reflexivity.
Qed.

(** The components of the signatures of an instance are not negative. *)
Lemma constructed_nonnegative (txData : PriorityETNIP1TxData)
  (opts : TxOptions) (tx : Tx) :
  constructor txData opts = Ok tx ->
  (forall n, v tx = Some n -> 0 <= n)
  /\ (forall n, pV tx = Some n -> 0 <= n)
  /\ (forall n, pR tx = Some n -> 0 <= n)
  /\ (forall n, pS tx = Some n -> 0 <= n).
Proof.
  intros H. apply constructor_inv in H.
  destruct H as
    (toB & vB & rB & sB & nonceB & gasLimitB & valueB & dataB & c
     & maxFeeB & maxPrioB & pvB & prB & psB & _ & _ & _ & _ & _ & _ & _
     & _ & _ & _ & _ & _ & _ & _ & ->).
  cbn [v pV pR pS].
  repeat split; intros n Hn;
    match type of Hn with
    | bigIntIfNonEmpty ?b = _ =>
        pose proof (bigIntIfNonEmpty_range b) as Hr; rewrite Hn in Hr;
        exact Hr
    end.
Qed.

Lemma reachable_nonnegative (this : Tx) :
  reachable this ->
  (forall n, v this = Some n -> 0 <= n)
  /\ (forall n, pV this = Some n -> 0 <= n)
  /\ (forall n, pR this = Some n -> 0 <= n)
  /\ (forall n, pS this = Some n -> 0 <= n).
Proof.
  induction 1 as [txData opts this H | values opts this H
                 | this this' h _ IH H
                 | this privateKey priorityPrivateKey Hr IH
                 | this tx privateKey priorityPrivateKey _ _ H].
  - eapply constructed_nonnegative; exact H.
  - apply fromValuesArray_inv in H. destruct H as [txData [H _]].
    eapply constructed_nonnegative; exact H.
  - apply hash_Ok_inv in H. destruct H as [-> | ->]; exact IH.
  - rewrite sign_type_64;
      [exact IH | apply wf_type, reachable_invariant; exact Hr].
  - apply sign_result_constructed in H. destruct H as [txData [opts H]].
    eapply constructed_nonnegative; exact H.
Qed.

(** The data that [fromValuesArray] hands to the constructor for the raw
    values of an instance. *)
Lemma fromValuesArray_raw_data (this : Tx) (opts : TxOptions) :
  0 <= chainId this ->
  (forall n, v this = Some n -> 0 <= n) ->
  (forall n, pV this = Some n -> 0 <= n) ->
  fromValuesArray (raw this) opts
  = constructor
      (mkTxData (BigInt (chainId this))
         (Uint8Array (bigIntToUnpaddedUint8Array (nonce this)))
         (Uint8Array (bigIntToUnpaddedUint8Array (maxPriorityFeePerGas this)))
         (Uint8Array (bigIntToUnpaddedUint8Array (maxFeePerGas this)))
         (Uint8Array (bigIntToUnpaddedUint8Array (gasLimit this)))
         (Uint8Array (match to this with Some buf => buf | None => [] end))
         (Uint8Array (bigIntToUnpaddedUint8Array (value this)))
         (Uint8Array (data this))
         (Some (accessList this))
         (BigInt (orZero (v this)))
         (Uint8Array (unpaddedOrEmpty (r this)))
         (Uint8Array (unpaddedOrEmpty (s this)))
         (BigInt (orZero (pV this)))
         (Uint8Array (unpaddedOrEmpty (pR this)))
         (Uint8Array (unpaddedOrEmpty (pS this))))
      opts.
Proof.
  intros Hchain Hv HpV.
  unfold fromValuesArray.
  change (throw_if _ WrongFieldCount) with (Ok tt). cbn [bind].
  unfold fromValuesArray_fields, raw. cbv zeta.
  cbn [nth_error slot slotToBigInt].
  unfold _validateNotArray, validateNoLeadingZeroes.
  cbn [existsb isArray orb throw_if bind].
  rewrite !hasLeadingZero_unpadded, !hasLeadingZero_unpaddedOrEmpty.
  cbn [orb throw_if bind].
  rewrite slotAccessList_raw. cbn [bind].
  rewrite uint8ArrayToBigInt_unpadded by exact Hchain.
  rewrite !uint8ArrayToBigInt_unpaddedOrEmpty by assumption.
  reflexivity.
Qed.

Lemma fromValuesArray_raw_Ok :
  forall (this : Tx) (opts : TxOptions),
    reachable this ->
    0 <= chainId this ->
    opt_common opts = Some (common this) ->
    exists tx,
      fromValuesArray (raw this) opts = Ok tx /\ raw tx = raw this.
Proof.
  intros this opts Hreach Hchain Hcommon.
  destruct (reachable_invariant this Hreach) as [Hwf _].
  destruct (reachable_nonnegative this Hreach) as (Hv & HpV & HpR & HpS).
  destruct (reachable_signatures_checked this Hreach)
    as (Hvpar & HpVpar & HlowS).
  rewrite (fromValuesArray_raw_data this opts Hchain Hv HpV).
  destruct (toUint8Array_or0x_BigInt_Ok (orZero (v this)))
    as (vB & HvB & _ & SvB).
  { destruct (v this) as [n|]; [apply Hv; reflexivity | cbn; lia]. }
  destruct (toUint8Array_or0x_BigInt_Ok (orZero (pV this)))
    as (pvB & HpvB & _ & SpvB).
  { destruct (pV this) as [n|]; [apply HpV; reflexivity | cbn; lia]. }
  pose proof (wf_nonce _ Hwf) as [Nnonce Bnonce].
  pose proof (wf_gasLimit _ Hwf) as [Ngas Bgas].
  pose proof (wf_value _ Hwf) as [Nvalue Bvalue].
  pose proof (wf_maxFeePerGas _ Hwf) as [NmaxFee BmaxFee].
  pose proof (wf_maxPriorityFeePerGas _ Hwf) as [NmaxPrio BmaxPrio].
  assert (Hr : forall n, r this = Some n -> 0 <= n).
  { intros n Hn. pose proof (wf_r _ Hwf) as H. rewrite Hn in H. lia. }
  assert (Hs : forall n, s this = Some n -> 0 <= n).
  { intros n Hn. pose proof (wf_s _ Hwf) as H. rewrite Hn in H. lia. }
  destruct (bigIntIfNonEmpty_unpaddedOrEmpty (r this) Hr) as [Cr Rr].
  destruct (bigIntIfNonEmpty_unpaddedOrEmpty (s this) Hs) as [Cs Rs].
  destruct (bigIntIfNonEmpty_unpaddedOrEmpty (pR this) HpR) as [CpR RpR].
  destruct (bigIntIfNonEmpty_unpaddedOrEmpty (pS this) HpS) as [CpS RpS].
  set (toB := match to this with Some buf => buf | None => [] end).
  assert (Htolen : toB = [] \/ List.length toB = 20%nat).
  { pose proof (wf_to _ Hwf) as Hlen. unfold toB.
    destruct (to this); auto. }
  eexists. split.
  - eapply (constructor_Ok _ _ toB vB
              (unpaddedOrEmpty (r this)) (unpaddedOrEmpty (s this))
              (bigIntToUnpaddedUint8Array (nonce this))
              (bigIntToUnpaddedUint8Array (gasLimit this))
              (bigIntToUnpaddedUint8Array (value this))
              (data this) (common this)
              (bigIntToUnpaddedUint8Array (maxFeePerGas this))
              (bigIntToUnpaddedUint8Array (maxPriorityFeePerGas this))
              pvB (unpaddedOrEmpty (pR this)) (unpaddedOrEmpty (pS this)));
      cbn [td_to td_v td_r td_s td_nonce td_gasLimit td_value td_data
             td_chainId td_maxFeePerGas td_maxPriorityFeePerGas td_pV td_pR
             td_pS];
      try eassumption; try reflexivity.
    + rewrite Hcommon, (wf_chainId _ Hwf). apply getCommon_given_Ok.
      rewrite <- (wf_chainId _ Hwf). exact Hchain.
    + rewrite uint8ArrayToBigInt_unpadded by exact Nnonce. exact Bnonce.
    + rewrite uint8ArrayToBigInt_unpadded by exact Ngas. exact Bgas.
    + rewrite uint8ArrayToBigInt_unpadded by exact Nvalue. exact Bvalue.
    + intros n Hn. pose proof (wf_r _ Hwf) as H.
      destruct Cr as [Cr|Cr]; rewrite Cr in Hn; [discriminate|].
      rewrite Hn in H. lia.
    + intros n Hn. pose proof (wf_s _ Hwf) as H.
      destruct Cs as [Cs|Cs]; rewrite Cs in Hn; [discriminate|].
      rewrite Hn in H. lia.
    + apply (wf_eip1559 _ Hwf).
    + apply (wf_accessList _ Hwf).
    + rewrite uint8ArrayToBigInt_unpadded by exact NmaxFee. exact BmaxFee.
    + rewrite uint8ArrayToBigInt_unpadded by exact NmaxPrio. exact BmaxPrio.
    + cbn [gasLimit maxFeePerGas].
      rewrite !uint8ArrayToBigInt_unpadded by assumption.
      apply (wf_gas_cost _ Hwf).
    + cbn [maxPriorityFeePerGas maxFeePerGas].
      rewrite !uint8ArrayToBigInt_unpadded by assumption.
      apply (wf_fee_order _ Hwf).
    + match goal with
      | |- _validateYParity ?t = _ =>
          destruct (validateYParity_cases t) as [(Hok & _) | (_ & Hbad)];
            [exact Hok|]
      end.
      cbn [v pV] in Hbad. rewrite SvB, SpvB in Hbad. exfalso.
      destruct Hbad as [(n & [= <-] & H0 & H1) | (n & [= <-] & H0 & H1)].
      * apply Hvpar. destruct (v this) as [m|]; [|cbn in H0; lia].
        exists m. auto.
      * apply HpVpar. destruct (pV this) as [m|]; [|cbn in H0; lia].
        exists m. auto.
    + match goal with
      | |- _validateHighS ?t = _ =>
          destruct (validateHighS_cases t) as [(Hok & _) | (_ & Hh & Hbad)];
            [exact Hok|]
      end.
      cbn [s pS common] in Hh, Hbad. exfalso.
      destruct (HlowS Hh) as [Hs1 Hs2].
      destruct Hbad as [(n & Hn & Hhigh) | (n & Hn & Hhigh)].
      * destruct Cs as [Cs|Cs]; rewrite Cs in Hn; [discriminate Hn|].
        apply Hs1. exists n. split; assumption.
      * destruct CpS as [CpS|CpS]; rewrite CpS in Hn; [discriminate Hn|].
        apply Hs2. exists n. split; assumption.
  - assert (Hraw :
              forall t,
                raw (if freezeOption opts then freeze_object t else t)
                = raw t)
      by (intros t; destruct (freezeOption opts); reflexivity).
    rewrite Hraw.
    { unfold raw.
      cbn [_type nonce gasLimit to value data v r s common chainId
             accessList maxPriorityFeePerGas maxFeePerGas pV pR pS].
      rewrite SvB, SpvB, Rr, Rs, RpR, RpS.
      rewrite !uint8ArrayToBigInt_unpadded by assumption.
      rewrite <- (wf_chainId _ Hwf).
      assert (Hto : match match toB with [] => None | _ => Some toB end with
                    | Some buf => buf
                    | None => []
                    end = toB) by (destruct toB; reflexivity).
      rewrite Hto. unfold toB.
      assert (Hvv : unpaddedOrEmpty (Some (orZero (v this)))
                    = unpaddedOrEmpty (v this))
        by (destruct (v this); reflexivity).
      assert (Hpp : unpaddedOrEmpty (Some (orZero (pV this)))
                    = unpaddedOrEmpty (pV this))
        by (destruct (pV this); reflexivity).
      rewrite Hvv, Hpp. reflexivity. }
Qed.

(** X1.  [fromValuesArray(tx.raw())], with the registry of [tx], returns an
    instance with the same raw values, hence the same wire bytes and the
    same message to sign. *)
Theorem fromValuesArray_raw_roundtrip :
  forall (this : Tx) (opts : TxOptions),
    reachable this ->
    0 <= chainId this ->
    opt_common opts = Some (common this) ->
    exists tx,
      fromValuesArray (raw this) opts = Ok tx
      /\ raw tx = raw this
      /\ serialize tx = serialize this
      /\ getMessageToSign tx false = getMessageToSign this false.
Proof.
  intros this opts Hreach Hchain Hcommon.
  destruct (fromValuesArray_raw_Ok this opts Hreach Hchain Hcommon)
    as (tx & Htx & Hraw).
  exists tx. split; [exact Htx|]. split; [exact Hraw|]. split.
  - unfold serialize. rewrite Hraw. reflexivity.
  - unfold getMessageToSign. rewrite Hraw. reflexivity.
Qed.

(** ** The serialized form and back *)

Lemma uint8ArrayEquals_eq (a b : bytes) :
  uint8ArrayEquals a b = true <-> a = b.
Proof.
  revert b. induction a as [|x a IH]; intros [|y b]; cbn [uint8ArrayEquals];
    try (split; [discriminate | discriminate]); [tauto|].
  rewrite andb_true_iff, IH. split.
  - intros [Hxy ->]. apply Byte.byte_dec_bl in Hxy. subst. reflexivity.
  - intros [= -> ->]. split; [apply Byte.byte_dec_lb|]; reflexivity.
Qed.

(** X2.  [fromSerializedTx] fails with WrongTransactionType on every input that
    does not start with the byte 0x40, the empty input included, without
    calling the decoder.  On the wire bytes of an instance, with the
    registry of the instance and a decoder that gives back the list that
    was encoded, it returns an instance with the same raw values and the
    same wire bytes. *)
Theorem fromSerializedTx_serialize :
  forall (RLP_decode : bytes -> result RLP.Item),
    (forall (serialized : bytes) (opts : TxOptions),
       hd_error serialized <> Some x40 ->
       fromSerializedTx RLP_decode serialized opts
       = Err WrongTransactionType)
    /\ (forall (this : Tx) (opts : TxOptions),
          reachable this ->
          0 <= chainId this ->
          opt_common opts = Some (common this) ->
          RLP_decode (RLP.encode (RLP.Lst (raw this)))
          = Ok (RLP.Lst (raw this)) ->
          exists tx,
            fromSerializedTx RLP_decode (serialize this) opts = Ok tx
            /\ raw tx = raw this
            /\ serialize tx = serialize this).
Proof.
  intros RLP_decode. split.
  - intros serialized opts Hhead. unfold fromSerializedTx.
    destruct (uint8ArrayEquals (firstn 1 serialized)
                TRANSACTION_TYPE_UINT8ARRAY) eqn:Heq; [|reflexivity].
    apply uint8ArrayEquals_eq in Heq. exfalso. apply Hhead.
    destruct serialized as [|b rest]; [discriminate|].
    cbn [firstn] in Heq. injection Heq as ->. reflexivity.
  - intros this opts Hreach Hchain Hcommon Hdecode.
    destruct (fromValuesArray_raw_Ok this opts Hreach Hchain Hcommon)
      as (tx & Htx & Hraw).
    exists tx. split;
      [|split; [exact Hraw | unfold serialize; rewrite Hraw; reflexivity]].
    unfold fromSerializedTx, serialize.
    change (firstn 1 (TRANSACTION_TYPE_UINT8ARRAY
                      ++ RLP.encode (RLP.Lst (raw this))))
      with TRANSACTION_TYPE_UINT8ARRAY.
    change (skipn 1 (TRANSACTION_TYPE_UINT8ARRAY
                     ++ RLP.encode (RLP.Lst (raw this))))
      with (RLP.encode (RLP.Lst (raw this))).
    rewrite (proj2 (uint8ArrayEquals_eq _ _) eq_refl).
    cbn [negb throw_if bind]. rewrite Hdecode. cbn [bind]. exact Htx.
Qed.

(** ** Leading zeros in a values array *)

Lemma uint8ArrayToBigInt_leading_zero (b : bytes) :
  uint8ArrayToBigInt (x00 :: b) = uint8ArrayToBigInt b.
Proof. rewrite uint8ArrayToBigInt_cons. cbn. lia. Qed.

(** X14.  [fromValuesArray] does not look at leading zeros of the chainId: a
    values array whose chainId has one more leading zero byte gives the
    same result. *)
Theorem fromValuesArray_chainId_leading_zero :
  forall (chainIdB : bytes) (rest : list RLP.Item) (opts : TxOptions),
    fromValuesArray (RLP.Str (x00 :: chainIdB) :: rest) opts
    = fromValuesArray (RLP.Str chainIdB :: rest) opts.
Proof.
  intros chainIdB rest opts.
  unfold fromValuesArray. cbn [List.length].
  destruct (throw_if _ WrongFieldCount); [|reflexivity]. cbn [bind].
  unfold fromValuesArray_fields. cbv zeta.
  cbn [nth_error slot slotToBigInt].
  rewrite uint8ArrayToBigInt_leading_zero. reflexivity.
Qed.

(** X13.  In a values array of 9 or 15 values whose chainId and v are byte
    strings, a leading zero byte in nonce, maxPriorityFeePerGas,
    maxFeePerGas, gasLimit, value, v, r, s, pV, pR or pS makes
    [fromValuesArray] fail with InvalidFieldEncoding. *)
Theorem fromValuesArray_leading_zero :
  forall (values : list RLP.Item) (opts : TxOptions) (i : nat) (b : bytes),
    List.length values = 9%nat \/ List.length values = 15%nat ->
    (forall l, nth_error values 0 <> Some (RLP.Lst l)) ->
    (forall l, nth_error values 9 <> Some (RLP.Lst l)) ->
    In i [1; 2; 3; 4; 6; 9; 10; 11; 12; 13; 14]%nat ->
    nth_error values i = Some (RLP.Str (x00 :: b)) ->
    fromValuesArray values opts = Err InvalidFieldEncoding.
Proof.
  intros values opts i b Hlen Hchain Hv Hi Hzero.
  unfold fromValuesArray.
  assert (Hcount : throw_if
                     (negb (Z.of_nat (List.length values) =? 9)
                      && negb (Z.of_nat (List.length values) =? 15))
                     WrongFieldCount = Ok tt)
    by (destruct Hlen as [-> | ->]; reflexivity).
  rewrite Hcount. cbn [bind].
  unfold fromValuesArray_fields. cbv zeta.
  assert (Hshape : _validateNotArray
                     [slot (nth_error values 0); slot (nth_error values 9)]
                   = Ok tt).
  { unfold _validateNotArray. cbn [existsb].
    destruct (nth_error values 0) as [[c|l]|];
      [| exfalso; exact (Hchain l eq_refl) |];
      (destruct (nth_error values 9) as [[w|l']|];
       [reflexivity | exfalso; exact (Hv l' eq_refl) | reflexivity]). }
  rewrite Hshape. cbn [bind].
  assert (Hlead : validateNoLeadingZeroes
                    [slot (nth_error values 1); slot (nth_error values 2);
                     slot (nth_error values 3); slot (nth_error values 4);
                     slot (nth_error values 6); slot (nth_error values 9);
                     slot (nth_error values 10); slot (nth_error values 11);
                     slot (nth_error values 12); slot (nth_error values 13);
                     slot (nth_error values 14)]
                  = Err InvalidFieldEncoding).
  { unfold validateNoLeadingZeroes.
    match goal with
    | |- throw_if ?c _ = _ => assert (Hc : c = true)
    end.
    { apply existsb_exists. exists (slot (nth_error values i)).
      split; [|rewrite Hzero; reflexivity].
      cbn [In] in Hi |- *.
      repeat (destruct Hi as [<- | Hi]; [tauto|]). contradiction. }
    rewrite Hc. reflexivity. }
  rewrite Hlead. reflexivity.
Qed.

(** ** Signing and recovering *)

(** X3.  When the recovery primitive gives the public key [pub k] for what the
    signer makes with the key [k] over the digest of the unsigned message,
    [getSenderAndPriorityPublicKey()] on the instance that [sign] returns
    gives the public keys of the two signing keys, and [hash()] succeeds
    on it. *)
Theorem sign_then_recover :
  forall (this tx : Tx) (privateKey priorityKey : bytes)
         (pub : bytes -> bytes),
    reachable this ->
    snd (sign this privateKey (Some priorityKey)) = Ok tx ->
    (forall k sig,
       secp256k1_sign (getMessageToSign this true) k = Some sig ->
       ecrecover (getMessageToSign this true) (recovery sig + 27)
         (bigIntToUnpaddedUint8Array (signatureR sig))
         (bigIntToUnpaddedUint8Array (signatureS sig))
       = Some (pub k)) ->
    getSenderAndPriorityPublicKey tx = Ok (pub privateKey, pub priorityKey)
    /\ getSenderPublicKey tx = Ok (pub privateKey)
    /\ exists tx', hash tx = Ok (keccak256 (serialize tx), tx').
Proof.
  intros this tx privateKey priorityKey pub Hreach Hsign Hlib.
  destruct (reachable_invariant this Hreach) as [Hwf _].
  pose proof (reachable_capabilities this Hreach) as Hcaps.
  assert (HlowS : _validateHighS tx = Ok tt).
  { destruct (sign_result_constructed _ _ _ _ Hsign) as (txData & opts & H).
    apply constructor_well_formed in H. destruct H as (Hwf' & _).
    apply (wf_lowS _ Hwf'). }
  assert (Hcache : cache_hash tx = None).
  { destruct (sign_result_constructed _ _ _ _ Hsign) as (txData & opts & H).
    apply constructor_well_formed in H. tauto. }
  rewrite (sign_type_64 this privateKey (Some priorityKey) (wf_type _ Hwf))
    in Hsign.
  cbn [snd] in Hsign.
  destruct (negb (Z.of_nat (List.length privateKey) =? 32)
            || negb (Z.of_nat (List.length priorityKey) =? 32));
    [discriminate|].
  cbv zeta in Hsign.
  apply bind_Ok_inv in Hsign. destruct Hsign as [sg [Hsg Hsign]].
  apply bind_Ok_inv in Hsign. destruct Hsign as [psg [Hpsg Hsign]].
  apply ecsign_inv in Hsg. destruct Hsg as (sig & Hsig & ->).
  apply ecsign_inv in Hpsg. destruct Hpsg as (pSig & HpSig & ->).
  cbn [sig_v sig_r sig_s] in Hsign.
  eapply processSignatures_inv in Hsign; [|exact Hwf|exact Hcaps].
  rewrite !Z.add_simpl_r in Hsign.
  pose proof (Hlib _ _ Hsig) as Hkey.
  pose proof (Hlib _ _ HpSig) as HpKey.
  unfold signatureR, signatureS in Hkey, HpKey.
  assert (Hdual : getSenderAndPriorityPublicKey tx
                  = Ok (pub privateKey, pub priorityKey)).
  { unfold getSenderAndPriorityPublicKey. rewrite HlowS. subst tx.
    cbn [isSigned withSignatures v r s pV pR pS isDefined negb orb throw_if
           bind orZero].
    change (getMessageToVerifySignature (withSignatures this _ _ _ _ _ _))
      with (getMessageToSign this true).
    rewrite Hkey, HpKey. reflexivity. }
  split; [exact Hdual|]. split.
  - unfold getSenderPublicKey. rewrite HlowS. subst tx.
    cbn [isSigned withSignatures v r s pV pR pS isDefined negb orb throw_if
           bind orZero].
    change (getMessageToVerifySignature (withSignatures this _ _ _ _ _ _))
      with (getMessageToSign this true).
    rewrite Hkey. reflexivity.
  - destruct (hash_signed tx) as (tx' & Hhash & _).
    + subst tx. reflexivity.
    + unfold cache_consistent. rewrite Hcache. exact I.
    + exists tx'. exact Hhash.
Qed.

(** ** Signing again *)

Lemma sign_result_shape (this tx : Tx) (privateKey : bytes)
  (priorityPrivateKey : option bytes) :
  reachable this ->
  snd (sign this privateKey priorityPrivateKey) = Ok tx ->
  exists sig pSig,
    tx = withSignatures this (recovery sig) (signatureR sig)
           (signatureS sig) (recovery pSig) (signatureR pSig)
           (signatureS pSig).
Proof.
  intros Hreach Hsign.
  destruct (reachable_invariant this Hreach) as [Hwf _].
  pose proof (reachable_capabilities this Hreach) as Hcaps.
  rewrite (sign_type_64 this privateKey priorityPrivateKey (wf_type _ Hwf))
    in Hsign.
  cbn [snd] in Hsign.
  destruct priorityPrivateKey as [priorityKey|]; [|discriminate].
  destruct (negb (Z.of_nat (List.length privateKey) =? 32)
            || negb (Z.of_nat (List.length priorityKey) =? 32));
    [discriminate|].
  cbv zeta in Hsign.
  apply bind_Ok_inv in Hsign. destruct Hsign as [sg [Hsg Hsign]].
  apply bind_Ok_inv in Hsign. destruct Hsign as [psg [Hpsg Hsign]].
  apply ecsign_inv in Hsg. destruct Hsg as (sig & Hsig & ->).
  apply ecsign_inv in Hpsg. destruct Hpsg as (pSig & HpSig & ->).
  cbn [sig_v sig_r sig_s] in Hsign.
  eapply processSignatures_inv in Hsign; [|exact Hwf|exact Hcaps].
  rewrite !Z.add_simpl_r in Hsign.
  exists sig, pSig. exact Hsign.
Qed.

(** X4.  [sign] does not depend on the signatures that an instance carries:
    signing the instance that [sign] has returned gives, for any keys, the
    result of signing the original instance with these keys, and leaves the
    signed instance as it was. *)
Theorem sign_again :
  forall (this tx : Tx) (privateKey : bytes)
         (priorityPrivateKey : option bytes) (privateKey' : bytes)
         (priorityPrivateKey' : option bytes),
    reachable this ->
    snd (sign this privateKey priorityPrivateKey) = Ok tx ->
    snd (sign tx privateKey' priorityPrivateKey')
    = snd (sign this privateKey' priorityPrivateKey')
    /\ fst (sign tx privateKey' priorityPrivateKey') = tx.
Proof.
  intros this tx privateKey priorityPrivateKey privateKey'
    priorityPrivateKey' Hreach Hsign.
  pose proof (reach_sign_result this tx privateKey priorityPrivateKey Hreach
                Hsign) as Hreach'.
  destruct (reachable_invariant this Hreach) as [Hwf _].
  destruct (reachable_invariant tx Hreach') as [Hwf' _].
  destruct (sign_result_shape this tx privateKey priorityPrivateKey Hreach
              Hsign) as (sig & pSig & Htx).
  rewrite (sign_type_64 tx privateKey' priorityPrivateKey' (wf_type _ Hwf')).
  rewrite (sign_type_64 this privateKey' priorityPrivateKey'
             (wf_type _ Hwf)).
  cbn [fst snd]. split; [|reflexivity].
  subst tx. reflexivity.
Qed.

(** ** The parities in a values array *)

Lemma fromValuesArray_inv_v (values : list RLP.Item) (opts : TxOptions)
  (tx : Tx) :
  fromValuesArray values opts = Ok tx ->
  exists txData,
    constructor txData opts = Ok tx
    /\ slotToBigInt (nth_error values 9) = Ok (td_v txData)
    /\ slotToBigInt (nth_error values 12) = Ok (td_pV txData).
Proof.
  unfold fromValuesArray. intros H.
  apply bind_Ok_inv in H. destruct H as [u [_ H]].
  unfold fromValuesArray_fields in H. cbv zeta in H.
  apply bind_Ok_inv in H. destruct H as [u1 [_ H]].
  apply bind_Ok_inv in H. destruct H as [u2 [_ H]].
  apply bind_Ok_inv in H. destruct H as [chainId' [_ H]].
  apply bind_Ok_inv in H. destruct H as [v' [Hv H]].
  apply bind_Ok_inv in H. destruct H as [pV' [HpV H]].
  apply bind_Ok_inv in H. destruct H as [al [_ H]].
  eexists. split; [exact H|].
  cbn [td_v td_pV]. auto.
Qed.

Lemma constructor_parities (txData : PriorityETNIP1TxData)
  (opts : TxOptions) (tx : Tx) :
  constructor txData opts = Ok tx ->
  exists vB pvB,
    toUint8Array_or0x (td_v txData) = Ok vB
    /\ toUint8Array_or0x (td_pV txData) = Ok pvB
    /\ v tx = bigIntIfNonEmpty vB
    /\ pV tx = bigIntIfNonEmpty pvB.
Proof.
  intros H. apply constructor_inv in H.
  destruct H as
    (toB & vB & rB & sB & nonceB & gasLimitB & valueB & dataB & c
     & maxFeeB & maxPrioB & pvB & prB & psB & _ & Hv & _ & _ & _ & _ & _
     & _ & _ & _ & _ & HpV & _ & _ & ->).
  exists vB, pvB. auto.
Qed.

(** X15.  In an instance made by [fromValuesArray], a parity slot (v or pV) that
    holds the empty byte string is stored as the parity 0, not as absent; a
    slot that is missing, as both are in an array of 9 values, is stored as
    absent. *)
Theorem fromValuesArray_empty_parity :
  forall (values : list RLP.Item) (opts : TxOptions) (tx : Tx),
    fromValuesArray values opts = Ok tx ->
    (nth_error values 9 = Some (RLP.Str []) -> v tx = Some 0)
    /\ (nth_error values 12 = Some (RLP.Str []) -> pV tx = Some 0)
    /\ (nth_error values 9 = None -> v tx = None)
    /\ (nth_error values 12 = None -> pV tx = None)
    /\ (List.length values = 9%nat -> v tx = None /\ pV tx = None).
Proof.
  intros values opts tx H.
  apply fromValuesArray_inv_v in H.
  destruct H as (txData & H & Hv & HpV).
  apply constructor_parities in H.
  destruct H as (vB & pvB & HvB & HpvB & -> & ->).
  assert (Hempty :
            forall x d b,
              slotToBigInt x = Ok d -> toUint8Array_or0x d = Ok b ->
              (x = Some (RLP.Str []) -> bigIntIfNonEmpty b = Some 0)
              /\ (x = None -> bigIntIfNonEmpty b = None)).
  { intros x d b Hx Hd. split; intros ->; cbn in Hx; injection Hx as <-;
      cbn in Hd; injection Hd as <-; reflexivity. }
  destruct (Hempty _ _ _ Hv HvB) as [Hv0 HvNone].
  destruct (Hempty _ _ _ HpV HpvB) as [HpV0 HpVNone].
  repeat (split; [assumption|]).
  intros Hlen.
  assert (H9 : nth_error values 9 = None)
    by (apply nth_error_None; lia).
  assert (H12 : nth_error values 12 = None)
    by (apply nth_error_None; lia).
  auto.
Qed.

End FurtherProperties.

(** ** The further properties at concrete inputs *)

Lemma upfront_cost_capped_witness :
  exists tx,
    fromTxData (E := toy_externals) (feeData 10 8 100 6) opts_london = Ok tx
    /\ getUpfrontCost tx (Some 4) <= 1006
    /\ getUpfrontCost tx (Some 2) = 1006
    /\ getUpfrontCost tx (Some 1) <= getUpfrontCost tx (Some 2).
Proof.
  assert (Hc : exists tx,
             fromTxData (E := toy_externals) (feeData 10 8 100 6)
               opts_london = Ok tx
             /\ gasLimit tx * maxFeePerGas tx + value tx = 1006
             /\ maxFeePerGas tx - maxPriorityFeePerGas tx <= 2).
  { eexists. split; [vm_compute; reflexivity|].
    split; [vm_compute; reflexivity | vm_compute; discriminate]. }
  destruct Hc as (tx & Hc & Hcap & Hfrom).
  exists tx. split; [exact Hc|].
  pose proof (reach_fromTxData _ _ _ Hc) as Hreach.
  destruct (upfront_cost_capped (E := toy_externals) tx 4 Hreach)
    as (Hle & _).
  destruct (upfront_cost_capped (E := toy_externals) tx 2 Hreach)
    as (_ & _ & Heq & _).
  destruct (upfront_cost_capped (E := toy_externals) tx 1 Hreach)
    as (_ & Hmono & _).
  rewrite Hcap in Hle, Heq.
  split; [exact Hle|]. split; [exact (Heq Hfrom)|].
  apply Hmono. vm_compute. discriminate.
Defined.

Lemma hash_idempotent_witness :
  exists tx tx' h,
    fromTxData (E := toy_externals) signedData opts_london = Ok tx
    /\ hash (E := toy_externals) tx = Ok (h, tx')
    /\ hash (E := toy_externals) tx' = Ok (h, tx')
    /\ cache_hash tx' = Some h.
Proof.
  assert (Hc : exists tx tx' h,
             fromTxData (E := toy_externals) signedData opts_london = Ok tx
             /\ hash (E := toy_externals) tx = Ok (h, tx')
             /\ frozen tx = true).
  { eexists. eexists. eexists. split; [vm_compute; reflexivity|].
    split; [vm_compute; reflexivity | vm_compute; reflexivity]. }
  destruct Hc as (tx & tx' & h & Hc & Hhash & Hfrozen).
  exists tx, tx', h. split; [exact Hc|]. split; [exact Hhash|].
  destruct (hash_idempotent (E := toy_externals) tx tx' h
              (reach_fromTxData _ _ _ Hc) Hhash)
    as (_ & Hagain & _ & Hslot).
  split; [exact Hagain | exact (Hslot Hfrozen)].
Defined.

Lemma sign_invalid_key_length_witness :
  exists this,
    fromTxData (E := toy_externals) (feeData 10 8 100 6) opts_london
    = Ok this
    /\ snd (sign (E := toy_externals) this sampleKey None)
       = Err InvalidKeyLength
    /\ snd (sign (E := toy_externals) this sampleKey (Some [x01]))
       = Err InvalidKeyLength.
Proof.
  assert (Hc : exists this,
             fromTxData (E := toy_externals) (feeData 10 8 100 6)
               opts_london = Ok this).
  { eexists. vm_compute. reflexivity. }
  destruct Hc as (this & Hc). exists this. split; [exact Hc|]. split.
  - apply (sign_invalid_key_length (E := toy_externals)). left. reflexivity.
  - apply (sign_invalid_key_length (E := toy_externals)).
    right. exists [x01]. split; [reflexivity|]. right. discriminate.
Defined.

Lemma sender_keys_agree_witness :
  exists tx,
    fromTxData (E := toy_externals) signedData opts_london = Ok tx
    /\ getSenderPublicKey (E := toy_externals) tx = Ok [x05]
    /\ getSenderPublicKey (E := toy_externals) (priorityAsPrimary tx)
       = Ok [x0b].
Proof.
  assert (Hc : exists tx,
             fromTxData (E := toy_externals) signedData opts_london = Ok tx
             /\ getSenderAndPriorityPublicKey (E := toy_externals) tx
                = Ok ([x05], [x0b])).
  { eexists. split; [vm_compute; reflexivity|]. vm_compute. reflexivity. }
  destruct Hc as (tx & Hc & Hdual).
  exists tx. split; [exact Hc|].
  exact (sender_keys_agree (E := toy_externals) tx [x05] [x0b] Hdual).
Defined.

Lemma processSignature_not_signed_witness :
  exists this tx,
    fromTxData (E := toy_externals) (feeData 10 8 100 6) opts_london
    = Ok this
    /\ _processSignature (E := toy_externals) this 27 sampleKey sampleKey
       = Ok tx
    /\ isSigned tx = false
    /\ hash (E := toy_externals) tx = Err NotSigned
    /\ getSenderPublicKey (E := toy_externals) tx = Err NotSigned.
Proof.
  assert (Hc : exists this tx,
             fromTxData (E := toy_externals) (feeData 10 8 100 6)
               opts_london = Ok this
             /\ _processSignature (E := toy_externals) this 27 sampleKey
                  sampleKey = Ok tx).
  { eexists. eexists. split; [vm_compute; reflexivity|].
    vm_compute. reflexivity. }
  destruct Hc as (this & tx & Hc & Htx).
  exists this, tx. split; [exact Hc|]. split; [exact Htx|].
  destruct (processSignature_not_signed (E := toy_externals) this tx 27
              sampleKey sampleKey Htx)
    as (_ & _ & _ & _ & _ & _ & Hsigned & Hhash & Hsender & _).
  split; [exact Hsigned|]. split; [exact Hhash | exact Hsender].
Defined.

Lemma constructor_signature_checks_witness :
  constructor (E := toy_externals) badParityData opts_london
  = Err InvalidSignatureParity
  /\ constructor (E := toy_externals) highSData opts_london
     = Err HighSSignature.
Proof.
  split.
  - apply (constructor_signature_checks (E := toy_externals)).
    eexists. split; [vm_compute; reflexivity|].
    split; [vm_compute; discriminate|].
    split; [vm_compute; discriminate|].
    left. exists 2. split; [vm_compute; reflexivity|]. split; discriminate.
  - apply (constructor_signature_checks (E := toy_externals)).
    eexists. split; [vm_compute; reflexivity|].
    split; [vm_compute; discriminate|].
    split; [vm_compute; discriminate|].
    split; [intros (n & Hn & H0 & H1); vm_compute in Hn;
            injection Hn as <-; congruence|].
    split; [intros (n & Hn & H0 & H1); vm_compute in Hn;
            injection Hn as <-; congruence|].
    split; [vm_compute; reflexivity|].
    right. exists (SECP256K1_ORDER_DIV_2 + 1).
    split; [vm_compute; reflexivity | vm_compute; reflexivity].
Defined.

Lemma constructor_unsupported_upgrade_witness :
  constructor (E := toy_externals) (feeData 10 8 100 6) opts_berlin
  = Err UnsupportedUpgrade.
Proof.
  apply (constructor_unsupported_upgrade (E := toy_externals)).
  eexists. eexists. split; [vm_compute; reflexivity|].
  split; vm_compute; reflexivity.
Defined.

Lemma instance_invariant_witness :
  exists tx,
    fromTxData (E := toy_externals) signedData opts_london = Ok tx
    /\ chainId tx = 4
    /\ maxPriorityFeePerGas tx <= maxFeePerGas tx
    /\ ~ badParity (v tx)
    /\ ~ highS (pS tx).
Proof.
  assert (Hc : exists tx,
             fromTxData (E := toy_externals) signedData opts_london = Ok tx
             /\ Common.chainId (common tx) = 4
             /\ Common.gteHardfork (common tx) Common.Homestead = true).
  { eexists. split; [vm_compute; reflexivity|].
    split; vm_compute; reflexivity. }
  destruct Hc as (tx & Hc & Hchain & Hhomestead).
  exists tx. split; [exact Hc|].
  destruct (instance_invariant (E := toy_externals) tx
              (reach_fromTxData _ _ _ Hc))
    as (Hid & _ & _ & _ & _ & (Horder & _) & _ & Hv & _ & HlowS).
  split; [rewrite Hid; exact Hchain|]. split; [exact Horder|].
  split; [exact Hv|]. exact (proj2 (HlowS Hhomestead)).
Defined.

Lemma fromValuesArray_raw_roundtrip_witness :
  exists this tx,
    fromTxData (E := toy_externals) signedData opts_london = Ok this
    /\ fromValuesArray (E := toy_externals) (raw this) opts_london = Ok tx
    /\ raw tx = raw this
    /\ serialize tx = serialize this.
Proof.
  assert (Hc : exists this,
             fromTxData (E := toy_externals) signedData opts_london
             = Ok this
             /\ 0 <= chainId this
             /\ opt_common opts_london = Some (common this)).
  { eexists. split; [vm_compute; reflexivity|].
    split; [vm_compute; discriminate | vm_compute; reflexivity]. }
  destruct Hc as (this & Hc & Hchain & Hcommon).
  destruct (fromValuesArray_raw_roundtrip (E := toy_externals) this
              opts_london (reach_fromTxData _ _ _ Hc) Hchain Hcommon)
    as (tx & Htx & Hraw & Hser & _).
  exists this, tx. auto.
Defined.

Lemma fromSerializedTx_serialize_witness :
  exists this tx,
    fromTxData (E := toy_externals) signedData opts_london = Ok this
    /\ fromSerializedTx (E := toy_externals)
         (fun _ => Ok (RLP.Lst (raw this))) (serialize this) opts_london
       = Ok tx
    /\ serialize tx = serialize this
    /\ fromSerializedTx (E := toy_externals)
         (fun _ => Ok (RLP.Lst (raw this))) [x02; xc0] opts_london
       = Err WrongTransactionType.
Proof.
  assert (Hc : exists this,
             fromTxData (E := toy_externals) signedData opts_london
             = Ok this
             /\ 0 <= chainId this
             /\ opt_common opts_london = Some (common this)).
  { eexists. split; [vm_compute; reflexivity|].
    split; [vm_compute; discriminate | vm_compute; reflexivity]. }
  destruct Hc as (this & Hc & Hchain & Hcommon).
  destruct (fromSerializedTx_serialize (E := toy_externals)
              (fun _ => Ok (RLP.Lst (raw this)))) as [Hwrong Hback].
  destruct (Hback this opts_london (reach_fromTxData _ _ _ Hc) Hchain
              Hcommon eq_refl) as (tx & Htx & _ & Hser).
  exists this, tx. split; [exact Hc|]. split; [exact Htx|].
  split; [exact Hser|]. apply Hwrong. discriminate.
Defined.

Lemma fromValuesArray_leading_zero_witness :
  fromValuesArray (E := toy_externals) leadingZeroValues opts_london
  = Err InvalidFieldEncoding.
Proof.
  apply (fromValuesArray_leading_zero (E := toy_externals)
           leadingZeroValues opts_london 1 []).
  - left. reflexivity.
  - intros l. discriminate.
  - intros l. discriminate.
  - cbn. auto.
  - reflexivity.
Defined.

Lemma sign_then_recover_witness :
  exists this tx,
    fromTxData (E := toy_externals) (feeData 10 8 100 6) opts_london
    = Ok this
    /\ snd (sign (E := toy_externals) this sampleKey (Some sampleKey))
       = Ok tx
    /\ getSenderAndPriorityPublicKey (E := toy_externals) tx
       = Ok (toy_public_key sampleKey, toy_public_key sampleKey).
Proof.
  assert (Hc : exists this tx,
             fromTxData (E := toy_externals) (feeData 10 8 100 6)
               opts_london = Ok this
             /\ snd (sign (E := toy_externals) this sampleKey
                       (Some sampleKey)) = Ok tx).
  { eexists. eexists. split; [vm_compute; reflexivity|].
    vm_compute. reflexivity. }
  destruct Hc as (this & tx & Hc & Htx).
  exists this, tx. split; [exact Hc|]. split; [exact Htx|].
  destruct (sign_then_recover (E := toy_externals) this tx sampleKey
              sampleKey toy_public_key (reach_fromTxData _ _ _ Hc) Htx)
    as (Hdual & _).
  - intros k sig Hsig. cbn in Hsig. injection Hsig as <-. reflexivity.
  - exact Hdual.
Defined.

Lemma sign_again_witness :
  exists this tx,
    fromTxData (E := toy_externals) (feeData 10 8 100 6) opts_london
    = Ok this
    /\ snd (sign (E := toy_externals) this sampleKey (Some sampleKey))
       = Ok tx
    /\ snd (sign (E := toy_externals) tx sampleKey (Some sampleKey))
       = Ok tx.
Proof.
  assert (Hc : exists this tx,
             fromTxData (E := toy_externals) (feeData 10 8 100 6)
               opts_london = Ok this
             /\ snd (sign (E := toy_externals) this sampleKey
                       (Some sampleKey)) = Ok tx).
  { eexists. eexists. split; [vm_compute; reflexivity|].
    vm_compute. reflexivity. }
  destruct Hc as (this & tx & Hc & Htx).
  exists this, tx. split; [exact Hc|]. split; [exact Htx|].
  destruct (sign_again (E := toy_externals) this tx sampleKey
              (Some sampleKey) sampleKey (Some sampleKey)
              (reach_fromTxData _ _ _ Hc) Htx) as [Hsame _].
  rewrite Hsame. exact Htx.
Defined.

Lemma fromValuesArray_empty_parity_witness :
  (exists tx,
     fromValuesArray (E := toy_externals) unsignedValues opts_london = Ok tx
     /\ v tx = Some 0 /\ pV tx = Some 0)
  /\ (exists tx,
        fromValuesArray (E := toy_externals) (firstn 9 unsignedValues)
          opts_london = Ok tx
        /\ v tx = None /\ pV tx = None).
Proof.
  split.
  - assert (Hc : exists tx,
               fromValuesArray (E := toy_externals) unsignedValues
                 opts_london = Ok tx).
    { eexists. vm_compute. reflexivity. }
    destruct Hc as (tx & Hc). exists tx. split; [exact Hc|].
    destruct (fromValuesArray_empty_parity (E := toy_externals) _ _ _ Hc)
      as (Hv & HpV & _).
    split; [apply Hv | apply HpV]; reflexivity.
  - assert (Hc : exists tx,
               fromValuesArray (E := toy_externals)
                 (firstn 9 unsignedValues) opts_london = Ok tx).
    { eexists. vm_compute. reflexivity. }
    destruct Hc as (tx & Hc). exists tx. split; [exact Hc|].
    destruct (fromValuesArray_empty_parity (E := toy_externals) _ _ _ Hc)
      as (_ & _ & _ & _ & Hnine).
    apply Hnine. reflexivity.
Defined.
